(** * Wanderers squash booking site: booking ledger, waiting list,
      booking limits and lights-credit adjustment

    A shallow embedding of the parts of [app/dbconnection.py],
    [app/flask_bookings_app.py], [app/flask_waitinglist_app.py] and
    [app/flask_financials_app.py] that decide how a booking cell is
    reserved and released, how the waiting list file is mutated, how the
    daily and weekly limits are counted and how the credit of a member is
    debited.

    Conventions of the embedding:
    - a table of the Access database is the list of its rows, a nullable
      column is an [option];
    - [S_Credit], the tariffs and the fees are numbers the code handles
      as Python floats: they are binary64 numbers, with the correctly
      rounded operations of [SpecFloat] at precision 53;
    - text is compared by [LIKE] without regard to the case of ASCII
      letters, as Access does;
    - an [UPDATE ... WHERE ...] statement is one function over the whole
      table: every row the [WHERE] clause accepts is rewritten, and
      [cursor.rowcount] is the number of those rows;
    - the JSON waiting list file is the value [json.load] returns, a
      [gmap] from date to a [gmap] from time slot to the list of entries;
    - a Python exception that leaves a function is the [Raise] outcome;
    - [print] calls are dropped. *)

From Stdlib Require Import ZArith String Ascii List Bool Lia.
From Stdlib Require SpecFloat.
From stdpp Require Import base option list gmap strings sorting.
Import ListNotations.

Local Open Scope Z_scope.
Local Open Scope string_scope.
Local Open Scope list_scope.

(** ** Python outcomes *)

Inductive PyExn : Type :=
  | TypeError
  | IndexError
  | ValueError
  | AttributeError
  | OverflowError.

Inductive outcome (A : Type) : Type :=
  | Return (a : A)
  | Raise (e : PyExn).
Arguments Return {A} a.
Arguments Raise {A} e.

(** ** Amounts

    A Python float is a binary64 number. [fsub] and [fmul] are the
    operators [-] and [*]; [float_of_ratio n d] is the float nearest to
    [n / d], the value of a decimal literal or of a number typed into
    the table. *)

Abbreviation float := SpecFloat.spec_float.

Definition fsub : float -> float -> float := SpecFloat.SFsub 53 1024.
Definition fmul : float -> float -> float := SpecFloat.SFmul 53 1024.
Definition fdiv : float -> float -> float := SpecFloat.SFdiv 53 1024.

Definition float_of_ratio (n : Z) (d : positive) : float :=
  match n with
  | Z0 => SpecFloat.S754_zero false
  | Zpos p => fdiv (SpecFloat.S754_finite false p 0) (SpecFloat.S754_finite false d 0)
  | Zneg p => fdiv (SpecFloat.S754_finite true p 0) (SpecFloat.S754_finite false d 0)
  end.

Definition float_of_Z (n : Z) : float := float_of_ratio n 1.

(** [a / b] for [0 <= a] and [0 < b], to the nearest integer, a tie to
    the even one. *)
Definition round_half_even_div (a b : Z) : Z :=
  let q := a / b in
  match (2 * (a mod b) ?= b) with
  | Lt => q
  | Gt => q + 1
  | Eq => if Z.even q then q else q + 1
  end.

(** [m * 2 ^ e] to the nearest integer, a tie to the even one. *)
Definition round_half_even (m : positive) (e : Z) : Z :=
  match e with
  | Zneg p => round_half_even_div (Zpos m) (2 ^ Zpos p)
  | _ => Zpos m * 2 ^ e
  end.

(** The text [f"{x:.nf}"]: the sign and the digits without the point
    (["-12.50"] is [Digits true 1250]), or ["inf"], ["-inf"], ["nan"]. *)
Inductive DecimalText : Type :=
  | Digits (negative : bool) (digits : N)
  | TextInf (negative : bool)
  | TextNan.

Definition power_of_ten (n : nat) : positive := Z.to_pos (10 ^ Z.of_nat n).

(** [f"{x:.nf}"] prints the exact value of the float rounded to [n]
    decimals, a tie to the even digit. *)
Definition format_f (n : nat) (x : float) : DecimalText :=
  match x with
  | SpecFloat.S754_zero s => Digits s 0
  | SpecFloat.S754_finite s m e =>
      Digits s (Z.to_N (round_half_even (m * power_of_ten n) e))
  | SpecFloat.S754_infinity s => TextInf s
  | SpecFloat.S754_nan => TextNan
  end.

(** [float(text)] for a text of [n] decimals: the nearest float. *)
Definition float_of_text (n : nat) (text : DecimalText) : float :=
  match text with
  | Digits s N0 => SpecFloat.S754_zero s
  | Digits s (Npos k) =>
      fdiv (SpecFloat.S754_finite s k 0) (SpecFloat.S754_finite false (power_of_ten n) 0)
  | TextInf s => SpecFloat.S754_infinity s
  | TextNan => SpecFloat.S754_nan
  end.

(** [round(x, n)] on a float: the float nearest to the decimal that
    [f"{x:.nf}"] prints. *)
Definition py_round_digits (n : nat) (x : float) : float :=
  float_of_text n (format_f n x).

(** [round(x)] on a float: the nearest integer, a tie to the even one;
    an [OverflowError] for an infinity and a [ValueError] for a NaN. *)
Definition py_round (x : float) : outcome Z :=
  match x with
  | SpecFloat.S754_zero _ => Return 0
  | SpecFloat.S754_finite s m e =>
      Return (if s then - round_half_even m e else round_half_even m e)
  | SpecFloat.S754_infinity _ => Raise OverflowError
  | SpecFloat.S754_nan => Raise ValueError
  end.

(** The arithmetic is run by evaluation, not by unfolding in proofs. *)
#[global] Arguments fsub : simpl never.
#[global] Arguments fmul : simpl never.
#[global] Arguments fdiv : simpl never.
#[global] Arguments float_of_ratio : simpl never.
#[global] Arguments float_of_Z : simpl never.
#[global] Arguments format_f : simpl never.
#[global] Arguments float_of_text : simpl never.
#[global] Arguments py_round : simpl never.

(** ** The database *)

(** A row of [Clublist]. *)
Record ClublistRow : Type := {
  Mem_No : Z;
  Surname : option string;
  First : option string;
  CellPhone : option string;
  E_Mail_Adr : option string;
  S_Credit : option float;
  Book : list (option Z);   (* Book_1 .. Book_5 *)
  Week : list (option Z);   (* Week_1 .. Week_5 *)
}.

(** A row of [Bookfile]. [StartTime1] is the start of the slot as the
    statements name it, [dd/mm/yyyy HH:MM:SS]. Column [PlayerNo_k] is key [k - 1] of
    [PlayerNo], and [str.replace("PlayerNo", "PlayName")] takes it to the
    same key of [PlayName]; a column that holds [NULL] has no binding. *)
Record BookfileRow : Type := {
  StartTime1 : string;
  PlayerNo : gmap nat Z;
  PlayName : gmap nat string;
}.

(** A row of [Courts] as [get_court_rates_per_minute] selects it. *)
Record CourtsRow : Type := {
  CourtDesc : string;
  RATEPMIN : list (option float);
  IBOOKING : list (option float);
  ICANCEL : list (option float);
}.

(** [online] is whether [get_db_connection()] hands out a connection. *)
Record Database : Type := {
  online : bool;
  Clublist : list ClublistRow;
  Bookfile : list BookfileRow;
  Courts : list CourtsRow;
}.

Definition set_Bookfile (db : Database) (rows : list BookfileRow) : Database :=
  {| online := online db; Clublist := Clublist db;
     Bookfile := rows; Courts := Courts db |}.

Definition set_Clublist (db : Database) (rows : list ClublistRow) : Database :=
  {| online := online db; Clublist := rows;
     Bookfile := Bookfile db; Courts := Courts db |}.

(** The number of [PlayerNo_k] / [PlayName_k] columns of [Bookfile]; a
    statement that names another column fails with [pyodbc.Error]. *)
Definition player_columns : nat := 10.

(** ** Member profiles *)

(** The dictionary of a member, without the keys ["pin"] and
    ["blocked"], which no operation below reads. *)
Record Profile : Type := {
  surname : option string;
  first_name : option string;
  member_no : Z;
  cell_phone : option string;
  email : option string;
  credit : DecimalText;   (* f"{S_Credit if S_Credit is not None else 0:.2f}" *)
}.

Definition profile_of_row (row : ClublistRow) : Profile :=
  {| surname := Surname row;
     first_name := First row;
     member_no := Mem_No row;
     cell_phone := CellPhone row;
     email := E_Mail_Adr row;
     credit := format_f 2 (match S_Credit row with
                           | Some c => c
                           | None => float_of_Z 0
                           end) |}.

(** What [get_squash_members_profile(username=...)] hands back: [None],
    one dictionary, or (for a falsy [username]) the paginated list. *)
Inductive ProfileResult : Type :=
  | NoProfile
  | OneProfile (p : Profile)
  | ProfileList (ps : list Profile).

(** [cursor.fetchone()] of [SELECT ... WHERE [Mem_No] = ?]. *)
Definition fetchone_member (db : Database) (mem_no : Z) : option ClublistRow :=
  head (filter (fun row => Mem_No row = mem_no) (Clublist db)).

(** The branch [if username:] of [get_squash_members_profile]: the
    row of the member, if there is one. *)
Definition profile_of_username (db : Database) (username : Z) : ProfileResult :=
  if negb (online db) then NoProfile
  else
    match fetchone_member db username with
    | Some row => OneProfile (profile_of_row row)
    | None => NoProfile
    end.

(** [get_squash_members_profile(username=...)] for a number. The
    paginated branch, taken for a falsy [username], is [WHERE [Mem_No] >=
    0], first 50 rows; its [ORDER BY] is left out, no caller looks at the
    order. *)
Definition get_squash_members_profile (db : Database) (username : Z) : ProfileResult :=
  if negb (online db) then
    (if bool_decide (username = 0) then ProfileList [] else NoProfile)
  else if bool_decide (username = 0) then
    ProfileList (map profile_of_row
                   (take 50 (filter (fun row => 0 <= Mem_No row) (Clublist db))))
  else
    match fetchone_member db username with
    | Some row => OneProfile (profile_of_row row)
    | None => NoProfile
    end.

(** [f"{first_name[0]} {surname}"]: indexing [None] is a [TypeError],
    indexing the empty string an [IndexError], and [None] prints as
    ["None"]. *)
Definition py_str_opt (s : option string) : string :=
  match s with
  | Some s => s
  | None => "None"
  end.

Definition player_name_of (p : Profile) : outcome string :=
  match first_name p with
  | None => Raise TypeError
  | Some EmptyString => Raise IndexError
  | Some (String c _) => Return (String c (" " +:+ py_str_opt (surname p)))
  end.

(** ** Booking ledger: [update_internet_bookings], [delete_internet_booking] *)

Inductive BookingStatus : Type :=
  | StatusSuccess
  | StatusAlreadyBooked
  | StatusError (message : string).

Definition cell (row : BookfileRow) (col : nat) : option Z :=
  PlayerNo row !! col.

Definition name_cell (row : BookfileRow) (col : nat) : option string :=
  PlayName row !! col.

(** [SET [col] = v], where [v] may be [NULL]. *)
Definition set_column {V : Type} (col : nat) (v : option V) (m : gmap nat V) : gmap nat V :=
  match v with
  | Some x => <[col := x]> m
  | None => delete col m
  end.

(** [[col] IS NULL OR [col] = -9 OR [col] = 0]. *)
Definition where_cell_free (v : option Z) : bool :=
  match v with
  | None => true
  | Some n => bool_decide (n = -9) || bool_decide (n = 0)
  end.

(** [[col] = ?]: a comparison with [NULL] is never true. *)
Definition where_cell_is (v : option Z) (mem_no : Z) : bool :=
  match v with
  | None => false
  | Some n => bool_decide (n = mem_no)
  end.

Definition set_cell (row : BookfileRow) (col : nat)
    (no : option Z) (name : option string) : BookfileRow :=
  {| StartTime1 := StartTime1 row;
     PlayerNo := set_column col no (PlayerNo row);
     PlayName := set_column col name (PlayName row) |}.

(** One [UPDATE [Bookfile] SET ... WHERE ...]: the new table and
    [cursor.rowcount]. *)
Definition sql_update (accept : BookfileRow -> bool) (write : BookfileRow -> BookfileRow)
    (rows : list BookfileRow) : list BookfileRow * nat :=
  (map (fun row => if accept row then write row else row) rows,
   length (filter (fun row => accept row = true) rows)).

Definition update_internet_bookings (db : Database)
    (date_container : string) (mem_no : Z) (player_no_col : nat)
    (selected_time : string) : outcome BookingStatus * Database :=
  let start_time_value := date_container +:+ " " +:+ selected_time +:+ ":00" in
  match get_squash_members_profile db mem_no with
  | NoProfile | ProfileList [] =>
      (Return (StatusError "member profile missing"), db)
  | ProfileList (_ :: _) => (Raise TypeError, db)
  | OneProfile member_profile =>
      match player_name_of member_profile with
      | Raise e => (Raise e, db)
      | Return player_name =>
          if negb (online db) then
            (Return (StatusError "connection failed"), db)
          else if negb (bool_decide (player_no_col < player_columns)%nat) then
            (Return (StatusError "pyodbc.Error"), db)
          else
            let '(rows, rowcount) :=
              sql_update
                (fun row => bool_decide (StartTime1 row = start_time_value)
                            && where_cell_free (cell row player_no_col))
                (fun row => set_cell row player_no_col (Some mem_no) (Some player_name))
                (Bookfile db) in
            if bool_decide (0 < rowcount)%nat
            then (Return StatusSuccess, set_Bookfile db rows)
            else (Return StatusAlreadyBooked, set_Bookfile db rows)
      end
  end.

Definition delete_internet_booking (db : Database)
    (start_time1 : string) (mem_no : Z) (player_no_column : nat)
    : bool * Database :=
  if negb (online db) then (false, db)
  else if negb (bool_decide (player_no_column < player_columns)%nat) then (false, db)
  else
    let '(rows, rowcount) :=
      sql_update
        (fun row => bool_decide (StartTime1 row = start_time1)
                    && where_cell_is (cell row player_no_column) mem_no)
        (fun row => set_cell row player_no_column None None)
        (Bookfile db) in
    if bool_decide (0 < rowcount)%nat
    then (true, set_Bookfile db rows)
    else (false, set_Bookfile db rows).

(** ** Dates and clock readings

    [datetime] is a library of the interpreter, not code of the
    repository: its parsers and printers are an interface, and every
    definition below that calls one of them is parameterised by it. *)

Record pydate : Type := { year : Z; month : Z; day : Z }.

Record pydatetime : Type := {
  on : pydate;
  hour : Z;
  minute : Z;
  second : Z;
  microsecond : Z;
}.

Class DatetimeLib : Type := {
  (** [datetime.strptime(s, "%Y-%m-%d")], [None] for a [ValueError] *)
  strptime_Ymd : string -> option pydate;
  (** [datetime.strptime(s, "%d/%m/%Y")] *)
  strptime_dmY : string -> option pydate;
  (** [datetime.strptime(s, "%d/%m/%Y %H:%M:%S")] *)
  strptime_dmY_HMS : string -> option pydatetime;
  (** [datetime.strptime(s, "%H:%M")] *)
  strptime_HM : string -> option pydatetime;
  (** [d.strftime("%d/%m/%Y")] *)
  strftime_dmY : pydate -> string;
  (** [dt.strftime("%H:%M")] *)
  strftime_HM : pydatetime -> string;
}.

Definition lex (c1 c2 : comparison) : comparison :=
  match c1 with
  | Eq => c2
  | _ => c1
  end.

Definition date_compare (a b : pydate) : comparison :=
  lex (year a ?= year b)%Z (lex (month a ?= month b)%Z (day a ?= day b)%Z).

Definition datetime_compare (a b : pydatetime) : comparison :=
  lex (date_compare (on a) (on b))
    (lex (hour a ?= hour b)%Z
       (lex (minute a ?= minute b)%Z
          (lex (second a ?= second b)%Z (microsecond a ?= microsecond b)%Z))).

(** [a >= b] on dates and [a < b] on datetimes. *)
Definition date_geb (a b : pydate) : bool :=
  match date_compare a b with
  | Lt => false
  | _ => true
  end.

Definition datetime_ltb (a b : pydatetime) : bool :=
  match datetime_compare a b with
  | Lt => true
  | _ => false
  end.

(** ** Waiting list store *)

(** One entry of the JSON file. A missing or [null] name or address is
    embedded as the empty string: the code only tests them for truth
    before it uses them. *)
Record WaitingEntry : Type := {
  player_id : Z;
  entry_first_name : string;
  entry_last_name : string;
  email_address : string;
  status : string;
}.

#[global] Instance WaitingEntry_eq_dec : EqDecision WaitingEntry.
Proof. solve_decision. Defined.

Abbreviation WaitingList := (gmap string (gmap string (list WaitingEntry))).

(** [load_waiting_list] reads the file and [save_waiting_list] replaces
    it; the file is threaded through every operation as a value. *)

Section WaitingListStore.
Context `{DatetimeLib}.

(** The test of the loop of [cleanup_waiting_list]: a key that does not
    parse is skipped by the [except ValueError] and so is not copied. *)
Definition keeps_date (current_date : pydate) (date_str : string) : bool :=
  match strptime_dmY date_str with
  | Some date_obj => date_geb date_obj current_date
  | None => false
  end.

Definition cleanup_waiting_list (file : WaitingList) (now : pydatetime) : WaitingList :=
  filter (fun kv => keeps_date (on now) kv.1 = true) file.

End WaitingListStore.

(** [s.strip()]: white space of [str.isspace] among the code points
    below 256. *)
Definition py_isspace (c : ascii) : bool :=
  let n := nat_of_ascii c in
  ((9 <=? n) && (n <=? 13) || (28 <=? n) && (n <=? 32)
   || (n =? 133) || (n =? 160))%nat.

Fixpoint lstrip (s : string) : string :=
  match s with
  | EmptyString => EmptyString
  | String c rest => if py_isspace c then lstrip rest else s
  end.

Definition string_rev (s : string) : string :=
  string_of_list_ascii (rev (list_ascii_of_string s)).

Definition strip (s : string) : string :=
  string_rev (lstrip (string_rev (lstrip s))).

(** [s.count(c)] for a one-character [c]. *)
Fixpoint count_char (c : ascii) (s : string) : nat :=
  match s with
  | EmptyString => 0
  | String d rest => (if Ascii.eqb c d then 1 else 0) + count_char c rest
  end.

(** Python truth of a string. *)
Definition truthy (s : string) : bool :=
  match s with
  | EmptyString => false
  | String _ _ => true
  end.

(** [get_member_email_and_memnumber(username=...)]: [None], one
    dictionary or, for a falsy [username], the list of the paginated
    branch ([limit=None]: every row from [Mem_No] 0 on). *)
Inductive MemberEmailResult : Type :=
  | NoMember
  | MemberEmail (member_no : Z) (email : option string)
  | MemberEmailList (members : list (Z * option string)).

Definition get_member_email_and_memnumber (db : Database) (username : Z)
    : MemberEmailResult :=
  if negb (online db) then
    (if bool_decide (username = 0) then MemberEmailList [] else NoMember)
  else if bool_decide (username = 0) then
    MemberEmailList (map (fun row => (Mem_No row, E_Mail_Adr row))
                       (filter (fun row => 0 <= Mem_No row) (Clublist db)))
  else
    match fetchone_member db username with
    | Some row => MemberEmail (Mem_No row) (E_Mail_Adr row)
    | None => NoMember
    end.

(** The Flask session and the JSON body of a waiting list request. *)
Record Session : Type := {
  session_Mem_No : option Z;
  session_first_name : option string;
  session_last_name : option string;
}.

Record WaitingRequest : Type := {
  request_date : option string;
  request_time_slot : option string;
}.

Inductive AddResponse : Type :=
  | Added201 (email_address : string)
  | AlreadyInList200
  | AddError400 (error : string)
  | AddError500.

(** [not x] for an optional string: [None] and [""] are false. *)
Definition missing (x : option string) : bool :=
  match x with
  | Some s => negb (truthy s)
  | None => true
  end.

Section WaitingListOperations.
Context `{DatetimeLib}.

(** The date of the request is turned into [dd/mm/yyyy] when it parses
    as [yyyy-mm-dd] and is kept as it is otherwise. *)
Definition normalise_date (date : string) : string :=
  match strptime_Ymd date with
  | Some d => strftime_dmY d
  | None => date
  end.

(** [add_to_waiting_list]. The [finally] block writes to [InternetType]
    and [Internetlog] only, two tables the embedding leaves out. *)
Definition add_to_waiting_list (file : WaitingList) (db : Database)
    (now : pydatetime) (session : Session) (data : WaitingRequest)
    : AddResponse * WaitingList :=
  match session_Mem_No session with
  | None => (AddError400 "Unauthorized: No session found.", file)
  | Some player_id_ =>
      let first_name_ := default "Unknown" (session_first_name session) in
      let last_name_ := default "Unknown" (session_last_name session) in
      if missing (request_date data) || missing (request_time_slot data) then
        (AddError400 "Missing required fields: date or time_slot.", file)
      else
        let date := normalise_date (default "" (request_date data)) in
        let time_slot := default "" (request_time_slot data) in
        match get_member_email_and_memnumber db player_id_ with
        | NoMember | MemberEmailList [] =>
            (AddError400 "User information not found.", file)
        | MemberEmailList (_ :: _) =>
            (* a list has no [get]: the [AttributeError] is answered 500 *)
            (AddError500, file)
        | MemberEmail _ email_ =>
            if missing email_ || bool_decide (strip (default "" email_) = "") then
              (AddError400 "Please update email address in My Profile.", file)
            else if negb (count_char "@" (default "" email_) =? 1)%nat then
              (AddError400 "Invalid email address format.", file)
            else
              let email_address_ := default "" email_ in
              let waiting_list := cleanup_waiting_list file now in
              let slots := default ∅ (waiting_list !! date) in
              let entries := default [] (slots !! time_slot) in
              if existsb (fun entry => bool_decide (player_id entry = player_id_)) entries
              then (AlreadyInList200, waiting_list)
              else
                let entry := {| player_id := player_id_;
                                entry_first_name := first_name_;
                                entry_last_name := last_name_;
                                email_address := email_address_;
                                status := "active" |} in
                (Added201 email_address_,
                 <[date := <[time_slot := entries ++ [entry]]> slots]> waiting_list)
        end
  end.

End WaitingListOperations.

Inductive RemoveResponse : Type :=
  | Removed200
  | RemoveError401
  | RemoveError400
  | RemoveError404.

(** [remove_from_waiting_list]. *)
Definition remove_from_waiting_list (file : WaitingList)
    (session : Session) (data : WaitingRequest) : RemoveResponse * WaitingList :=
  match session_Mem_No session with
  | None => (RemoveError401, file)
  | Some player_id_ =>
      if missing (request_date data) || missing (request_time_slot data) then
        (RemoveError400, file)
      else
        let date := default "" (request_date data) in
        let time_slot := default "" (request_time_slot data) in
        match file !! date with
        | Some slots =>
            match slots !! time_slot with
            | Some entries =>
                let updated_entries :=
                  filter (fun entry => player_id entry <> player_id_) entries in
                let slots' :=
                  match updated_entries with
                  | _ :: _ => <[time_slot := updated_entries]> slots
                  | [] => delete time_slot slots
                  end in
                let waiting_list :=
                  if bool_decide (slots' = ∅) then delete date file
                  else <[date := slots']> file in
                (Removed200, waiting_list)
            | None => (RemoveError404, file)
            end
        | None => (RemoveError404, file)
        end
  end.

(** ** Mail transport

    [mail.send] is the SMTP client of Flask-Mail. It is embedded as a
    script of the outcomes of the coming sends ([true]: delivered,
    [false]: the send raises); a send after the end of the script is
    delivered. Every attempt is logged with its outcome. *)

Record MailMessage : Type := {
  recipient : string;
  F_Lastname : string;
  formatted_date : string;
  formatted_time : string;
}.

Record MailTransport : Type := {
  script : list bool;
  attempts : list (MailMessage * bool);
}.

(** [send_email(subject, [recipient], body)], where the body is a fixed
    text around the fields of [msg]. *)
Definition send_email (mt : MailTransport) (msg : MailMessage)
    : outcome unit * MailTransport :=
  let delivered := default true (head (script mt)) in
  let mt' := {| script := tail (script mt);
                attempts := attempts mt ++ [(msg, delivered)] |} in
  if delivered then (Return tt, mt') else (Raise ValueError, mt').

Section Notifications.
Context `{DatetimeLib}.

(** [send_booking_cancellation_email]: a date or a time that does not
    parse is a [ValueError] before anything is sent. *)
Definition send_booking_cancellation_email (mt : MailTransport)
    (recipient_ F_Lastname_ date time_slot : string) : outcome unit * MailTransport :=
  match strptime_dmY date with
  | None => (Raise ValueError, mt)
  | Some parsed_date =>
      match strptime_HM time_slot with
      | None => (Raise ValueError, mt)
      | Some parsed_time =>
          send_email mt {| recipient := recipient_;
                           F_Lastname := F_Lastname_;
                           formatted_date := strftime_dmY parsed_date;
                           formatted_time := strftime_HM parsed_time |}
      end
  end.

(** ** Notification of the waiting list *)

(** The loop of [process_waiting_list_notifications] over the entries of
    the slot, with [updated_entries] as accumulator. *)
Fixpoint notify_entries (date time_slot : string) (canceling_player_id : option Z)
    (entries updated_entries : list WaitingEntry) (mt : MailTransport)
    : list WaitingEntry * MailTransport :=
  match entries with
  | [] => (updated_entries, mt)
  | entry :: rest =>
      if bool_decide (Some (player_id entry) = canceling_player_id) then
        notify_entries date time_slot canceling_player_id rest
          (updated_entries ++ [entry]) mt
      else if truthy (email_address entry) && truthy (entry_first_name entry)
              && truthy (entry_last_name entry) then
        match send_booking_cancellation_email mt (email_address entry)
                (entry_first_name entry) date time_slot with
        | (Return _, mt') =>
            notify_entries date time_slot canceling_player_id rest updated_entries mt'
        | (Raise _, mt') =>
            notify_entries date time_slot canceling_player_id rest
              (updated_entries ++ [entry]) mt'
        end
      else
        notify_entries date time_slot canceling_player_id rest updated_entries mt
  end.

(** [process_waiting_list_notifications]. When [updated_entries] is not
    empty the source runs the two statements
    [waiting_list] and [[date][time_slot] = updated_entries]: the second
    stores into the fresh list [[date]] at the string index [time_slot],
    which is a [TypeError], and [save_waiting_list] is not reached. *)
Definition process_waiting_list_notifications (file : WaitingList) (mt : MailTransport)
    (date time_slot : string) (canceling_player_id : option Z)
    : outcome unit * WaitingList * MailTransport :=
  let waiting_list := file in
  let time_slot := substring 0 5 time_slot in
  match waiting_list !! date with
  | Some slots =>
      match slots !! time_slot with
      | Some entries =>
          let '(updated_entries, mt') :=
            notify_entries date time_slot canceling_player_id entries [] mt in
          match updated_entries with
          | _ :: _ => (Raise TypeError, file, mt')
          | [] => (Return tt, <[date := delete time_slot slots]> waiting_list, mt')
          end
      | None => (Return tt, file, mt)
      end
  | None => (Return tt, file, mt)
  end.

End Notifications.

(** ** Tariffs: [get_court_rates_per_minute] *)

Record CourtData : Type := {
  rates : list float;
  bookings : list float;
  cancellations : list float;
}.

(** [x not in (0, None)]: both zeros of the floats equal [0]. *)
Definition not_zero_or_null (x : option float) : option float :=
  match x with
  | Some (SpecFloat.S754_zero _) => None
  | Some v => Some v
  | None => None
  end.

(** [[CourtDesc] NOT LIKE '%Court%']: the description holds ["court"]
    nowhere, in whatever case. *)
Definition lower (c : ascii) : ascii :=
  let n := nat_of_ascii c in
  if ((65 <=? n) && (n <=? 90))%nat then ascii_of_nat (n + 32) else c.

Fixpoint lower_string (s : string) : string :=
  match s with
  | EmptyString => EmptyString
  | String c rest => String (lower c) (lower_string rest)
  end.

Fixpoint contains (pattern s : string) : bool :=
  String.prefix pattern s
  || match s with
     | EmptyString => false
     | String _ rest => contains pattern rest
     end.

Definition like_Court (court_desc : string) : bool :=
  contains "court" (lower_string court_desc).

(** [d[k] = v] on a dictionary kept in insertion order: a key that is
    present keeps its place. *)
Fixpoint dict_set {V : Type} (k : string) (v : V) (d : list (string * V))
    : list (string * V) :=
  match d with
  | [] => [(k, v)]
  | (k', v') :: rest =>
      if bool_decide (k' = k) then (k, v) :: rest else (k', v') :: dict_set k v rest
  end.

Definition court_data_of_row (row : CourtsRow) : CourtData :=
  {| rates := map (py_round_digits 4) (omap not_zero_or_null (RATEPMIN row));
     bookings := omap not_zero_or_null (IBOOKING row);
     cancellations := omap not_zero_or_null (ICANCEL row) |}.

Definition has_tariff (cd : CourtData) : bool :=
  match rates cd, bookings cd, cancellations cd with
  | [], [], [] => false
  | _, _, _ => true
  end.

(** The rows of [SELECT ... FROM [Courts] WHERE [CourtDesc] NOT LIKE
    '%Court%']. *)
Definition tariff_rows (db : Database) : list CourtsRow :=
  filter (fun row => like_Court (CourtDesc row) = false) (Courts db).

Definition get_court_rates_per_minute (db : Database) : list (string * CourtData) :=
  if negb (online db) then []
  else
    fold_left
      (fun court_data row =>
         let cd := court_data_of_row row in
         if has_tariff cd then dict_set (CourtDesc row) cd court_data else court_data)
      (tariff_rows db) [].

(** ** Credit adjustment: [calculated_internet_bookings] *)

(** [update_squash_member_profile]: one [UPDATE Clublist ... WHERE
    [Mem_No] = ?]; the result is [cursor.rowcount > 0]. *)
Definition update_squash_member_profile (db : Database) (member_no_ : Z)
    (first_name_ last_name_ cell_phone_ email_ : option string) (credit_ : float)
    : bool * Database :=
  if negb (online db) then (false, db)
  else
    let rows :=
      map (fun row =>
             if bool_decide (Mem_No row = member_no_) then
               {| Mem_No := Mem_No row;
                  Surname := last_name_;
                  First := first_name_;
                  CellPhone := cell_phone_;
                  E_Mail_Adr := email_;
                  S_Credit := Some credit_;
                  Book := Book row;
                  Week := Week row |}
             else row)
        (Clublist db) in
    (bool_decide (Exists (fun row => Mem_No row = member_no_) (Clublist db)),
     set_Clublist db rows).

Inductive HttpMethod : Type := GET | POST.

(** The JSON of the 200 answer holds the three amounts printed with two
    decimals. *)
Record FinancialData : Type := {
  fin_cost_type : string;
  fin_cost : DecimalText;
  fin_current_credit : DecimalText;
  fin_updated_credit : DecimalText;
}.

(** The error of a 500 answer is [str(e)]; the embedding keeps the name
    of the exception in its place. *)
Inductive FinancialResponse : Type :=
  | Financial200 (data : FinancialData)
  | FinancialError (code : Z) (error : string).

(** The loop over [court_data.items()]: the amount is element 0 of the
    list of the cost type, an [IndexError] when that list is empty; the
    lists hold no [None], so the loop leaves at the first court. *)
Fixpoint first_cost (cost_type : string) (items : list (string * CourtData))
    (cost : option float) : outcome (option float) :=
  match items with
  | [] => Return cost
  | (_, cost_data) :: rest =>
      let amounts :=
        if bool_decide (cost_type = "IBOOKING") then Some (bookings cost_data)
        else if bool_decide (cost_type = "ICANCEL") then Some (cancellations cost_data)
        else None in
      match amounts with
      | Some [] => Raise IndexError
      | Some (c :: _) => Return (Some c)
      | None =>
          match cost with
          | Some _ => Return cost
          | None => first_cost cost_type rest cost
          end
      end
  end.

(** [not mem_no]. The member number of a POST is the number of the JSON
    body, and [0] is false; that of a GET is the text of the query string,
    and the text ["0"] is true. *)
Definition no_member_number (method : HttpMethod) (mem_no : Z) : bool :=
  match method with
  | POST => bool_decide (mem_no = 0)
  | GET => false
  end.

(** [get_squash_members_profile(username=mem_no)] in the endpoint: the
    text of a GET is a true [username] whatever number it spells, so a GET
    always takes the branch of one member. *)
Definition requested_profile (db : Database) (method : HttpMethod) (mem_no : Z)
    : ProfileResult :=
  match method with
  | POST => get_squash_members_profile db mem_no
  | GET => profile_of_username db mem_no
  end.

(** [calculated_internet_bookings]. [mem_no] is the member number the
    request names: the JSON number of a POST, the number the query string
    of a GET spells. *)
Definition calculated_internet_bookings (db : Database) (method : HttpMethod)
    (mem_no : Z) (cost_type : string) : FinancialResponse * Database :=
  if no_member_number method mem_no
     || negb (bool_decide (cost_type = "IBOOKING") || bool_decide (cost_type = "ICANCEL"))
  then (FinancialError 400 "Invalid input data.", db)
  else
    match requested_profile db method mem_no with
    | NoProfile | ProfileList [] => (FinancialError 404 "Member profile not found.", db)
    | ProfileList (_ :: _) => (FinancialError 500 "TypeError", db)
    | OneProfile member_profile =>
        let current_credit := float_of_text 2 (credit member_profile) in
        match first_cost cost_type (get_court_rates_per_minute db) None with
        | Raise _ => (FinancialError 500 "IndexError", db)
        | Return None =>
            (FinancialError 404 ("Cost for " +:+ cost_type +:+ " not found."), db)
        | Return (Some cost) =>
            let updated_credit := fsub current_credit cost in
            let data := {| fin_cost_type := cost_type;
                           fin_cost := format_f 2 cost;
                           fin_current_credit := format_f 2 current_credit;
                           fin_updated_credit := format_f 2 updated_credit |} in
            match method with
            | GET => (Financial200 data, db)
            | POST =>
                let '(success, db') :=
                  update_squash_member_profile db mem_no
                    (first_name member_profile) (surname member_profile)
                    (cell_phone member_profile) (email member_profile)
                    updated_credit in
                if success then (Financial200 data, db')
                else (FinancialError 500 "Failed to update credit.", db')
            end
        end
    end.

(** [get_court_booking_costs]: the displayed price of a 45 minute slot
    for each period, [None] standing for ["N/A"]. It changes no balance. *)
Record Period : Type := {
  id : Z;
  description : string;
}.

(** [rates[rate_index] if rate_index < len(rates) else None]; a negative
    index counts from the end, and one below [-len(rates)] is an
    [IndexError]. *)
Definition rate_at (rates_ : list float) (rate_index : Z) : outcome (option float) :=
  let n := Z.of_nat (length rates_) in
  if (n <=? rate_index)%Z then Return None
  else if (0 <=? rate_index)%Z then Return (rates_ !! Z.to_nat rate_index)
  else if (- n <=? rate_index)%Z then Return (rates_ !! Z.to_nat (n + rate_index))
  else Raise IndexError.

(** [round(rate_per_min * 45)]. *)
Definition slot_price (rate_per_min : float) : outcome Z :=
  py_round (fmul rate_per_min (float_of_Z 45)).

(** The loop over the periods; the first exception ends it. The total
    of a period is printed as [f"{total_cost:.2f}"], the integer followed
    by [".00"]. *)
Fixpoint booking_costs (rates_ : list float) (periods : list Period)
    : outcome (list (string * option Z)) :=
  match periods with
  | [] => Return []
  | period :: rest =>
      match rate_at rates_ (id period - 1) with
      | Raise e => Raise e
      | Return None =>
          match booking_costs rates_ rest with
          | Raise e => Raise e
          | Return costs => Return ((description period, None) :: costs)
          end
      | Return (Some rate_per_min) =>
          match slot_price rate_per_min with
          | Raise e => Raise e
          | Return total_cost =>
              match booking_costs rates_ rest with
              | Raise e => Raise e
              | Return costs => Return ((description period, Some total_cost) :: costs)
              end
          end
      end
  end.

Definition get_court_booking_costs (db : Database) (periods : list Period)
    : option (outcome (list (string * option Z))) :=
  match get_court_rates_per_minute db, periods with
  | [], _ | _, [] => None   (* the 404 answer *)
  | (_, first_court) :: _, _ => Some (booking_costs (rates first_court) periods)
  end.

(** [add_booking_financials] and [delete_booking_financials]: the POST
    to the endpoint above through the test client, then a second write,
    of the text [updated_credit] of the answer; the column takes the text
    for the number it spells. *)
Inductive FinancialResult : Type :=
  | FinancialSuccess (financial_data : FinancialData)
  | FinancialFailure (message : string).

Definition booking_financials (db : Database) (player_no : Z) (cost_type : string)
    : FinancialResult * Database :=
  match calculated_internet_bookings db POST player_no cost_type with
  | (Financial200 financial_data, db1) =>
      let updated_credit := fin_updated_credit financial_data in
      match get_squash_members_profile db1 player_no with
      | OneProfile member_profile =>
          let '(update_success, db2) :=
            update_squash_member_profile db1 player_no
              (first_name member_profile) (surname member_profile)
              (cell_phone member_profile) (email member_profile)
              (float_of_text 2 updated_credit) in
          if update_success then (FinancialSuccess financial_data, db2)
          else (FinancialFailure "Failed to update S_Credit in the database.", db2)
      | ProfileList (_ :: _) => (FinancialFailure "TypeError", db1)
      | NoProfile | ProfileList [] => (FinancialSuccess financial_data, db1)
      end
  | (FinancialError _ _, db1) => (FinancialFailure "Financial API failed.", db1)
  end.

Definition add_booking_financials (db : Database) (player_no : Z)
    : FinancialResult * Database :=
  booking_financials db player_no "IBOOKING".

Definition delete_booking_financials (db : Database) (player_no period_id : Z)
    : FinancialResult * Database :=
  booking_financials db player_no "ICANCEL".

(** ** Cancellation: [delete_booking]

    The request is taken where step 1 of the handler leaves it:
    [date_formatted] is the [dd/mm/yyyy] date and [selected_time] the
    [HH:MM] time of the slot. The audit row of the [finally] block goes to
    [Internetlog], which the embedding leaves out. *)
Record World : Type := {
  database : Database;
  waiting_list_file : WaitingList;
  mail : MailTransport;
}.

Inductive DeleteResponse : Type :=
  | Deleted200 (financial_data : FinancialData)
  | DeleteError404
  | DeleteError500 (error : string).

Section Cancellation.
Context `{DatetimeLib}.

Definition delete_booking (w : World) (date_formatted selected_time : string)
    (player_no_column : nat) (player_no period_id : Z) : DeleteResponse * World :=
  let start_time1 := date_formatted +:+ " " +:+ selected_time +:+ ":00" in
  (* Step 2: the cancellation itself *)
  let '(success, db1) :=
    delete_internet_booking (database w) start_time1 player_no player_no_column in
  if negb success then
    (DeleteError404,
     {| database := db1; waiting_list_file := waiting_list_file w; mail := mail w |})
  else
    (* Step 3: the waiting list; the call names no cancelling player,
       and whatever it raises is printed and dropped *)
    let '(_, file1, mail1) :=
      process_waiting_list_notifications (waiting_list_file w) (mail w)
        date_formatted selected_time None in
    (* Step 4: the cancellation fee *)
    let '(financial_result, db2) := delete_booking_financials db1 player_no period_id in
    let w' := {| database := db2; waiting_list_file := file1; mail := mail1 |} in
    match financial_result with
    | FinancialFailure message => (DeleteError500 message, w')
    | FinancialSuccess financial_data => (Deleted200 financial_data, w')
    end.

End Cancellation.

(** ** Booking limits *)

Record BookingLimitations : Type := {
  limitations_mem_no : Z;
  daily_limits : list Z;
  weekly_limits : list Z;
}.

(** [[row.Book_i for i in 1..5 if row.Book_i and row.Book_i > 0]]. *)
Definition positive_limits (columns : list (option Z)) : list Z :=
  omap (fun v => match v with
                 | Some n => if bool_decide (n <> 0) && bool_decide (0 < n)
                             then Some n else None
                 | None => None
                 end) columns.

Definition get_booking_limitations (db : Database) (mem_no : Z)
    : option BookingLimitations :=
  if negb (online db) then None
  else
    match fetchone_member db mem_no with
    | Some row =>
        Some {| limitations_mem_no := Mem_No row;
                daily_limits := positive_limits (Book row);
                weekly_limits := positive_limits (Week row) |}
    | None => None
    end.

(** A row of the frame of [get_booked_players_memno]. [PlayerNos] is the
    list behind the string [", ".join(...)] that the checks split again:
    [None] is the item ["None"], [Some n] the decimal of [n]. (The join
    of no item splits into one empty item, which is no member number.) *)
Record BookedRow : Type := {
  Date : string;
  StartTime : string;
  PlayerNos : list (option Z);
}.

(** An item of [get_period_ids_by_date_range]. *)
Record PeriodEntry : Type := {
  entry_date : string;
  entry_time : string;
  entry_periods : list Z;
}.

Record AlignedLimit : Type := {
  limit : Z;
  period_id : Z;
  period_description : string;
  bookings_count : Z;
}.

(** [[{...} for limit, period in zip(limits, periods)]]. *)
Fixpoint align_limits (limits : list Z) (periods : list Period) : list AlignedLimit :=
  match limits, periods with
  | limit_ :: limits', period :: periods' =>
      {| limit := limit_; period_id := id period;
         period_description := description period; bookings_count := 0 |}
      :: align_limits limits' periods'
  | _, _ => []
  end.

(** [for limit in aligned: if limit["period_id"] == period_id: limit["bookings_count"] += 1; break]. *)
Fixpoint increment_count (period_id_ : Z) (aligned : list AlignedLimit)
    : list AlignedLimit :=
  match aligned with
  | [] => []
  | limit_ :: rest =>
      if bool_decide (period_id limit_ = period_id_) then
        {| limit := limit limit_; period_id := period_id limit_;
           period_description := period_description limit_;
           bookings_count := bookings_count limit_ + 1 |} :: rest
      else limit_ :: increment_count period_id_ rest
  end.

(** [for idx, period_id in enumerate(period_entry["periods"])], from
    index [idx] on. The test [idx < len(player_nos) and player_nos[idx] !=
    "None" and str(mem_no) == player_nos[idx]] is that item [idx] exists
    and is the member number. *)
Fixpoint count_periods (mem_no : Z) (player_nos : list (option Z)) (idx : nat)
    (periods_ : list Z) (aligned : list AlignedLimit) : list AlignedLimit :=
  match periods_ with
  | [] => aligned
  | period_id_ :: rest =>
      let aligned' :=
        if bool_decide (player_nos !! idx = Some (Some mem_no))
        then increment_count period_id_ aligned
        else aligned in
      count_periods mem_no player_nos (S idx) rest aligned'
  end.

(** [for period_entry in period_data] for one booked row whose time
    prints as [formatted_time]. *)
Fixpoint count_period_data (mem_no : Z) (booking : BookedRow) (formatted_time : string)
    (period_data : list PeriodEntry) (aligned : list AlignedLimit) : list AlignedLimit :=
  match period_data with
  | [] => aligned
  | period_entry :: rest =>
      let aligned' :=
        if bool_decide (entry_date period_entry = Date booking)
           && bool_decide (entry_time period_entry = formatted_time)
        then count_periods mem_no (PlayerNos booking) 0
               (entry_periods period_entry) aligned
        else aligned in
      count_period_data mem_no booking formatted_time rest aligned'
  end.

Inductive LimitResponse : Type :=
  | LimitError401
  | LimitError400 (error : string)
  | NoBookings200
  | LimitError404
  | LimitExceeded403 (limits : list AlignedLimit)
  | WithinBounds200 (limits : list AlignedLimit).

(** The three [SELECT]s the checks run over [Bookfile] and [Periods],
    taken by their results. *)
Record LimitQueries : Type := {
  bookings_data : list BookedRow;        (* get_booked_players_memno *)
  period_data : list PeriodEntry;        (* get_period_ids_by_date_range *)
  periods : list Period;                 (* get_periods *)
}.

(** [[limit for limit in aligned if limit["bookings_count"] > limit["limit"]]]. *)
Definition exceeded_periods (aligned : list AlignedLimit) : list AlignedLimit :=
  filter (fun limit_ => limit limit_ < bookings_count limit_) aligned.

Section BookingLimits.
Context `{DatetimeLib}.

(** The counting loop of [check_daily_booking_limits]. *)
Fixpoint count_daily (mem_no : Z) (date : string) (now : pydatetime)
    (period_data_ : list PeriodEntry) (bookings_ : list BookedRow)
    (aligned : list AlignedLimit) : list AlignedLimit :=
  match bookings_ with
  | [] => aligned
  | booking :: rest =>
      match strptime_dmY_HMS (StartTime booking) with
      | None => count_daily mem_no date now period_data_ rest aligned
      | Some booking_datetime =>
          if datetime_ltb booking_datetime now
             && bool_decide (date = strftime_dmY (on now))
          then count_daily mem_no date now period_data_ rest aligned
          else
            let formatted_time := strftime_HM booking_datetime in
            count_daily mem_no date now period_data_ rest
              (count_period_data mem_no booking formatted_time period_data_ aligned)
      end
  end.

(** The counting loop of [check_weekly_booking_limits]. *)
Fixpoint count_weekly (mem_no : Z)
    (period_data_ : list PeriodEntry) (bookings_ : list BookedRow)
    (aligned : list AlignedLimit) : list AlignedLimit :=
  match bookings_ with
  | [] => aligned
  | booking :: rest =>
      match strptime_dmY_HMS (StartTime booking) with
      | None => count_weekly mem_no period_data_ rest aligned
      | Some booking_datetime =>
          let formatted_time := strftime_HM booking_datetime in
          count_weekly mem_no period_data_ rest
            (count_period_data mem_no booking formatted_time period_data_ aligned)
      end
  end.

Definition limits_answer (aligned : list AlignedLimit) : LimitResponse :=
  match exceeded_periods aligned with
  | _ :: _ => LimitExceeded403 aligned
  | [] => WithinBounds200 aligned
  end.

Definition check_daily_booking_limits (db : Database) (q : LimitQueries)
    (now : pydatetime) (session_mem_no : option Z) (date : option string)
    : LimitResponse :=
  match session_mem_no with
  | None => LimitError401
  | Some mem_no =>
      if bool_decide (mem_no = 0) then LimitError401
      else if missing date then LimitError400 "Missing date parameter."
      else
        let date_ := default "" date in
        match strptime_dmY date_ with
        | None => LimitError400 "Invalid date format. Expected format: dd/MM/yyyy."
        | Some _ =>
            match bookings_data q with
            | [] => NoBookings200
            | _ :: _ =>
                match get_booking_limitations db mem_no with
                | None => LimitError404
                | Some booking_limitations =>
                    match daily_limits booking_limitations with
                    | [] => LimitError404
                    | daily_limits_ =>
                        limits_answer
                          (count_daily mem_no date_ now (period_data q) (bookings_data q)
                             (align_limits daily_limits_ (periods q)))
                    end
                end
            end
        end
  end.

Definition check_weekly_booking_limits (db : Database) (q : LimitQueries)
    (session_mem_no : option Z) (start_date end_date : option string)
    : LimitResponse :=
  match session_mem_no with
  | None => LimitError401
  | Some mem_no =>
      if bool_decide (mem_no = 0) then LimitError401
      else if missing start_date || missing end_date
      then LimitError400 "Missing start_date or end_date parameters."
      else
        match strptime_dmY (default "" start_date), strptime_dmY (default "" end_date) with
        | Some start_date_dt, Some end_date_dt =>
            if negb (date_geb end_date_dt start_date_dt)
            then LimitError400 "start_date cannot be after end_date."
            else
              match bookings_data q with
              | [] => NoBookings200
              | _ :: _ =>
                  match get_booking_limitations db mem_no with
                  | None => LimitError404
                  | Some booking_limitations =>
                      match weekly_limits booking_limitations with
                      | [] => LimitError404
                      | weekly_limits_ =>
                          limits_answer
                            (count_weekly mem_no (period_data q) (bookings_data q)
                               (align_limits weekly_limits_ (periods q)))
                      end
                  end
              end
        | _, _ => LimitError400 "Invalid date format. Expected format: dd/MM/yyyy."
        end
  end.

End BookingLimits.

(** ** A strict reading of the [datetime] formats

    An instance of [DatetimeLib] on which the definitions can be run: it
    reads the zero-padded forms only (the library also takes one-digit
    days and months) and checks the ranges of the fields, not the length
    of the month. The theorems hold for every instance; this one serves
    the examples. *)

Definition digit_of (c : ascii) : option Z :=
  let n := nat_of_ascii c in
  if ((48 <=? n) && (n <=? 57))%nat then Some (Z.of_nat (n - 48)) else None.

Definition number_of (cs : list ascii) : option Z :=
  foldl (fun acc c => a ← acc; d ← digit_of c; Some (10 * a + d)) (Some 0) cs.

Definition in_range (lo hi v : Z) : bool := ((lo <=? v) && (v <=? hi))%Z.

Definition make_date (y m d : list ascii) : option pydate :=
  y' ← number_of y; m' ← number_of m; d' ← number_of d;
  if in_range 1 9999 y' && in_range 1 12 m' && in_range 1 31 d'
  then Some {| year := y'; month := m'; day := d' |} else None.

Definition strict_strptime_dmY (s : string) : option pydate :=
  match list_ascii_of_string s with
  | [d1; d2; "/"%char; m1; m2; "/"%char; y1; y2; y3; y4] =>
      make_date [y1; y2; y3; y4] [m1; m2] [d1; d2]
  | _ => None
  end.

Definition strict_strptime_Ymd (s : string) : option pydate :=
  match list_ascii_of_string s with
  | [y1; y2; y3; y4; "-"%char; m1; m2; "-"%char; d1; d2] =>
      make_date [y1; y2; y3; y4] [m1; m2] [d1; d2]
  | _ => None
  end.

Definition strict_strptime_dmY_HMS (s : string) : option pydatetime :=
  match list_ascii_of_string s with
  | [d1; d2; "/"%char; m1; m2; "/"%char; y1; y2; y3; y4; " "%char;
     H1; H2; ":"%char; M1; M2; ":"%char; S1; S2] =>
      date ← make_date [y1; y2; y3; y4] [m1; m2] [d1; d2];
      h ← number_of [H1; H2]; m ← number_of [M1; M2]; s ← number_of [S1; S2];
      if in_range 0 23 h && in_range 0 59 m && in_range 0 59 s
      then Some {| on := date; hour := h; minute := m; second := s; microsecond := 0 |}
      else None
  | _ => None
  end.

Definition strict_strptime_HM (s : string) : option pydatetime :=
  match list_ascii_of_string s with
  | [H1; H2; ":"%char; M1; M2] =>
      h ← number_of [H1; H2]; m ← number_of [M1; M2];
      if in_range 0 23 h && in_range 0 59 m
      then Some {| on := {| year := 1900; month := 1; day := 1 |};
                   hour := h; minute := m; second := 0; microsecond := 0 |}
      else None
  | _ => None
  end.

Definition digit_char (d : Z) : ascii := ascii_of_nat (48 + Z.to_nat (d mod 10)).

Definition pad2 (n : Z) : string :=
  String (digit_char (n / 10)) (String (digit_char n) EmptyString).

Definition pad4 (n : Z) : string := pad2 (n / 100) +:+ pad2 (n mod 100).

#[global] Instance strict_datetime : DatetimeLib := {|
  strptime_Ymd := strict_strptime_Ymd;
  strptime_dmY := strict_strptime_dmY;
  strptime_dmY_HMS := strict_strptime_dmY_HMS;
  strptime_HM := strict_strptime_HM;
  strftime_dmY := fun d => pad2 (day d) +:+ "/" +:+ pad2 (month d) +:+ "/" +:+ pad4 (year d);
  strftime_HM := fun dt => pad2 (hour dt) +:+ ":" +:+ pad2 (minute dt);
|}.

(** ** The [datetime] formats as CPython reads them

    A second instance, which follows the regular expressions of
    [_strptime]: a day, a month, an hour, a minute or a second may have
    one digit or two, a year has four, the blank of a format stands for
    one white space or more, and the fields must make a date of the
    calendar. (Years are printed with four digits, which is what the
    library does from the year 1000 on.) *)

(** The fields between the occurrences of [sep]. *)
Fixpoint split_on (sep : ascii) (cs : list ascii) : list (list ascii) :=
  match cs with
  | [] => [[]]
  | c :: rest =>
      if Ascii.eqb c sep then [] :: split_on sep rest
      else
        match split_on sep rest with
        | field :: fields => (c :: field) :: fields
        | [] => [[c]]
        end
  end.

(** A field of one digit or two with a value from [lo] to [hi]. *)
Definition short_field (lo hi : Z) (field : list ascii) : option Z :=
  match field with
  | [_] | [_; _] =>
      v ← number_of field; if in_range lo hi v then Some v else None
  | _ => None
  end.

(** [%d]: [3[0-1]|[1-2]\d|0[1-9]|[1-9]| [1-9]]. *)
Definition day_field (field : list ascii) : option Z :=
  match field with
  | [" "%char; c] => short_field 1 9 [c]
  | _ => short_field 1 31 field
  end.

(** [%Y]: four digits; the year 0 is no year of [datetime]. *)
Definition year_field (field : list ascii) : option Z :=
  match field with
  | [_; _; _; _] => v ← number_of field; if in_range 1 9999 v then Some v else None
  | _ => None
  end.

Definition leap_year (y : Z) : bool :=
  ((y mod 4 =? 0) && (negb (y mod 100 =? 0) || (y mod 400 =? 0)))%Z.

Definition days_in_month (y m : Z) : Z :=
  if (m =? 2)%Z then (if leap_year y then 29 else 28)
  else if ((m =? 4) || (m =? 6) || (m =? 9) || (m =? 11))%Z then 30
  else 31.

Definition calendar_date (y m d : list ascii) : option pydate :=
  y' ← year_field y; m' ← short_field 1 12 m; d' ← day_field d;
  if (d' <=? days_in_month y' m')%Z
  then Some {| year := y'; month := m'; day := d' |} else None.

(** [%H:%M:%S] or [%H:%M]; a second of 60 or 61 passes the expression
    and is then refused by [datetime]. *)
Definition clock_time (date : pydate) (hh mm ss : list ascii) : option pydatetime :=
  h ← short_field 0 23 hh; m ← short_field 0 59 mm; s ← short_field 0 59 ss;
  Some {| on := date; hour := h; minute := m; second := s; microsecond := 0 |}.

Definition cpython_strptime_dmY (s : string) : option pydate :=
  match split_on "/" (list_ascii_of_string s) with
  | [d; m; y] => calendar_date y m d
  | _ => None
  end.



Definition cpython_strptime_HM (s : string) : option pydatetime :=
  match split_on ":" (list_ascii_of_string s) with
  | [hh; mm] => clock_time {| year := 1900; month := 1; day := 1 |} hh mm ["0"%char]
  | _ => None
  end.


(** ** Predicates of the specification *)

(** The empty sentinels of a cell: [NULL], [0] and the restricted
    marker [-9]. *)
Definition empty_sentinel (v : option Z) : Prop :=
  v = None \/ v = Some 0 \/ v = Some (-9).

(** ** A small club, for the examples *)

Definition anna : ClublistRow :=
  {| Mem_No := 101; Surname := Some "Botha"; First := Some "Anna";
     CellPhone := Some "0811234567"; E_Mail_Adr := Some "anna@example.org";
     S_Credit := Some (float_of_Z 100);
     Book := [Some 2; None; Some 0; None; None];
     Week := [Some 4; None; None; None; None] |}.

Definition ben : ClublistRow :=
  {| Mem_No := 202; Surname := Some "Dlamini"; First := Some "Ben";
     CellPhone := None; E_Mail_Adr := Some "ben@example.org";
     S_Credit := Some (float_of_Z 50);
     Book := [Some 2; Some 1; None; None; None];
     Week := [Some 4; Some 2; None; None; None] |}.

(** One evening of [Bookfile]: at 17:15 court 1 is free and court 2 is
    held by Ben; at 18:00 court 1 is held by Anna and court 2 restricted. *)
Definition evening : list BookfileRow :=
  [ {| StartTime1 := "18/12/2030 17:15:00";
       PlayerNo := {[ 1%nat := 202 ]};
       PlayName := {[ 1%nat := "B Dlamini" ]} |};
    {| StartTime1 := "18/12/2030 18:00:00";
       PlayerNo := {[ 0%nat := 101; 1%nat := -9 ]};
       PlayName := {[ 0%nat := "A Botha"; 1%nat := "RESTRICTED" ]} |} ].

Definition visions : CourtsRow :=
  {| CourtDesc := "VISIONS";
     RATEPMIN := [Some (float_of_ratio 1 2); None; None; None; None];
     IBOOKING := [Some (float_of_Z 10); None; None; None; None];
     ICANCEL := [Some (float_of_Z 5); None; None; None; None] |}.

Definition club : Database :=
  {| online := true; Clublist := [anna; ben]; Bookfile := evening;
     Courts := [visions] |}.

(** A member whose [First] is [NULL]. *)
Definition dan : ClublistRow :=
  {| Mem_No := 404; Surname := Some "Eiseb"; First := None;
     CellPhone := None; E_Mail_Adr := Some "dan@example.org";
     S_Credit := Some (float_of_Z 30);
     Book := [Some 2; None; None; None; None];
     Week := [Some 4; None; None; None; None] |}.

Definition club_with_dan : Database :=
  {| online := true; Clublist := [anna; ben; dan]; Bookfile := evening;
     Courts := [visions] |}.

(** A row of [Courts] that the tariff lookup leaves out, with tariffs of
    its own, in front of the row it reads. *)
Definition court_one : CourtsRow :=
  {| CourtDesc := "Court 1";
     RATEPMIN := [Some (float_of_ratio 7 10); None; None; None; None];
     IBOOKING := [Some (float_of_Z 99); None; None; None; None];
     ICANCEL := [Some (float_of_Z 77); None; None; None; None] |}.

(** A second row the lookup reads, with other costs. *)
Definition glass : CourtsRow :=
  {| CourtDesc := "GLASS";
     RATEPMIN := [Some (float_of_ratio 9 10); None; None; None; None];
     IBOOKING := [None; Some (float_of_Z 20); None; None; None];
     ICANCEL := [Some (float_of_Z 0); Some (float_of_Z 8); None; None; None] |}.

Definition club_with_court_one : Database :=
  {| online := true; Clublist := [anna; ben]; Bookfile := evening;
     Courts := [court_one; visions; glass] |}.

Definition anna_waiting : WaitingEntry :=
  {| player_id := 101; entry_first_name := "Anna"; entry_last_name := "Botha";
     email_address := "anna@example.org"; status := "active" |}.

Definition ben_waiting : WaitingEntry :=
  {| player_id := 202; entry_first_name := "Ben"; entry_last_name := "Dlamini";
     email_address := "ben@example.org"; status := "active" |}.

(** A transport with nothing sent yet and the given coming outcomes. *)
Definition transport (outcomes : list bool) : MailTransport :=
  {| script := outcomes; attempts := [] |}.

(** The message the dispatcher writes to an entry. *)
Definition notice (entry : WaitingEntry) (date time_slot : string) : MailMessage :=
  {| recipient := email_address entry; F_Lastname := entry_first_name entry;
     formatted_date := date; formatted_time := time_slot |}.

(** A stored address the add request refuses: missing, empty once
    trimmed, or without exactly one ["@"]. *)
Definition unusable_email (e : option string) : Prop :=
  match e with
  | None => True
  | Some s => strip s = "" \/ count_char "@" s <> 1%nat
  end.

(** The answers of the add request that are errors. *)
Definition add_rejected (response : AddResponse) : Prop :=
  match response with
  | AddError400 _ | AddError500 => True
  | Added201 _ | AlreadyInList200 => False
  end.

(** The shape of the stored waiting list: no date without a time slot
    and no time slot without an entry. *)
Definition no_empty_keys (wl : WaitingList) : Prop :=
  forall date slots, wl !! date = Some slots ->
    slots <> ∅ /\ forall time_slot entries, slots !! time_slot = Some entries -> entries <> [].

(** The waiting list of 18/12/2030, 18:00 with the given entries. *)
Definition waiting_for_six (entries : list WaitingEntry) : WaitingList :=
  {[ "18/12/2030" := {[ "18:00" := entries ]} ]}.

(** Anna holds court 1 at 18:00 and also waits for that slot. *)
Definition cancellation_day : World :=
  {| database := club;
     waiting_list_file := waiting_for_six [anna_waiting];
     mail := transport [] |}.



Section LimitPredicates.
Context `{DatetimeLib}.








End LimitPredicates.

Definition normal_period : Period := {| id := 1; description := "NORMAL" |}.
Definition peak_period : Period := {| id := 2; description := "PEAK" |}.

(** Bookings of a day as the limit checks see them: [courts] are the
    member numbers of 17:15, 18:00 and 18:45, and [codes] the period ids
    of the courts at those times. *)
Definition queries_of_day (date : string)
    (courts : list (list (option Z))) (codes : list (list Z)) : LimitQueries :=
  {| bookings_data :=
       zip_with (fun t nos => {| Date := date;
                                 StartTime := date +:+ " " +:+ t +:+ ":00";
                                 PlayerNos := nos |})
         ["17:15"; "18:00"; "18:45"] courts;
     period_data :=
       zip_with (fun t ps => {| entry_date := date; entry_time := t;
                                entry_periods := ps |})
         ["17:15"; "18:00"; "18:45"] codes;
     periods := [normal_period; peak_period] |}.

Definition day_queries : list (list (option Z)) -> list (list Z) -> LimitQueries :=
  queries_of_day "18/12/2030".

Definition at_clock (d h m : Z) : pydatetime :=
  {| on := {| year := 2030; month := 12; day := d |};
     hour := h; minute := m; second := 0; microsecond := 0 |}.

(** The price the claim on the booking cost describes: the first
    per-minute rate found across the courts, times the 45 minutes of a
    slot, rounded to a whole unit. *)
Definition first_rate_found (court_data : list (string * CourtData)) : option float :=
  head (concat (map (fun item => rates item.2) court_data)).

Definition slot_price_of_first_rate (db : Database) : option (outcome Z) :=
  option_map slot_price (first_rate_found (get_court_rates_per_minute db)).

(** A float that is a number: a zero or a finite value. *)
Definition finite (x : float) : bool :=
  match x with
  | SpecFloat.S754_zero _ | SpecFloat.S754_finite _ _ _ => true
  | SpecFloat.S754_infinity _ | SpecFloat.S754_nan => false
  end.

(** The integer nearest to a finite float, a tie to the even one. *)
Definition nearest_integer (x : float) : Z :=
  match x with
  | SpecFloat.S754_finite s m e =>
      if s then - round_half_even m e else round_half_even m e
  | _ => 0
  end.

(** [x == 0] on floats. *)
Definition is_zero (x : float) : bool := SpecFloat.SFeqb x (float_of_Z 0).

(** Anna in NORMAL at 17:15 and at 18:00. *)
Definition two_normal_bookings : LimitQueries :=
  day_queries [[Some 101]; [Some 101]] [[1]; [1]].


(** ** Further operations of the ledger and of the handlers *)

(** [get_booking_cell]: the cell of the first row of the start time; no
    row, [NULL] and [0] all read as [None], and so does any failure of
    the statement. *)
Definition get_booking_cell (db : Database) (start_time : string) (player_no_col : nat)
    : option Z :=
  if negb (online db) then None
  else if negb (bool_decide (player_no_col < player_columns)%nat) then None
  else
    match head (filter (fun row => StartTime1 row = start_time) (Bookfile db)) with
    | None => None
    | Some row =>
        match cell row player_no_col with
        | Some n => if bool_decide (n = 0) then None else Some n
        | None => None
        end
    end.

(** [existing not in (None, -9, 0)]. *)
Definition reads_booked (existing : option Z) : bool :=
  match existing with
  | None => false
  | Some n => negb (bool_decide (n = -9) || bool_decide (n = 0))
  end.

Inductive AddBookingResponse : Type :=
  | Booked200 (financial_data : FinancialData)
  | BookingError400
  | BookingError403 (error : string)
  | BookingError404 (error : string)
  | AlreadyBooked409
  | BookingError500 (error : string)
  | AuditError500 (e : PyExn)
  | BookingRaised (e : PyExn).

(** A key of the Flask session as [session.get(key, "Unknown")] finds it:
    not there, there with [None] (the login stores the [First] of the
    member, which may be [NULL]), or there with a text. *)
Inductive SessionValue : Type :=
  | Absent
  | Null
  | Text (s : string).

(** What the booking handler reads and writes of the session. *)
Record BookingSession : Type := {
  booking_first_name : SessionValue;
  booking_credit : option DecimalText;
}.

(** [log_audit_online_booking]: its [except] takes [pyodbc.Error] only,
    so [first_name[0]] on a [None] first name leaves it as a [TypeError]
    and on an empty one as an [IndexError]; the row goes to
    [Internetlog], which the embedding leaves out. *)
Definition log_audit_online_booking (first_name_ : SessionValue) : outcome unit :=
  match first_name_ with
  | Absent => Return tt
  | Null => Raise TypeError
  | Text EmptyString => Raise IndexError
  | Text (String _ _) => Return tt
  end.

(** The [try] block of [add_booking], taken where step 1 of the handler
    leaves it, as [delete_booking] is: [date_container_formatted] is the
    [dd/mm/yyyy] date and [selected_time] the [HH:MM] time of a slot that
    is not in the past, [selected_court] the index of the [PlayerNo]
    column. The block has no [except]: an exception leaves it. *)
Definition add_booking_try (db : Database) (session : BookingSession)
    (date_container_formatted selected_time : string)
    (selected_court : nat) (player_no : Z)
    : AddBookingResponse * Database * BookingSession :=
  if bool_decide (player_no = 0) then (BookingError400, db, session)
  else
    let booking_time_str := date_container_formatted +:+ " " +:+ selected_time +:+ ":00" in
    (* Step 2: the lights credit *)
    match get_squash_members_profile db player_no with
    | NoProfile | ProfileList [] => (BookingError404 "User profile not found.", db, session)
    | ProfileList (_ :: _) => (BookingRaised AttributeError, db, session)
    | OneProfile user_profile =>
        let lights_credit := float_of_text 2 (credit user_profile) in
        if SpecFloat.SFleb lights_credit (float_of_Z 0) then
          (BookingError403 "Booking not allowed. Insufficient Lights Credit (0.00 or below).",
           db, session)
        else
          (* Step 3: the pre-check, then the booking *)
          let existing := get_booking_cell db booking_time_str selected_court in
          if reads_booked existing then (AlreadyBooked409, db, session)
          else
            match update_internet_bookings db date_container_formatted player_no
                    selected_court selected_time with
            | (Raise e, db1) => (BookingRaised e, db1, session)
            | (Return StatusAlreadyBooked, db1) => (AlreadyBooked409, db1, session)
            | (Return (StatusError _), db1) =>
                (BookingError404 "Failed to save booking. No matching row found.",
                 db1, session)
            | (Return StatusSuccess, db1) =>
                (* Step 4: the booking cost *)
                match add_booking_financials db1 player_no with
                | (FinancialFailure message, db2) => (BookingError500 message, db2, session)
                | (FinancialSuccess financial_data, db2) =>
                    (* Step 5: the credit of the session *)
                    (Booked200 financial_data, db2,
                     {| booking_first_name := booking_first_name session;
                        booking_credit := Some (fin_updated_credit financial_data) |})
                end
            end
    end.

(** [add_booking]: the [try] block and then the [finally] block, which
    writes the audit row and, when that raises, answers 500 in place of
    whatever the [try] block answered or raised. *)
Definition add_booking (db : Database) (session : BookingSession)
    (date_container_formatted selected_time : string)
    (selected_court : nat) (player_no : Z)
    : AddBookingResponse * Database * BookingSession :=
  let '(response, db', session') :=
    add_booking_try db session date_container_formatted selected_time
      selected_court player_no in
  match log_audit_online_booking (booking_first_name session) with
  | Raise e => (AuditError500 e, db', session')
  | Return _ => (response, db', session')
  end.

(** The session of Anna after she logged in with a credit of 100.00. *)
Definition anna_booking_session : BookingSession :=
  {| booking_first_name := Text "Anna"; booking_credit := Some (Digits false 10000) |}.

(** [align_descriptions] of [get_player_booking_limitations]: one item
    for each limit, with [None] and ["Unknown"] past the last period. *)
Definition align_descriptions (periods_ : list Period) (limits : list Z)
    : list (Z * option Z * string) :=
  imap (fun i limit_ =>
          (limit_,
           id <$> periods_ !! i,
           default "Unknown" (description <$> periods_ !! i)))
    limits.

(** The [player_list] of a row in [get_booked_players_memno]: the
    [PlayerNo] columns in order, a column that holds [-9] left out, a
    [NULL] kept as ["None"]. *)
Definition player_list (row : BookfileRow) : list (option Z) :=
  omap (fun col => match cell row col with
                   | Some n => if bool_decide (n = -9) then None else Some (Some n)
                   | None => Some None
                   end)
    (seq 0 player_columns).

(** The club before any tariff was entered. *)
Definition club_without_tariffs : Database :=
  {| online := true; Clublist := [anna; ben]; Bookfile := evening; Courts := [] |}.

(** Two lists of aligned limits with the same caps, periods and
    descriptions, the counts of the first at most those of the second. *)
Definition counts_le (a b : list AlignedLimit) : Prop :=
  Forall2 (fun x y => limit x = limit y /\ period_id x = period_id y
                      /\ period_description x = period_description y
                      /\ bookings_count x <= bookings_count y) a b.

(** A [Book_i] or [Week_i] column that configures no cap. *)
Definition no_cap (column : option Z) : Prop :=
  match column with
  | Some n => n <= 0
  | None => True
  end.

(** The entries stored for a date and a time slot, none when a key is
    missing. *)
Definition waiting (file : WaitingList) (date time_slot : string) : list WaitingEntry :=
  default [] (file !! date ≫= (.!! time_slot)).

(** No member is twice in the list of one date and time slot. *)
Definition one_entry_per_member (file : WaitingList) : Prop :=
  forall date time_slot, NoDup (map player_id (waiting file date time_slot)).

Definition anna_session : Session :=
  {| session_Mem_No := Some 101; session_first_name := Some "Anna";
     session_last_name := Some "Botha" |}.

(** The request for 18:00 of 18/12/2030, with the date as the page sends
    it, and the same for a day of 2020. *)
Definition six_request : WaitingRequest :=
  {| request_date := Some "2030-12-18"; request_time_slot := Some "18:00" |}.

Definition old_request : WaitingRequest :=
  {| request_date := Some "2020-12-18"; request_time_slot := Some "18:00" |}.

(** An entry the dispatcher tries to write to: address, first name and
    last name are all present. *)
Definition mailable (entry : WaitingEntry) : bool :=
  truthy (email_address entry) && truthy (entry_first_name entry)
  && truthy (entry_last_name entry).

(** The entry of the cancelling player the dispatcher was told about. *)
Definition is_canceller (canceling_player_id : option Z) (entry : WaitingEntry) : Prop :=
  Some (player_id entry) = canceling_player_id.

#[global] Instance is_canceller_dec canceling_player_id entry :
  Decision (is_canceller canceling_player_id entry).
Proof. unfold is_canceller. apply _. Defined.

(** ** The slot catalogue: [get_time_slots] *)

(** The order of Python strings, on the code points below 256. *)
Definition string_le (s1 s2 : string) : Prop := String.leb s1 s2 = true.

#[global] Instance string_le_dec : RelDecision string_le.
Proof. intros s1 s2. unfold string_le. apply _. Defined.

(** ["05:30" <= start_time <= "19:00"] on a Sunday (day 1), and up to
    ["21:15"] on the other days and when no day is given. *)
Definition within_hours (day_of_week : option Z) (start_time : string) : bool :=
  if bool_decide (day_of_week = Some 1)
  then String.leb "05:30" start_time && String.leb start_time "19:00"
  else String.leb "05:30" start_time && String.leb start_time "21:15".

Section TimeSlots.
Context `{DatetimeLib}.

(** [get_time_slots]: [booktime] is the [StartTime1] column of
    [Booktime]; the result is [sorted(time_slots)] of the set of the
    times that are within the hours of the day. *)
Definition get_time_slots (db : Database) (booktime : list pydatetime)
    (day_of_week : option Z) : list string :=
  if negb (online db) then []
  else
    merge_sort string_le
      (remove_dups (filter (fun start_time => within_hours day_of_week start_time = true)
                      (map strftime_HM booktime))).

End TimeSlots.

(** The slot of a request whose [slot_id] is a JSON integer, in
    [add_booking] and [delete_booking]: the id [0] is false and fails the
    test [not (... and slot_id and ...)], any other id selects
    [time_slots[int(slot_id) - 1]], where an index below zero counts from
    the end of the list. [None] is the answer 400 of either test. *)
Definition selected_slot (time_slots : list string) (slot_id : Z) : option string :=
  if bool_decide (slot_id = 0) then None
  else
    let slot_index := slot_id - 1 in
    let n := Z.of_nat (length time_slots) in
    if (0 <=? slot_index)%Z then time_slots !! Z.to_nat slot_index
    else if (- n <=? slot_index)%Z then time_slots !! Z.to_nat (n + slot_index)
    else None.

(** * Theorems *)

Example strict_parse_example :
  strict_strptime_dmY_HMS "18/12/2030 10:30:00"
  = Some {| on := {| year := 2030; month := 12; day := 18 |};
            hour := 10; minute := 30; second := 0; microsecond := 0 |}
  /\ strftime_dmY {| year := 2030; month := 12; day := 18 |} = "18/12/2030"
  /\ strip "  a b  " = "a b".
Proof. vm_compute. repeat split. Qed.

(** Floats as Python prints and rounds them: 0.005 and 0.995 are not
    the decimals they are written as, 0.125 is. *)
Example float_examples :
  format_f 2 (float_of_ratio 5 1000) = Digits false 1
  /\ format_f 2 (float_of_ratio 995 1000) = Digits false 99
  /\ format_f 2 (float_of_ratio 125 1000) = Digits false 12
  /\ format_f 2 (float_of_ratio (-1) 1000) = Digits true 0
  /\ float_of_text 2 (Digits false 9000) = float_of_Z 90
  /\ fsub (float_of_Z 100) (float_of_Z 10) = float_of_Z 90
  /\ py_round (float_of_ratio 45 2) = Return 22
  /\ py_round (float_of_ratio 47 2) = Return 24
  /\ py_round (float_of_ratio (-1) 2) = Return 0
  /\ slot_price (float_of_ratio 7 10) = Return 31
  /\ py_round_digits 4 (float_of_ratio 123456 1000000) = float_of_ratio 1235 10000.
Proof. vm_compute. repeat split. Qed.

(** The dates and times the library takes besides the padded ones, and
    the descriptions the tariff lookup leaves out. *)
Example cpython_parse_example :
  cpython_strptime_dmY "18/1/2031" = Some {| year := 2031; month := 1; day := 18 |}
  /\ cpython_strptime_dmY "18/01/2031" = Some {| year := 2031; month := 1; day := 18 |}
  /\ cpython_strptime_dmY "29/2/2031" = None
  /\ cpython_strptime_dmY "18/1/31" = None
  /\ cpython_strptime_HM "8:5" = strict_strptime_HM "08:05"
  /\ like_Court "Court 1" = true
  /\ like_Court "SQUASH COURT" = true
  /\ like_Court "VISIONS" = false.
Proof. vm_compute. repeat split. Qed.

(** ** The booking ledger *)

Lemma sql_update_length accept write rows :
  length (sql_update accept write rows).1 = length rows.
Proof. unfold sql_update; simpl. apply length_map. Qed.

Lemma sql_update_lookup accept write rows (i : nat) row :
  rows !! i = Some row ->
  (sql_update accept write rows).1 !! i
  = Some (if accept row then write row else row).
Proof.
  intros Hrow. unfold sql_update; simpl.
  rewrite list_lookup_fmap, Hrow. reflexivity.
Qed.

Lemma sql_update_rowcount accept write rows :
  (0 < (sql_update accept write rows).2)%nat
  <-> exists row, row ∈ rows /\ accept row = true.
Proof.
  unfold sql_update; simpl. induction rows as [|r rows IH].
  - simpl. split; [lia|]. intros (row & Hin & _). inversion Hin.
  - rewrite filter_cons. destruct (decide (accept r = true)) as [Hr|Hr].
    + simpl. split; [|lia]. intros _. exists r. split; [left|assumption].
    + rewrite IH. split.
      * intros (row & Hin & Hacc). exists row. split; [by right|assumption].
      * intros (row & Hin & Hacc). apply elem_of_cons in Hin as [->|Hin].
        -- contradiction.
        -- exists row. split; assumption.
Qed.

Lemma sql_update_none accept write rows :
  (forall row, row ∈ rows -> accept row = false) ->
  sql_update accept write rows = (rows, 0%nat).
Proof.
  intros Hnone. unfold sql_update. f_equal.
  - induction rows as [|r rows IH]; [reflexivity|]. simpl.
    rewrite (Hnone r) by left. f_equal. apply IH.
    intros row Hin. apply Hnone. by right.
  - induction rows as [|r rows IH]; [reflexivity|].
    rewrite filter_cons. destruct (decide (accept r = true)) as [Hr|Hr].
    + rewrite (Hnone r) in Hr by left. discriminate.
    + apply IH. intros row Hin. apply Hnone. by right.
Qed.

Lemma set_Bookfile_same db : set_Bookfile db (Bookfile db) = db.
Proof. destruct db; reflexivity. Qed.

Lemma where_cell_free_spec v : where_cell_free v = true <-> empty_sentinel v.
Proof.
  unfold where_cell_free, empty_sentinel. destruct v as [n|].
  - rewrite orb_true_iff, !bool_decide_eq_true. split.
    + intros [->| ->]; auto.
    + intros [?|[?|?]]; simplify_eq; auto.
  - split; auto.
Qed.

Lemma where_cell_is_spec v mem_no : where_cell_is v mem_no = true <-> v = Some mem_no.
Proof.
  unfold where_cell_is. destruct v as [n|].
  - rewrite bool_decide_eq_true. split; intros; simplify_eq; reflexivity.
  - split; discriminate.
Qed.

Lemma set_cell_read row col no name :
  cell (set_cell row col no name) col = no
  /\ name_cell (set_cell row col no name) col = name
  /\ StartTime1 (set_cell row col no name) = StartTime1 row
  /\ forall other, other <> col ->
       cell (set_cell row col no name) other = cell row other
       /\ name_cell (set_cell row col no name) other = name_cell row other.
Proof.
  unfold cell, name_cell, set_cell, set_column; simpl.
  repeat split.
  - destruct no; [apply lookup_insert_eq | apply lookup_delete_eq].
  - destruct name; [apply lookup_insert_eq | apply lookup_delete_eq].
  - destruct no; [by apply lookup_insert_ne | by apply lookup_delete_ne].
  - destruct name; [by apply lookup_insert_ne | by apply lookup_delete_ne].
Qed.

(** C1, as the code has it. A reserve attempt writes nothing unless the
    member has a row in [Clublist] with a first name that is a text of at
    least one letter: without such a row (or without a connection) the
    answer is the error "member profile missing", and with a first name
    that is [NULL] or empty the attempt raises, also when the cell is
    free. An attempt of a member with a usable row on a column that
    exists is one conditional [UPDATE]: a row of the start time is
    rewritten with the member if and only if its cell holds [NULL], [0]
    or [-9]; every other row, and every other table, is left as it is;
    the answer is [success] exactly when some cell was written and
    [already_booked] otherwise, and when the cell holds anything else the
    database is unchanged. *)
Theorem update_internet_bookings_compare_and_set
    db date_container mem_no col selected_time :
  let t := date_container +:+ " " +:+ selected_time +:+ ":00" in
  let result := update_internet_bookings db date_container mem_no col selected_time in
  ((forall member_profile,
      get_squash_members_profile db mem_no <> OneProfile member_profile) ->
   result = (Return (StatusError "member profile missing"), db)
   \/ result = (Raise TypeError, db))
  /\ (forall member_profile e,
        get_squash_members_profile db mem_no = OneProfile member_profile ->
        player_name_of member_profile = Raise e ->
        result = (Raise e, db))
  /\ (forall member_profile player_name,
        get_squash_members_profile db mem_no = OneProfile member_profile ->
        player_name_of member_profile = Return player_name ->
        ~ (col < player_columns)%nat ->
        result = (Return (StatusError "pyodbc.Error"), db))
  /\ (forall member_profile player_name,
        get_squash_members_profile db mem_no = OneProfile member_profile ->
        player_name_of member_profile = Return player_name ->
        (col < player_columns)%nat ->
        exists status db',
          result = (Return status, db')
          /\ online db' = online db
          /\ Clublist db' = Clublist db
          /\ Courts db' = Courts db
          /\ length (Bookfile db') = length (Bookfile db)
          /\ (forall (i : nat) row, Bookfile db !! i = Some row ->
                (StartTime1 row = t /\ empty_sentinel (cell row col) ->
                   exists row', Bookfile db' !! i = Some row'
                     /\ row' = set_cell row col (Some mem_no) (Some player_name)
                     /\ cell row' col = Some mem_no
                     /\ name_cell row' col = Some player_name)
                /\ (~ (StartTime1 row = t /\ empty_sentinel (cell row col)) ->
                      Bookfile db' !! i = Some row))
          /\ (status = StatusSuccess
              <-> exists row, row ∈ Bookfile db /\ StartTime1 row = t
                              /\ empty_sentinel (cell row col))
          /\ (status = StatusAlreadyBooked
              <-> ~ exists row, row ∈ Bookfile db /\ StartTime1 row = t
                                /\ empty_sentinel (cell row col))
          /\ ((forall row, row ∈ Bookfile db -> StartTime1 row = t ->
                 ~ empty_sentinel (cell row col)) ->
              status = StatusAlreadyBooked /\ db' = db)).
Proof.
  intros t result. subst result.
  assert (Honline : forall member_profile,
            get_squash_members_profile db mem_no = OneProfile member_profile ->
            online db = true).
  { intros member_profile Hprofile. unfold get_squash_members_profile in Hprofile.
    destruct (online db); [reflexivity|]. simpl in Hprofile.
    case_bool_decide; discriminate. }
  split; [|split; [|split]].
  - intros Hnone. unfold update_internet_bookings.
    destruct (get_squash_members_profile db mem_no) as [|p|[|? ?]];
      [by left|by destruct (Hnone p)|by left|by right].
  - intros member_profile e Hprofile Hname. unfold update_internet_bookings.
    by rewrite Hprofile, Hname.
  - intros member_profile player_name Hprofile Hname Hcol.
    unfold update_internet_bookings.
    rewrite Hprofile, Hname, (Honline _ Hprofile). simpl.
    by rewrite (bool_decide_eq_false_2 _ Hcol).
  - intros member_profile player_name Hprofile Hname Hcol.
    apply Honline in Hprofile as Honline'. clear Honline. rename Honline' into Honline.
    set (accept := fun row : BookfileRow =>
           bool_decide (StartTime1 row = t) && where_cell_free (cell row col)).
    set (write := fun row : BookfileRow =>
           set_cell row col (Some mem_no) (Some player_name)).
    assert (Haccept : forall row, accept row = true
              <-> StartTime1 row = t /\ empty_sentinel (cell row col)).
    { intros row. unfold accept.
      rewrite andb_true_iff, bool_decide_eq_true, where_cell_free_spec. tauto. }
    pose proof (sql_update_rowcount accept write (Bookfile db)) as Hcount.
    exists (if bool_decide (0 < (sql_update accept write (Bookfile db)).2)%nat
            then StatusSuccess else StatusAlreadyBooked),
           (set_Bookfile db (sql_update accept write (Bookfile db)).1).
    split; [|split; [|split; [|split; [|split; [|split; [|split; [|split]]]]]]].
    + unfold update_internet_bookings. rewrite Hprofile, Hname, Honline. simpl.
      rewrite (bool_decide_eq_true_2 _ Hcol). simpl.
      fold t. fold accept. fold write. unfold sql_update. simpl.
      destruct (bool_decide _); reflexivity.
    + reflexivity.
    + reflexivity.
    + reflexivity.
    + cbn [Bookfile set_Bookfile]. apply sql_update_length.
    + intros i row Hrow. cbn [Bookfile set_Bookfile].
      rewrite (sql_update_lookup accept write _ i row Hrow). split.
      * intros Hfree. apply Haccept in Hfree. rewrite Hfree.
        exists (write row). split; [reflexivity|]. split; [reflexivity|].
        unfold write.
        pose proof (set_cell_read row col (Some mem_no) (Some player_name)).
        tauto.
      * intros Hnot. destruct (accept row) eqn:Hacc; [|reflexivity].
        apply Haccept in Hacc. contradiction.
    + case_bool_decide as Hpos.
      * split; [intros _|reflexivity]. apply Hcount in Hpos as (row & Hin & Hacc).
        exists row. apply Haccept in Hacc. tauto.
      * split; [discriminate|]. intros (row & Hin & Ht & Hfree). exfalso. apply Hpos.
        apply Hcount. exists row. split; [assumption|]. apply Haccept. tauto.
    + case_bool_decide as Hpos.
      * split; [discriminate|]. intros Hnone. exfalso. apply Hnone.
        apply Hcount in Hpos as (row & Hin & Hacc).
        exists row. apply Haccept in Hacc. tauto.
      * split; [intros _|reflexivity]. intros (row & Hin & Ht & Hfree). apply Hpos.
        apply Hcount. exists row. split; [assumption|]. apply Haccept. tauto.
    + intros Hheld. rewrite (sql_update_none accept write); simpl.
      * split; [reflexivity | apply set_Bookfile_same].
      * intros row Hin. destruct (accept row) eqn:Hacc; [|reflexivity].
        apply Haccept in Hacc as [Ht Hfree]. exfalso. exact (Hheld row Hin Ht Hfree).
Qed.

(** Anna reserves the free court 1 of 17:15: the answer is [success],
    and row 0 of the ledger now holds her number and her name. *)
Lemma update_internet_bookings_compare_and_set_witness :
  exists db',
    update_internet_bookings club "18/12/2030" 101 0 "17:15" = (Return StatusSuccess, db')
    /\ (fun row => (cell row 0, name_cell row 0)) <$> Bookfile db' !! 0%nat
       = Some (Some 101, Some "A Botha")
    /\ Bookfile db' !! 1%nat = Bookfile club !! 1%nat.
Proof.
  destruct (update_internet_bookings_compare_and_set club "18/12/2030" 101 0 "17:15")
    as (_ & _ & _ & Hcas).
  destruct (Hcas (profile_of_row anna) "A Botha")
    as (status & db' & Hrun & _ & _ & _ & _ & Hrows & Hstatus & _).
  - reflexivity.
  - reflexivity.
  - unfold player_columns. lia.
  - assert (Hfree : exists row, row ∈ Bookfile club
                      /\ StartTime1 row = "18/12/2030" +:+ " " +:+ "17:15" +:+ ":00"
                      /\ empty_sentinel (cell row 0)).
    { eexists. split; [left|]. split; [reflexivity|]. by left. }
    apply Hstatus in Hfree. subst status. exists db'. split; [exact Hrun|].
    split.
    + destruct (Hrows 0%nat _ eq_refl) as [Hwritten _].
      destruct Hwritten as (row' & Hrow' & _ & Hcell & Hname).
      * split; [reflexivity|]. by left.
      * rewrite Hrow'. simpl. by rewrite Hcell, Hname.
    + destruct (Hrows 1%nat _ eq_refl) as [_ Hkept]. rewrite Hkept; [reflexivity|].
      intros [Ht _]. discriminate.
Defined.

(** C1, as stated, fails: court 1 of 17:15 is free, and the reserve
    attempt of Dan, whose [First] is [NULL], raises without writing him
    into the cell; the attempt of a number that has no row in [Clublist]
    answers "member profile missing" and writes nothing either. *)
Lemma update_internet_bookings_free_cell_not_written :
  (exists row, Bookfile club_with_dan !! 0%nat = Some row
               /\ StartTime1 row = "18/12/2030 17:15:00"
               /\ empty_sentinel (cell row 0))
  /\ update_internet_bookings club_with_dan "18/12/2030" 404 0 "17:15"
     = (Raise TypeError, club_with_dan)
  /\ update_internet_bookings club_with_dan "18/12/2030" 505 0 "17:15"
     = (Return (StatusError "member profile missing"), club_with_dan)
  /\ ~ (exists row, row ∈ Bookfile club_with_dan /\ cell row 0 = Some 404).
Proof.
  split; [|split; [|split]].
  - eexists. split; [reflexivity|]. split; [reflexivity|]. by left.
  - vm_compute. reflexivity.
  - vm_compute. reflexivity.
  - intros (row & Hin & Hcell). vm_compute in Hin.
    apply elem_of_cons in Hin as [->|Hin]; [discriminate|].
    apply elem_of_cons in Hin as [->|Hin]; [discriminate|]. inversion Hin.
Qed.

Example update_internet_bookings_examples :
  (update_internet_bookings club "18/12/2030" 101 0 "17:15").1 = Return StatusSuccess
  /\ (update_internet_bookings club "18/12/2030" 101 1 "17:15").1
     = Return StatusAlreadyBooked
  /\ (update_internet_bookings club "18/12/2030" 101 1 "18:00").1 = Return StatusSuccess
  /\ (update_internet_bookings club "18/12/2030" 101 0 "21:15").1
     = Return StatusAlreadyBooked
  /\ (update_internet_bookings club "18/12/2030" 303 0 "17:15").1
     = Return (StatusError "member profile missing").
Proof. repeat split; vm_compute; reflexivity. Qed.

(** C6. A release attempt that reaches the database is one conditional
    [UPDATE]: a row of the start time is cleared (number and name set to
    [NULL]) if and only if its cell holds the member; every other row,
    and every other table, is left as it is; the answer is [True] exactly
    when some cell was cleared, and when the occupant differs from the
    member, or no row has the start time, the database is unchanged and
    the answer is [False]. *)
Theorem delete_internet_booking_owner_only db start_time1 mem_no col :
  online db = true ->
  (col < player_columns)%nat ->
  exists success db',
    delete_internet_booking db start_time1 mem_no col = (success, db')
    /\ online db' = online db
    /\ Clublist db' = Clublist db
    /\ Courts db' = Courts db
    /\ length (Bookfile db') = length (Bookfile db)
    /\ (forall (i : nat) row, Bookfile db !! i = Some row ->
          (StartTime1 row = start_time1 /\ cell row col = Some mem_no ->
             exists row', Bookfile db' !! i = Some row'
               /\ row' = set_cell row col None None
               /\ cell row' col = None
               /\ name_cell row' col = None)
          /\ (~ (StartTime1 row = start_time1 /\ cell row col = Some mem_no) ->
                Bookfile db' !! i = Some row))
    /\ (success = true
        <-> exists row, row ∈ Bookfile db /\ StartTime1 row = start_time1
                        /\ cell row col = Some mem_no)
    /\ ((forall row, row ∈ Bookfile db -> StartTime1 row = start_time1 ->
           cell row col <> Some mem_no) ->
        success = false /\ db' = db).
Proof.
  intros Honline Hcol.
  set (accept := fun row : BookfileRow =>
         bool_decide (StartTime1 row = start_time1)
         && where_cell_is (cell row col) mem_no).
  set (write := fun row : BookfileRow => set_cell row col None None).
  assert (Haccept : forall row, accept row = true
            <-> StartTime1 row = start_time1 /\ cell row col = Some mem_no).
  { intros row. unfold accept.
    rewrite andb_true_iff, bool_decide_eq_true, where_cell_is_spec. tauto. }
  pose proof (sql_update_rowcount accept write (Bookfile db)) as Hcount.
  exists (bool_decide (0 < (sql_update accept write (Bookfile db)).2)%nat),
         (set_Bookfile db (sql_update accept write (Bookfile db)).1).
  split; [|split; [|split; [|split; [|split; [|split; [|split]]]]]].
  - unfold delete_internet_booking. rewrite Honline. simpl.
    rewrite (bool_decide_eq_true_2 _ Hcol). simpl.
    fold accept. fold write. unfold sql_update. simpl.
    destruct (bool_decide _); reflexivity.
  - reflexivity.
  - reflexivity.
  - reflexivity.
  - cbn [Bookfile set_Bookfile]. apply sql_update_length.
  - intros i row Hrow. cbn [Bookfile set_Bookfile].
    rewrite (sql_update_lookup accept write _ i row Hrow). split.
    + intros Hmine. apply Haccept in Hmine. rewrite Hmine.
      exists (write row). split; [reflexivity|]. split; [reflexivity|].
      unfold write. pose proof (set_cell_read row col None None). tauto.
    + intros Hnot. destruct (accept row) eqn:Hacc; [|reflexivity].
      apply Haccept in Hacc. contradiction.
  - rewrite bool_decide_eq_true, Hcount. split.
    + intros (row & Hin & Hacc). exists row. apply Haccept in Hacc. tauto.
    + intros (row & Hin & Ht & Hmine). exists row. split; [assumption|].
      apply Haccept. tauto.
  - intros Hother. rewrite (sql_update_none accept write); simpl.
    + split; [reflexivity | apply set_Bookfile_same].
    + intros row Hin. destruct (accept row) eqn:Hacc; [|reflexivity].
      apply Haccept in Hacc as [Ht Hmine]. exfalso. exact (Hother row Hin Ht Hmine).
Qed.

(** Anna releases court 1 of 18:00, which she holds: the answer is
    [True], and row 1 of the ledger now has [NULL] for her number and her
    name, with the restricted court 2 as it was. *)
Lemma delete_internet_booking_owner_only_witness :
  exists db',
    delete_internet_booking club "18/12/2030 18:00:00" 101 0 = (true, db')
    /\ (fun row => (cell row 0, name_cell row 0, cell row 1)) <$> Bookfile db' !! 1%nat
       = Some (None, None, Some (-9))
    /\ Bookfile db' !! 0%nat = Bookfile club !! 0%nat.
Proof.
  destruct (delete_internet_booking_owner_only club "18/12/2030 18:00:00" 101 0)
    as (success & db' & Hrun & _ & _ & _ & _ & Hrows & Hsuccess & _).
  - reflexivity.
  - unfold player_columns. lia.
  - assert (Hmine : exists row, row ∈ Bookfile club
                      /\ StartTime1 row = "18/12/2030 18:00:00"
                      /\ cell row 0 = Some 101).
    { eexists. split; [right; left|]. split; reflexivity. }
    apply Hsuccess in Hmine. subst success. exists db'. split; [exact Hrun|].
    split.
    + destruct (Hrows 1%nat _ eq_refl) as [Hcleared _].
      destruct Hcleared as (row' & Hrow' & Heq & Hcell & Hname).
      * split; reflexivity.
      * rewrite Hrow'. simpl. rewrite Hcell, Hname. subst row'. reflexivity.
    + destruct (Hrows 0%nat _ eq_refl) as [_ Hkept]. rewrite Hkept; [reflexivity|].
      intros [Ht _]. discriminate.
Defined.

Example delete_internet_booking_examples :
  (delete_internet_booking club "18/12/2030 18:00:00" 101 0).1 = true
  /\ delete_internet_booking club "18/12/2030 18:00:00" 202 0 = (false, club)
  /\ delete_internet_booking club "18/12/2030 17:15:00" 101 0 = (false, club)
  /\ delete_internet_booking club "19/12/2030 17:15:00" 101 0 = (false, club).
Proof. repeat split; vm_compute; reflexivity. Qed.

(** ** The waiting list store *)

Section WaitingListFacts.
Context `{DatetimeLib}.

(** C9. An add request of a member whose stored address is missing,
    empty once trimmed, or does not hold exactly one ["@"] is answered
    with an error, and the waiting list file is left as it was. *)
Theorem add_to_waiting_list_rejects_unusable_email
    (file : WaitingList) db now session data player row :
  session_Mem_No session = Some player ->
  fetchone_member db player = Some row ->
  unusable_email (E_Mail_Adr row) ->
  exists response,
    add_to_waiting_list file db now session data = (response, file)
    /\ add_rejected response.
Proof.
  intros Hsession Hrow Hbad. unfold add_to_waiting_list. rewrite Hsession.
  destruct (missing (request_date data) || missing (request_time_slot data));
    [eexists; split; [reflexivity|exact I]|].
  unfold get_member_email_and_memnumber.
  destruct (negb (online db));
    [destruct (bool_decide (player = 0)); eexists; split; [reflexivity|exact I
                                                          |reflexivity|exact I]|].
  destruct (bool_decide (player = 0)).
  { destruct (map _ _); eexists; split; [reflexivity|exact I|reflexivity|exact I]. }
  rewrite Hrow. destruct (E_Mail_Adr row) as [s|]; simpl in *.
  - destruct Hbad as [Hblank|Hat].
    + rewrite (bool_decide_eq_true_2 _ Hblank), orb_true_r.
      eexists; split; [reflexivity|exact I].
    + destruct (_ || _); [eexists; split; [reflexivity|exact I]|].
      apply Nat.eqb_neq in Hat. rewrite Hat. eexists; split; [reflexivity|exact I].
  - eexists; split; [reflexivity|exact I].
Qed.

End WaitingListFacts.

Lemma add_to_waiting_list_rejects_unusable_email_witness :
  exists response,
    add_to_waiting_list (∅ : WaitingList)
      {| online := true;
         Clublist := [ {| Mem_No := 303; Surname := Some "Nel"; First := Some "Cara";
                          CellPhone := None; E_Mail_Adr := Some "cara.example.org";
                          S_Credit := None; Book := []; Week := [] |} ];
         Bookfile := []; Courts := [] |}
      {| on := {| year := 2030; month := 12; day := 1 |};
         hour := 9; minute := 0; second := 0; microsecond := 0 |}
      {| session_Mem_No := Some 303; session_first_name := Some "Cara";
         session_last_name := Some "Nel" |}
      {| request_date := Some "2030-12-18"; request_time_slot := Some "18:00" |}
    = (response, ∅)
    /\ add_rejected response.
Proof.
  eapply (add_to_waiting_list_rejects_unusable_email (H := strict_datetime)).
  - reflexivity.
  - reflexivity.
  - right. vm_compute. lia.
Defined.

Lemma no_empty_keys_insert (wl : WaitingList) date time_slot
    (slots : gmap string (list WaitingEntry)) entries :
  no_empty_keys wl ->
  (forall t es, slots !! t = Some es -> es <> []) ->
  entries <> [] ->
  no_empty_keys (<[date := <[time_slot := entries]> slots]> wl).
Proof.
  intros Hwl Hslots Hentries date' slots' Hlookup.
  destruct (decide (date = date')) as [<-|Hne].
  - rewrite lookup_insert_eq in Hlookup. injection Hlookup as <-. split.
    + apply insert_non_empty.
    + intros t es Ht. destruct (decide (time_slot = t)) as [<-|Hnt].
      * rewrite lookup_insert_eq in Ht. by injection Ht as <-.
      * rewrite lookup_insert_ne in Ht by assumption. by eapply Hslots.
  - rewrite lookup_insert_ne in Hlookup by assumption. exact (Hwl _ _ Hlookup).
Qed.

Lemma no_empty_keys_delete (wl : WaitingList) date :
  no_empty_keys wl -> no_empty_keys (delete date wl).
Proof.
  intros Hwl date' slots' Hlookup.
  apply lookup_delete_Some in Hlookup as [_ Hlookup]. exact (Hwl _ _ Hlookup).
Qed.

Section WaitingListShape.
Context `{DatetimeLib}.

Lemma cleanup_waiting_list_shape (file : WaitingList) now :
  no_empty_keys file -> no_empty_keys (cleanup_waiting_list file now).
Proof.
  intros Hfile date slots Hlookup. unfold cleanup_waiting_list in Hlookup.
  apply map_lookup_filter_Some in Hlookup as [Hlookup _]. exact (Hfile _ _ Hlookup).
Qed.

Lemma add_to_waiting_list_shape (file : WaitingList) db now session data :
  no_empty_keys file ->
  no_empty_keys (add_to_waiting_list file db now session data).2.
Proof.
  intros Hfile. unfold add_to_waiting_list.
  destruct (session_Mem_No session) as [player|]; [|exact Hfile].
  destruct (_ || _); [exact Hfile|].
  destruct (get_member_email_and_memnumber db player) as [|m e|[|? ?]];
    try exact Hfile.
  destruct (_ || _); [exact Hfile|].
  destruct (negb _); [exact Hfile|].
  pose proof (cleanup_waiting_list_shape file now Hfile) as Hclean.
  destruct (existsb _ _); [exact Hclean|]. simpl.
  apply no_empty_keys_insert; [exact Hclean| |].
  - intros t es Ht.
    destruct (cleanup_waiting_list file now !! _) as [slots|] eqn:Hdate; simpl in Ht.
    + by eapply (proj2 (Hclean _ _ Hdate)).
    + by rewrite lookup_empty in Ht.
  - intros Hnil. by apply app_eq_nil in Hnil as [_ ?].
Qed.

End WaitingListShape.

Lemma remove_from_waiting_list_shape (file : WaitingList) session data :
  no_empty_keys file ->
  no_empty_keys (remove_from_waiting_list file session data).2.
Proof.
  intros Hfile. unfold remove_from_waiting_list.
  destruct (session_Mem_No session) as [player|]; [|exact Hfile].
  destruct (_ || _); [exact Hfile|].
  destruct (file !! _) as [slots|] eqn:Hdate; [|exact Hfile].
  destruct (slots !! _) as [entries|] eqn:Hslot; [|exact Hfile]. simpl.
  case_bool_decide as Hempty; [by apply no_empty_keys_delete|].
  pose proof (Hfile _ _ Hdate) as [_ Hslots].
  destruct (filter _ entries) as [|e es] eqn:Hupdated.
  - intros date' slots' Hlookup.
    destruct (decide (default "" (request_date data) = date')) as [<-|Hne].
    + rewrite lookup_insert_eq in Hlookup. injection Hlookup as <-.
      split; [exact Hempty|]. intros t es' Ht.
      apply lookup_delete_Some in Ht as [_ Ht]. by eapply Hslots.
    + rewrite lookup_insert_ne in Hlookup by assumption. exact (Hfile _ _ Hlookup).
  - apply no_empty_keys_insert; [exact Hfile|exact Hslots|discriminate].
Qed.

(** What a notification run can do to the file: nothing at all, or the
    removal of the whole time slot under a date that stays. *)
Lemma process_waiting_list_notifications_file `{DatetimeLib}
    (file : WaitingList) mt date time_slot canceller :
  let '(result, file', _) :=
    process_waiting_list_notifications file mt date time_slot canceller in
  file' = file
  \/ exists slots, file !! date = Some slots /\ result = Return tt
       /\ file' = <[date := delete (substring 0 5 time_slot) slots]> file.
Proof.
  unfold process_waiting_list_notifications.
  destruct (file !! date) as [slots|] eqn:Hdate; [|by left].
  destruct (slots !! _) as [entries|]; [|by left].
  destruct (notify_entries _ _ _ _ _ _) as [[|e es] mt']; [|by left].
  right. exists slots. auto.
Qed.

(** A run that keeps an entry raises before the save; a run that keeps
    none deletes the time slot key and saves. *)
Lemma process_waiting_list_notifications_outcome `{DatetimeLib}
    (file : WaitingList) mt date time_slot canceller slots entries kept mt' :
  file !! date = Some slots ->
  slots !! substring 0 5 time_slot = Some entries ->
  notify_entries date (substring 0 5 time_slot) canceller entries [] mt = (kept, mt') ->
  process_waiting_list_notifications file mt date time_slot canceller
  = match kept with
    | _ :: _ => (Raise TypeError, file, mt')
    | [] => (Return tt, <[date := delete (substring 0 5 time_slot) slots]> file, mt')
    end.
Proof.
  intros Hdate Hslot Hloop. unfold process_waiting_list_notifications.
  rewrite Hdate, Hslot, Hloop. destruct kept; reflexivity.
Qed.

Lemma waiting_for_six_shape entries :
  entries <> [] -> no_empty_keys (waiting_for_six entries).
Proof.
  intros Hentries date slots Hlookup. unfold waiting_for_six in Hlookup.
  apply lookup_singleton_Some in Hlookup as [_ <-]. split.
  - apply insert_non_empty.
  - intros t es Ht. apply lookup_singleton_Some in Ht as [_ <-]. exact Hentries.
Qed.

(** C10, on the code. A notification run that sends to the only waiting
    member deletes the time slot and saves, but does not delete the date:
    the file that satisfied the invariant now maps the date to the empty
    slot map. ([add_to_waiting_list_shape], [remove_from_waiting_list_shape]
    and [cleanup_waiting_list_shape] above show that the three other
    operations keep the invariant.) *)
Theorem process_waiting_list_notifications_leaves_empty_date :
  no_empty_keys (waiting_for_six [ben_waiting])
  /\ process_waiting_list_notifications (waiting_for_six [ben_waiting]) (transport [])
       "18/12/2030" "18:00" None
     = (Return tt, {[ "18/12/2030" := ∅ ]},
        {| script := [];
           attempts := [(notice ben_waiting "18/12/2030" "18:00", true)] |})
  /\ ~ no_empty_keys ({[ "18/12/2030" := ∅ ]} : WaitingList).
Proof.
  split; [by apply waiting_for_six_shape|]. split.
  - vm_compute. reflexivity.
  - intros Hshape.
    destruct (Hshape "18/12/2030" ∅) as [Hne _]; [apply lookup_singleton_eq|].
    by apply Hne.
Qed.

(** C2, on the code. [delete_booking] calls the dispatcher without the
    cancelling player: Anna cancels her own booking of 18:00 while she
    waits for that slot, the one notice of the run goes to her address,
    and her entry is gone from the saved file. *)
Theorem delete_booking_notifies_the_canceller :
  exists financial_data w',
    delete_booking cancellation_day "18/12/2030" "18:00" 0 101 1
    = (Deleted200 financial_data, w')
    /\ attempts (mail w') = [(notice anna_waiting "18/12/2030" "18:00", true)]
    /\ waiting_list_file w' = {[ "18/12/2030" := ∅ ]}
    /\ (forall entries,
          waiting_list_file w' !! "18/12/2030" ≫= (.!! "18:00") = Some entries ->
          anna_waiting ∉ entries).
Proof.
  eexists _, _. split; [vm_compute; reflexivity|]. simpl.
  split; [reflexivity|]. split; [reflexivity|].
  intros entries Hentries. vm_compute in Hentries. discriminate.
Qed.

(** The dispatcher itself does leave out a canceller it is told about. *)
Example process_waiting_list_notifications_told :
  process_waiting_list_notifications (waiting_for_six [anna_waiting]) (transport [])
    "18/12/2030" "18:00" (Some 101)
  = (Raise TypeError, waiting_for_six [anna_waiting], transport []).
Proof. vm_compute. reflexivity. Qed.

(** C3, on the code. Anna and Ben wait in that order, the send to Anna
    fails and the send to Ben succeeds: the list kept for the file is
    [[anna]], the broken store statement raises before the save, and the
    saved list still holds Ben next to Anna. *)
Theorem process_waiting_list_notifications_keeps_notified_entry :
  notify_entries "18/12/2030" "18:00" None [anna_waiting; ben_waiting] []
    (transport [false; true])
  = ([anna_waiting],
     {| script := [];
        attempts := [(notice anna_waiting "18/12/2030" "18:00", false);
                     (notice ben_waiting "18/12/2030" "18:00", true)] |})
  /\ process_waiting_list_notifications (waiting_for_six [anna_waiting; ben_waiting])
       (transport [false; true]) "18/12/2030" "18:00:00" None
     = (Raise TypeError, waiting_for_six [anna_waiting; ben_waiting],
        {| script := [];
           attempts := [(notice anna_waiting "18/12/2030" "18:00", false);
                        (notice ben_waiting "18/12/2030" "18:00", true)] |}).
Proof. split; vm_compute; reflexivity. Qed.

(** When every send succeeds the time slot key is deleted. *)
Example process_waiting_list_notifications_all_sent :
  (process_waiting_list_notifications (waiting_for_six [anna_waiting; ben_waiting])
     (transport [true; true]) "18/12/2030" "18:00" None).1.2
    !! "18/12/2030" ≫= (.!! "18:00") = None.
Proof. vm_compute. reflexivity. Qed.

(** ** The limit checks *)

(** At 18:30 of 18/12/2030 the daily check of that day no longer counts
    the bookings of 17:15 and 18:00; the day before it counts all three,
    and so does the weekly check at any time. *)
Example elapsed_rows_example :
  let q := day_queries [[Some 101]; [Some 101]; [Some 101]] [[1]; [1]; [1]] in
  check_daily_booking_limits club q (at_clock 18 18 30) (Some 101) (Some "18/12/2030")
  = WithinBounds200 [ {| limit := 2; period_id := 1; period_description := "NORMAL";
                         bookings_count := 1 |} ]
  /\ check_daily_booking_limits club q (at_clock 17 19 0) (Some 101) (Some "18/12/2030")
     = LimitExceeded403 [ {| limit := 2; period_id := 1; period_description := "NORMAL";
                             bookings_count := 3 |} ]
  /\ check_weekly_booking_limits club q (Some 101) (Some "16/12/2030") (Some "22/12/2030")
     = WithinBounds200 [ {| limit := 4; period_id := 1; period_description := "NORMAL";
                            bookings_count := 3 |} ].
Proof. repeat split; vm_compute; reflexivity. Qed.











Section LimitCounts.
Context `{DatetimeLib}.






End LimitCounts.





(** Three bookings in PEAK, for which Anna has no aligned cap, are within
    bounds; Ben, whose caps are 2 for NORMAL and 1 for PEAK, is refused
    with two bookings in PEAK and none counted in NORMAL. *)
Example uncapped_period_example :
  let q := day_queries [[Some 101]; [Some 101]; [Some 101]] [[2]; [2]; [2]] in
  check_daily_booking_limits club q (at_clock 17 9 0) (Some 101) (Some "18/12/2030")
  = WithinBounds200 [ {| limit := 2; period_id := 1; period_description := "NORMAL";
                         bookings_count := 0 |} ]
  /\ check_daily_booking_limits club (day_queries [[Some 202]; [Some 202]] [[2]; [2]])
       (at_clock 17 9 0) (Some 202) (Some "18/12/2030")
     = LimitExceeded403 [ {| limit := 2; period_id := 1; period_description := "NORMAL";
                             bookings_count := 0 |};
                          {| limit := 1; period_id := 2; period_description := "PEAK";
                             bookings_count := 2 |} ].
Proof. split; vm_compute; reflexivity. Qed.

(** ** The credit adjustment *)

Lemma fetchone_member_updated db member_no_ row fn ln cp em credit_ :
  online db = true ->
  fetchone_member db member_no_ = Some row ->
  exists db',
    update_squash_member_profile db member_no_ fn ln cp em credit_ = (true, db')
    /\ online db' = true
    /\ Courts db' = Courts db
    /\ Bookfile db' = Bookfile db
    /\ fetchone_member db' member_no_
       = Some {| Mem_No := Mem_No row; Surname := ln; First := fn; CellPhone := cp;
                 E_Mail_Adr := em; S_Credit := Some credit_;
                 Book := Book row; Week := Week row |}.
Proof.
  intros Honline Hrow. unfold update_squash_member_profile. rewrite Honline. simpl.
  assert (Hexists : Exists (fun r => Mem_No r = member_no_) (Clublist db)).
  { unfold fetchone_member in Hrow. apply Exists_exists. exists row.
    apply head_Some_elem_of in Hrow. by apply list_elem_of_filter in Hrow as [? ?]. }
  rewrite (bool_decide_eq_true_2 _ Hexists).
  eexists. split; [reflexivity|]. split; [exact Honline|].
  split; [reflexivity|]. split; [reflexivity|]. clear Hexists.
  unfold fetchone_member in *. simpl.
    induction (Clublist db) as [|r rows IH]; [discriminate|].
    rewrite filter_cons in Hrow. cbn [map]. rewrite filter_cons.
    destruct (decide (Mem_No r = member_no_)) as [Hr|Hr].
    + rewrite (bool_decide_eq_true_2 _ Hr). simpl.
      rewrite decide_True by assumption. simpl in *. by injection Hrow as ->.
    + rewrite (bool_decide_eq_false_2 _ Hr). rewrite decide_False by assumption.
      apply IH. exact Hrow.
Qed.


Lemma get_squash_members_profile_one db mem_no member_profile :
  get_squash_members_profile db mem_no = OneProfile member_profile ->
  online db = true /\ mem_no <> 0
  /\ exists row, fetchone_member db mem_no = Some row
                 /\ member_profile = profile_of_row row.
Proof.
  unfold get_squash_members_profile. destruct (online db); simpl.
  - case_bool_decide; [discriminate|].
    destruct (fetchone_member db mem_no) as [row|]; [|discriminate].
    intros [= <-]. eauto.
  - case_bool_decide; discriminate.
Qed.

Lemma requested_profile_one db method mem_no member_profile :
  requested_profile db method mem_no = OneProfile member_profile ->
  online db = true
  /\ exists row, fetchone_member db mem_no = Some row
                 /\ member_profile = profile_of_row row.
Proof.
  destruct method; simpl.
  - unfold profile_of_username. destruct (online db); [|discriminate]. simpl.
    destruct (fetchone_member db mem_no) as [row|]; [|discriminate].
    intros [= <-]. eauto.
  - intros Hprofile. apply get_squash_members_profile_one in Hprofile. tauto.
Qed.

(** For a number other than 0 both methods look up the same profile. *)
Lemma requested_profile_number db method mem_no :
  mem_no <> 0 -> requested_profile db method mem_no = profile_of_username db mem_no.
Proof.
  intros Hmem. destruct method; [reflexivity|]. simpl.
  unfold get_squash_members_profile, profile_of_username.
  destruct (negb (online db)); by rewrite (bool_decide_eq_false_2 _ Hmem).
Qed.

Lemma first_cost_booking items cost :
  first_cost "IBOOKING" items None = Return (Some cost)
  <-> exists court first_court others more,
        items = (court, first_court) :: others /\ bookings first_court = cost :: more.
Proof.
  destruct items as [|[court first_court] others]; simpl.
  - split; [discriminate|]. intros (? & ? & ? & ? & ? & _). discriminate.
  - destruct (bookings first_court) as [|c more] eqn:Hbookings.
    + split; [discriminate|]. intros (? & ? & ? & ? & [= <- <- <-] & Hb).
      rewrite Hbookings in Hb. discriminate.
    + split.
      * intros [= <-]. eauto 6.
      * intros (? & ? & ? & ? & [= <- <- <-] & Hb). rewrite Hbookings in Hb.
        by injection Hb as <- _.
Qed.

Lemma dict_set_keys {V} k (v : V) d :
  map fst (dict_set k v d)
  = if bool_decide (k ∈ map fst d) then map fst d else map fst d ++ [k].
Proof.
  induction d as [|[k' v'] d IH]; [reflexivity|]. simpl.
  destruct (decide (k' = k)) as [->|Hne].
  - rewrite bool_decide_eq_true_2 by reflexivity. simpl.
    rewrite bool_decide_eq_true_2 by left. reflexivity.
  - rewrite (bool_decide_eq_false_2 (k' = k)) by assumption. simpl. rewrite IH.
    destruct (decide (k ∈ map fst d)) as [Hin|Hout].
    + rewrite !bool_decide_eq_true_2; [reflexivity| |assumption]. by right.
    + rewrite !bool_decide_eq_false_2; [reflexivity| |assumption].
      intros Hin. apply elem_of_cons in Hin as [?|?]; [congruence|contradiction].
Qed.

Lemma dict_set_elem {V} k (v : V) d item :
  item ∈ dict_set k v d -> item = (k, v) \/ item ∈ d.
Proof.
  induction d as [|[k' v'] d IH]; simpl.
  - intros Hin. apply list_elem_of_singleton in Hin. by left.
  - case_bool_decide.
    + intros Hin. apply elem_of_cons in Hin as [?|?]; [by left|right; by right].
    + intros Hin. apply elem_of_cons in Hin as [->|Hin]; [right; left|].
      destruct (IH Hin); [by left|right; by right].
Qed.

(** The tariff dictionary has each description once, and every item of
    it is the tariff of a row of [Courts] whose description does not
    hold ["court"]. *)
Lemma get_court_rates_per_minute_items db :
  NoDup (map fst (get_court_rates_per_minute db))
  /\ forall item, item ∈ get_court_rates_per_minute db ->
       has_tariff item.2 = true
       /\ exists row, row ∈ Courts db /\ CourtDesc row = item.1
                      /\ like_Court (CourtDesc row) = false
                      /\ item.2 = court_data_of_row row.
Proof.
  unfold get_court_rates_per_minute. destruct (negb (online db)).
  { split; [constructor|]. intros ? Hin. inversion Hin. }
  set (step := fun (court_data : list (string * CourtData)) row =>
         let cd := court_data_of_row row in
         if has_tariff cd then dict_set (CourtDesc row) cd court_data else court_data).
  set (good := fun item : string * CourtData =>
         has_tariff item.2 = true
         /\ exists row, row ∈ Courts db /\ CourtDesc row = item.1
                        /\ like_Court (CourtDesc row) = false
                        /\ item.2 = court_data_of_row row).
  assert (Hinv : forall rows acc,
            NoDup (map fst acc) ->
            (forall item, item ∈ acc -> good item) ->
            (forall row, row ∈ rows -> row ∈ tariff_rows db) ->
            NoDup (map fst (fold_left step rows acc))
            /\ forall item, item ∈ fold_left step rows acc -> good item).
  { induction rows as [|r rows IH]; intros acc Hnodup Hitems Hrows; [by split|].
    simpl. apply IH.
    - unfold step. simpl. destruct (has_tariff _); [|exact Hnodup].
      rewrite dict_set_keys. case_bool_decide as Hin; [exact Hnodup|].
      apply NoDup_app. split; [exact Hnodup|]. split; [|apply NoDup_singleton].
      intros k Hk Hk'. apply list_elem_of_singleton in Hk' as ->. contradiction.
    - intros item Hin. unfold step in Hin. simpl in Hin.
      destruct (has_tariff (court_data_of_row r)) eqn:Htariff; [|by apply Hitems].
      apply dict_set_elem in Hin as [->|Hin]; [|by apply Hitems].
      split; [exact Htariff|]. exists r.
      assert (Hr : r ∈ tariff_rows db) by (apply Hrows; left).
      unfold tariff_rows in Hr. apply list_elem_of_filter in Hr as [Hlike Hr]. auto.
    - intros row Hin. apply Hrows. by right. }
  apply (Hinv (tariff_rows db) []).
  - constructor.
  - intros item Hin. inversion Hin.
  - auto.
Qed.




(** The same through the two handlers' charges, and with a row of
    [Courts] that the tariff lookup leaves out in front: the costs are
    those of VISIONS, 10 and 5, not the 99 and 77 of "Court 1". *)
Example financial_round_trip_example :
  (booking_financials (add_booking_financials club 101).2 101 "ICANCEL").2
  = set_Clublist club
      [ {| Mem_No := 101; Surname := Some "Botha"; First := Some "Anna";
           CellPhone := Some "0811234567"; E_Mail_Adr := Some "anna@example.org";
           S_Credit := Some (float_of_Z 85);
           Book := [Some 2; None; Some 0; None; None];
           Week := [Some 4; None; None; None; None] |}; ben ]
  /\ map (fun item => (item.1, bookings item.2, cancellations item.2))
       (get_court_rates_per_minute club_with_court_one)
     = [("VISIONS", [float_of_Z 10], [float_of_Z 5]);
        ("GLASS", [float_of_Z 20], [float_of_Z 8])]
  /\ S_Credit <$> fetchone_member
                    (booking_financials
                       (add_booking_financials club_with_court_one 101).2 101 "ICANCEL").2
                    101
     = Some (Some (float_of_Z 85)).
Proof. repeat split; vm_compute; reflexivity. Qed.

(** C4, as the code has it. When a BOOKING adjustment succeeds, the
    amount it subtracts is element 0 of the ['bookings'] list of the
    first court of [get_court_rates_per_minute]: the first internet
    booking cost ([IBOOKING1] .. [IBOOKING5]) that is neither [NULL] nor 0
    of a row of [Courts] whose description does not hold ["court"]. No
    per-minute rate is read, nothing is multiplied by 45 and the amount
    is not rounded to a whole unit. It is subtracted, as a float, from
    the balance of the member as printed with two decimals ([NULL] is
    0.00); a POST stores that difference and a GET stores nothing. *)
Theorem calculated_internet_bookings_booking_amount db method mem_no data db' :
  calculated_internet_bookings db method mem_no "IBOOKING" = (Financial200 data, db') ->
  exists tariff_row others cost more row,
    get_court_rates_per_minute db
    = (CourtDesc tariff_row, court_data_of_row tariff_row) :: others
    /\ tariff_row ∈ Courts db
    /\ like_Court (CourtDesc tariff_row) = false
    /\ omap not_zero_or_null (IBOOKING tariff_row) = cost :: more
    /\ fetchone_member db mem_no = Some row
    /\ let current_credit :=
         float_of_text 2 (format_f 2 (match S_Credit row with
                                      | Some c => c
                                      | None => float_of_Z 0
                                      end)) in
       fin_cost data = format_f 2 cost
       /\ fin_current_credit data = format_f 2 current_credit
       /\ fin_updated_credit data = format_f 2 (fsub current_credit cost)
       /\ (method = POST ->
           exists row', fetchone_member db' mem_no = Some row'
                        /\ S_Credit row' = Some (fsub current_credit cost))
       /\ (method = GET -> db' = db).
Proof.
  unfold calculated_internet_bookings.
  destruct (_ || _); [discriminate|].
  destruct (requested_profile db method mem_no) as [|member_profile|[|? ?]] eqn:Hprofile;
    try discriminate.
  destruct (first_cost _ _ _) as [[cost|]|] eqn:Hcost; try discriminate.
  apply first_cost_booking in Hcost as (court & first_court & others & more & Hitems & Hb).
  apply requested_profile_one in Hprofile as (Honline & row & Hrow & ->).
  destruct (get_court_rates_per_minute_items db) as [_ Hgood].
  destruct (Hgood (court, first_court)) as (_ & tariff_row & Hin & Hdesc & Hlike & Hdata).
  { rewrite Hitems. left. }
  simpl in Hdesc, Hdata. subst court first_court.
  intros Hrun. exists tariff_row, others, cost, more, row.
  split; [exact Hitems|]. split; [exact Hin|]. split; [exact Hlike|].
  split; [exact Hb|]. split; [exact Hrow|].
  cbn [credit profile_of_row] in Hrun. cbv zeta.
  destruct method.
  - injection Hrun as <- <-. cbn. repeat split; try reflexivity. discriminate.
  - destruct (fetchone_member_updated db mem_no row (First row) (Surname row)
                (CellPhone row) (E_Mail_Adr row)
                (fsub (float_of_text 2 (credit (profile_of_row row))) cost) Honline Hrow)
      as (db1 & Hupdate & _ & _ & _ & Hrow1).
    cbn [credit profile_of_row] in Hupdate.
    change (first_name (profile_of_row row)) with (First row) in Hrun.
    change (surname (profile_of_row row)) with (Surname row) in Hrun.
    change (cell_phone (profile_of_row row)) with (CellPhone row) in Hrun.
    change (email (profile_of_row row)) with (E_Mail_Adr row) in Hrun.
    rewrite Hupdate in Hrun. injection Hrun as <- <-.
    cbn [fin_cost fin_current_credit fin_updated_credit].
    repeat split; try reflexivity; [|discriminate].
    intros _. eexists. split; [exact Hrow1|reflexivity].
Qed.

(** Anna, with 100.00, at the club where the row "Court 1" stands in
    front of VISIONS in [Courts]: she is charged the booking cost 10.00 of
    VISIONS, the answer shows 10.00, 100.00 and 90.00, and 90 is stored. *)
Lemma calculated_internet_bookings_booking_amount_witness :
  exists tariff_row others cost more row,
    get_court_rates_per_minute club_with_court_one
    = (CourtDesc tariff_row, court_data_of_row tariff_row) :: others
    /\ tariff_row ∈ Courts club_with_court_one
    /\ like_Court (CourtDesc tariff_row) = false
    /\ omap not_zero_or_null (IBOOKING tariff_row) = cost :: more
    /\ fetchone_member club_with_court_one 101 = Some row
    /\ let current_credit :=
         float_of_text 2 (format_f 2 (match S_Credit row with
                                      | Some c => c
                                      | None => float_of_Z 0
                                      end)) in
       Digits false 1000 = format_f 2 cost
       /\ Digits false 10000 = format_f 2 current_credit
       /\ Digits false 9000 = format_f 2 (fsub current_credit cost)
       /\ (POST = POST ->
           exists row',
             fetchone_member
               (calculated_internet_bookings club_with_court_one POST 101 "IBOOKING").2 101
             = Some row'
             /\ S_Credit row' = Some (fsub current_credit cost))
       /\ (POST = GET ->
           (calculated_internet_bookings club_with_court_one POST 101 "IBOOKING").2
           = club_with_court_one).
Proof.
  apply (calculated_internet_bookings_booking_amount club_with_court_one POST 101
           {| fin_cost_type := "IBOOKING"; fin_cost := Digits false 1000;
              fin_current_credit := Digits false 10000;
              fin_updated_credit := Digits false 9000 |}
           (calculated_internet_bookings club_with_court_one POST 101 "IBOOKING").2).
  vm_compute. reflexivity.
Defined.

(** C4, as stated, fails: at the club the first per-minute rate is 0.50,
    which makes 22 for 45 minutes (22.5 rounds to the even 22), while the
    BOOKING adjustment of Anna subtracts the internet booking cost 10 and
    stores 90, not 100 - 22. *)
Lemma calculated_internet_bookings_not_rate_times_45 :
  slot_price_of_first_rate club = Some (Return 22)
  /\ exists db',
       calculated_internet_bookings club POST 101 "IBOOKING"
       = (Financial200 {| fin_cost_type := "IBOOKING"; fin_cost := Digits false 1000;
                          fin_current_credit := Digits false 10000;
                          fin_updated_credit := Digits false 9000 |}, db')
       /\ option_map S_Credit (fetchone_member db' 101) = Some (Some (float_of_Z 90))
       /\ float_of_Z 90 <> fsub (float_of_Z 100) (float_of_Z 22).
Proof.
  split; [vm_compute; reflexivity|]. eexists. split; [vm_compute; reflexivity|].
  split; [vm_compute; reflexivity|]. vm_compute. discriminate.
Qed.

Example get_court_booking_costs_example :
  get_court_booking_costs club [normal_period; peak_period]
  = Some (Return [("NORMAL", Some 22); ("PEAK", None)]).
Proof. vm_compute. reflexivity. Qed.

(** * Further properties of the ledger *)

Lemma sql_update_zero accept write rows :
  ~ (0 < (sql_update accept write rows).2)%nat ->
  sql_update accept write rows = (rows, 0%nat).
Proof.
  intros Hzero. apply sql_update_none. intros row Hin.
  destruct (accept row) eqn:Hacc; [|reflexivity].
  exfalso. apply Hzero. apply sql_update_rowcount. eauto.
Qed.

Lemma update_internet_bookings_unchanged db date_container mem_no col selected_time result db' :
  update_internet_bookings db date_container mem_no col selected_time = (result, db') ->
  result <> Return StatusSuccess ->
  db' = db.
Proof.
  unfold update_internet_bookings.
  destruct (get_squash_members_profile db mem_no) as [|p|[|? ?]]; try (by intros [= <- <-]).
  destruct (player_name_of p) as [name|e]; [|by intros [= <- <-]].
  destruct (negb (online db)); [by intros [= <- <-]|].
  destruct (negb (bool_decide _)); [by intros [= <- <-]|].
  match goal with |- context [sql_update ?a ?w ?r] =>
    pose proof (sql_update_zero a w r) as Hzero;
    destruct (sql_update a w r) as [rows rowcount] eqn:Hupdate end.
  simpl in Hzero. case_bool_decide as Hpos.
  - intros [= <- <-] Hne. by destruct Hne.
  - intros [= <- <-] _. injection (Hzero Hpos) as -> _. apply set_Bookfile_same.
Qed.

Lemma delete_internet_booking_unchanged db start_time1 mem_no col db' :
  delete_internet_booking db start_time1 mem_no col = (false, db') -> db' = db.
Proof.
  unfold delete_internet_booking.
  destruct (negb (online db)); [by intros [= <-]|].
  destruct (negb (bool_decide _)); [by intros [= <-]|].
  match goal with |- context [sql_update ?a ?w ?r] =>
    pose proof (sql_update_zero a w r) as Hzero;
    destruct (sql_update a w r) as [rows rowcount] eqn:Hupdate end.
  simpl in Hzero. case_bool_decide as Hpos; [discriminate|].
  intros [= <-]. injection (Hzero Hpos) as -> _. apply set_Bookfile_same.
Qed.

(** What a successful reserve tells about the call. *)
Lemma update_internet_bookings_success db date_container mem_no col selected_time db' :
  update_internet_bookings db date_container mem_no col selected_time
  = (Return StatusSuccess, db') ->
  let t := date_container +:+ " " +:+ selected_time +:+ ":00" in
  online db = true /\ mem_no <> 0 /\ (col < player_columns)%nat
  /\ exists member_profile player_name,
       get_squash_members_profile db mem_no = OneProfile member_profile
       /\ player_name_of member_profile = Return player_name
       /\ db' = set_Bookfile db
                  (map (fun row =>
                          if bool_decide (StartTime1 row = t)
                             && where_cell_free (cell row col)
                          then set_cell row col (Some mem_no) (Some player_name)
                          else row) (Bookfile db))
       /\ exists row, row ∈ Bookfile db /\ StartTime1 row = t
                      /\ where_cell_free (cell row col) = true.
Proof.
  intros Hrun t. unfold update_internet_bookings in Hrun.
  destruct (get_squash_members_profile db mem_no) as [|p|[|? ?]] eqn:Hprofile;
    try discriminate.
  destruct (player_name_of p) as [name|e] eqn:Hname; [|discriminate].
  destruct (online db) eqn:Honline; [|discriminate]. cbn [negb] in Hrun.
  case_bool_decide as Hcol; [|discriminate]. cbn [negb] in Hrun.
  fold t in Hrun.
  match type of Hrun with context [sql_update ?a ?w ?r] =>
    pose proof (sql_update_rowcount a w r) as Hcount end.
  unfold sql_update in Hrun, Hcount. simpl in Hrun, Hcount.
  case_bool_decide as Hpos; [|discriminate]. injection Hrun as <-.
  apply get_squash_members_profile_one in Hprofile as Hfacts.
  destruct Hfacts as (_ & Hmem & _).
  split; [reflexivity|]. split; [exact Hmem|]. split; [exact Hcol|].
  exists p, name. split; [reflexivity|]. split; [exact Hname|]. split; [reflexivity|].
  apply Hcount in Hpos as (row & Hin & Hacc). exists row.
  apply andb_true_iff in Hacc as [Ht Hfree]. apply bool_decide_eq_true in Ht. auto.
Qed.

(** What a successful release tells about the call. *)
Lemma delete_internet_booking_success db start_time1 mem_no col db' :
  delete_internet_booking db start_time1 mem_no col = (true, db') ->
  online db = true /\ (col < player_columns)%nat
  /\ db' = set_Bookfile db
             (map (fun row =>
                     if bool_decide (StartTime1 row = start_time1)
                        && where_cell_is (cell row col) mem_no
                     then set_cell row col None None
                     else row) (Bookfile db))
  /\ exists row, row ∈ Bookfile db /\ StartTime1 row = start_time1
                 /\ cell row col = Some mem_no.
Proof.
  intros Hrun. unfold delete_internet_booking in Hrun.
  destruct (online db) eqn:Honline; [|discriminate]. cbn [negb] in Hrun.
  case_bool_decide as Hcol; [|discriminate]. cbn [negb] in Hrun.
  match type of Hrun with context [sql_update ?a ?w ?r] =>
    pose proof (sql_update_rowcount a w r) as Hcount end.
  unfold sql_update in Hrun, Hcount. simpl in Hrun, Hcount.
  case_bool_decide as Hpos; [|discriminate]. injection Hrun as <-.
  split; [reflexivity|]. split; [exact Hcol|]. split; [reflexivity|].
  apply Hcount in Hpos as (row & Hin & Hacc). exists row.
  apply andb_true_iff in Hacc as [Ht Hmine]. apply bool_decide_eq_true in Ht.
  apply where_cell_is_spec in Hmine. auto.
Qed.

Lemma get_squash_members_profile_ext db db' mem_no :
  online db' = online db -> Clublist db' = Clublist db ->
  get_squash_members_profile db' mem_no = get_squash_members_profile db mem_no.
Proof.
  intros Ho Hc. unfold get_squash_members_profile, fetchone_member. by rewrite Ho, Hc.
Qed.

Lemma update_internet_bookings_run db date_container mem_no col selected_time
    member_profile player_name :
  online db = true ->
  get_squash_members_profile db mem_no = OneProfile member_profile ->
  player_name_of member_profile = Return player_name ->
  (col < player_columns)%nat ->
  let t := date_container +:+ " " +:+ selected_time +:+ ":00" in
  let accept := fun row : BookfileRow =>
    bool_decide (StartTime1 row = t) && where_cell_free (cell row col) in
  update_internet_bookings db date_container mem_no col selected_time
  = (Return (if bool_decide (Exists (fun row => accept row = true) (Bookfile db))
             then StatusSuccess else StatusAlreadyBooked),
     set_Bookfile db
       (map (fun row => if accept row
                        then set_cell row col (Some mem_no) (Some player_name)
                        else row) (Bookfile db))).
Proof.
  intros Honline Hprofile Hname Hcol t accept. unfold update_internet_bookings.
  rewrite Hprofile, Hname, Honline. cbn [negb].
  rewrite (bool_decide_eq_true_2 _ Hcol). cbn [negb]. fold t. fold accept.
  match goal with |- context [sql_update ?a ?w ?r] =>
    pose proof (sql_update_rowcount a w r) as Hcount end.
  unfold sql_update in *. cbn [fst snd] in *.
  assert (Hiff : (0 < length (filter (fun row => accept row = true) (Bookfile db)))%nat
                 <-> Exists (fun row => accept row = true) (Bookfile db)).
  { rewrite Hcount, Exists_exists. reflexivity. }
  destruct (decide (Exists (fun row => accept row = true) (Bookfile db))) as [Hex|Hex].
  - rewrite !bool_decide_eq_true_2; [reflexivity|assumption|by apply Hiff].
  - rewrite !bool_decide_eq_false_2; [reflexivity|assumption|by rewrite Hiff].
Qed.

Lemma set_cell_set_cell row col no name no' name' :
  set_cell (set_cell row col no name) col no' name' = set_cell row col no' name'.
Proof.
  unfold set_cell, set_column; simpl. f_equal.
  - destruct no, no'; by rewrite ?insert_insert_eq, ?delete_insert_eq,
      ?insert_delete_eq, ?delete_delete_eq.
  - destruct name, name'; by rewrite ?insert_insert_eq, ?delete_insert_eq,
      ?insert_delete_eq, ?delete_delete_eq.
Qed.

(** X1. After a reserve that succeeded for a member whose number is not
    the restricted marker, every further reserve of the same cell, by
    anyone, is refused and leaves the database as it is: the second of
    two bookings of one cell never wins. *)
Theorem second_reserve_is_refused
    db date_container mem_no col selected_time db1 other result db2 :
  update_internet_bookings db date_container mem_no col selected_time
  = (Return StatusSuccess, db1) ->
  mem_no <> -9 ->
  update_internet_bookings db1 date_container other col selected_time = (result, db2) ->
  result <> Return StatusSuccess /\ db2 = db1.
Proof.
  intros Hfirst Hmarker Hsecond.
  apply update_internet_bookings_success in Hfirst
    as (_ & Hmem & _ & p & name & _ & _ & -> & _).
  assert (Hrefused : result <> Return StatusSuccess).
  { intros ->. apply update_internet_bookings_success in Hsecond
      as (_ & _ & _ & _ & _ & _ & _ & _ & row' & Hin & Ht & Hfree).
    simpl in Hin. apply list_elem_of_fmap in Hin as (row & -> & _).
    destruct (bool_decide _ && where_cell_free (cell row col)) eqn:Hacc.
    - destruct (set_cell_read row col (Some mem_no) (Some name)) as [Hcell _].
      rewrite Hcell in Hfree. simpl in Hfree.
      apply orb_true_iff in Hfree as [H9|H0]; apply bool_decide_eq_true in H9 || apply bool_decide_eq_true in H0; contradiction.
    - rewrite Hfree, (bool_decide_eq_true_2 _ Ht) in Hacc. discriminate. }
  split; [exact Hrefused|].
  exact (update_internet_bookings_unchanged _ _ _ _ _ _ _ Hsecond Hrefused).
Qed.

Lemma second_reserve_is_refused_witness :
  (update_internet_bookings
     (update_internet_bookings club "18/12/2030" 101 0 "17:15").2
     "18/12/2030" 202 0 "17:15").1 <> Return StatusSuccess
  /\ (update_internet_bookings
        (update_internet_bookings club "18/12/2030" 101 0 "17:15").2
        "18/12/2030" 202 0 "17:15").2
     = (update_internet_bookings club "18/12/2030" 101 0 "17:15").2.
Proof.
  apply (second_reserve_is_refused club "18/12/2030" 101 0 "17:15" _ 202).
  - reflexivity.
  - lia.
  - apply surjective_pairing.
Defined.

(** X2. Once a member has released a cell, a reserve of that cell by any
    member with a usable profile succeeds and writes that member into a
    row of the start time. *)
Theorem release_then_reserve_succeeds
    db date_container selected_time mem_no col db1 other member_profile player_name :
  delete_internet_booking db (date_container +:+ " " +:+ selected_time +:+ ":00")
    mem_no col = (true, db1) ->
  get_squash_members_profile db other = OneProfile member_profile ->
  player_name_of member_profile = Return player_name ->
  exists db2 row,
    update_internet_bookings db1 date_container other col selected_time
    = (Return StatusSuccess, db2)
    /\ row ∈ Bookfile db2
    /\ StartTime1 row = date_container +:+ " " +:+ selected_time +:+ ":00"
    /\ cell row col = Some other
    /\ name_cell row col = Some player_name.
Proof.
  intros Hrelease Hprofile Hname.
  apply delete_internet_booking_success in Hrelease
    as (Honline & Hcol & -> & row & Hin & Ht & Hmine).
  set (t := date_container +:+ " " +:+ selected_time +:+ ":00") in *.
  set (released := set_Bookfile db _).
  assert (Hprofile1 : get_squash_members_profile released other = OneProfile member_profile).
  { rewrite <- Hprofile. by apply get_squash_members_profile_ext. }
  pose proof (update_internet_bookings_run released date_container other col
                selected_time member_profile player_name Honline Hprofile1 Hname Hcol)
    as Hrun.
  cbv zeta in Hrun. fold t in Hrun.
  set (accept := fun r : BookfileRow =>
         bool_decide (StartTime1 r = t) && where_cell_free (cell r col)) in *.
  assert (Hcleared : set_cell row col None None ∈ Bookfile released).
  { simpl. apply list_elem_of_fmap. exists row. split; [|exact Hin].
    rewrite (bool_decide_eq_true_2 _ Ht). rewrite (proj2 (where_cell_is_spec _ _) Hmine).
    reflexivity. }
  destruct (set_cell_read row col None None) as (Hcell & _ & Hstart & _).
  assert (Hacc : accept (set_cell row col None None) = true).
  { unfold accept. rewrite Hstart, (bool_decide_eq_true_2 _ Ht), Hcell. reflexivity. }
  rewrite bool_decide_eq_true_2 in Hrun
    by (apply Exists_exists; exists (set_cell row col None None); auto).
  eexists _, (set_cell (set_cell row col None None) col (Some other) (Some player_name)).
  split; [exact Hrun|]. split.
  - simpl. apply list_elem_of_fmap. exists (set_cell row col None None).
    split; [by rewrite Hacc|exact Hcleared].
  - destruct (set_cell_read (set_cell row col None None) col (Some other)
                (Some player_name)) as (-> & -> & -> & _).
    rewrite Hstart. auto.
Qed.

Lemma release_then_reserve_succeeds_witness :
  exists db2 row,
    update_internet_bookings
      (delete_internet_booking club "18/12/2030 18:00:00" 101 0).2
      "18/12/2030" 202 0 "18:00"
    = (Return StatusSuccess, db2)
    /\ row ∈ Bookfile db2
    /\ StartTime1 row = "18/12/2030 18:00:00"
    /\ cell row 0 = Some 202
    /\ name_cell row 0 = Some "B Dlamini".
Proof.
  apply (release_then_reserve_succeeds club "18/12/2030" "18:00" 101 0 _ 202
           (profile_of_row ben) "B Dlamini").
  - reflexivity.
  - reflexivity.
  - reflexivity.
Defined.

(** X3. A reserve that succeeded, followed by the release by the same
    member, always succeeds and leaves [NULL] in every cell of the start
    time that was free or already the member's, whatever it held before:
    a cell that carried the restricted marker [-9] or [0] does not get it
    back. Every other row is as it was at the start. *)
Theorem reserve_then_release
    db date_container selected_time mem_no col db1 :
  update_internet_bookings db date_container mem_no col selected_time
  = (Return StatusSuccess, db1) ->
  let t := date_container +:+ " " +:+ selected_time +:+ ":00" in
  delete_internet_booking db1 t mem_no col
  = (true,
     set_Bookfile db
       (map (fun row =>
               if bool_decide (StartTime1 row = t)
                  && (where_cell_free (cell row col)
                      || where_cell_is (cell row col) mem_no)
               then set_cell row col None None
               else row) (Bookfile db))).
Proof.
  intros Hreserve t.
  apply update_internet_bookings_success in Hreserve
    as (Honline & Hmem & Hcol & p & name & _ & _ & -> & row & Hin & Ht & Hfree).
  fold t in Ht |- *. unfold delete_internet_booking. cbn [online set_Bookfile Bookfile].
  rewrite Honline. cbn [negb]. rewrite (bool_decide_eq_true_2 _ Hcol). cbn [negb].
  match goal with |- context [sql_update ?a ?w ?r] =>
    pose proof (sql_update_rowcount a w r) as Hcount end.
  unfold sql_update in *. cbn [fst snd] in *.
  rewrite bool_decide_eq_true_2.
  - f_equal. unfold set_Bookfile; simpl. f_equal. rewrite map_map.
    apply map_ext. intros r.
    destruct (bool_decide (StartTime1 r = t)) eqn:Hrt; simpl.
    + destruct (where_cell_free (cell r col)) eqn:Hrfree; simpl.
      * destruct (set_cell_read r col (Some mem_no) (Some name)) as (-> & _).
        rewrite Hrt. simpl. rewrite (bool_decide_eq_true_2 (mem_no = mem_no)) by reflexivity.
        apply set_cell_set_cell.
      * rewrite Hrt. reflexivity.
    + rewrite Hrt. reflexivity.
  - apply Hcount. exists (set_cell row col (Some mem_no) (Some name)). split.
    + apply list_elem_of_fmap. exists row. split; [|exact Hin].
      by rewrite (bool_decide_eq_true_2 _ Ht), Hfree.
    + destruct (set_cell_read row col (Some mem_no) (Some name)) as (-> & _ & -> & _).
      rewrite (bool_decide_eq_true_2 _ Ht). simpl. by apply bool_decide_eq_true.
Qed.

Lemma reserve_then_release_witness :
  delete_internet_booking
    (update_internet_bookings club "18/12/2030" 101 1 "18:00").2
    "18/12/2030 18:00:00" 101 1
  = (true,
     set_Bookfile club
       (map (fun row =>
               if bool_decide (StartTime1 row = "18/12/2030 18:00:00")
                  && (where_cell_free (cell row 1) || where_cell_is (cell row 1) 101)
               then set_cell row 1 None None
               else row) (Bookfile club))).
Proof.
  apply (reserve_then_release club "18/12/2030" "18:00" 101 1). reflexivity.
Defined.

(** The restricted court 2 of 18:00 reads [NULL] after Anna booked and
    cancelled it. *)
Example restricted_marker_is_lost :
  (fun row => cell row 1) <$> Bookfile club !! 1%nat = Some (Some (-9))
  /\ (fun row => cell row 1)
     <$> Bookfile (delete_internet_booking
                     (update_internet_bookings club "18/12/2030" 101 1 "18:00").2
                     "18/12/2030 18:00:00" 101 1).2 !! 1%nat
     = Some None.
Proof. split; vm_compute; reflexivity. Qed.

(** * Further properties of the handlers *)

Lemma update_squash_member_profile_frame db member_no_ fn ln cp em credit_ :
  let db' := (update_squash_member_profile db member_no_ fn ln cp em credit_).2 in
  online db' = online db /\ Bookfile db' = Bookfile db /\ Courts db' = Courts db.
Proof.
  unfold update_squash_member_profile. destruct (negb (online db)); simpl; auto.
Qed.

Lemma calculated_internet_bookings_frame db method mem_no cost_type :
  let db' := (calculated_internet_bookings db method mem_no cost_type).2 in
  online db' = online db /\ Bookfile db' = Bookfile db /\ Courts db' = Courts db.
Proof.
  unfold calculated_internet_bookings.
  destruct (_ || _); [simpl; auto|].
  destruct (requested_profile db method mem_no) as [|p|[|? ?]]; try (simpl; auto).
  destruct (first_cost _ _ _) as [[cost|]|]; try (simpl; auto).
  destruct method; [simpl; auto|].
  pose proof (update_squash_member_profile_frame db mem_no (first_name p) (surname p)
                (cell_phone p) (email p) (fsub (float_of_text 2 (credit p)) cost))
    as Hframe.
  destruct (update_squash_member_profile _ _ _ _ _ _ _) as [[|] db1]; exact Hframe.
Qed.

Lemma booking_financials_frame db player_no cost_type :
  let db' := (booking_financials db player_no cost_type).2 in
  online db' = online db /\ Bookfile db' = Bookfile db /\ Courts db' = Courts db.
Proof.
  unfold booking_financials.
  pose proof (calculated_internet_bookings_frame db POST player_no cost_type) as Hframe.
  destruct (calculated_internet_bookings db POST player_no cost_type) as [[data|? ?] db1];
    [|exact Hframe].
  simpl in Hframe.
  destruct (get_squash_members_profile db1 player_no) as [|p|[|? ?]]; try exact Hframe.
  pose proof (update_squash_member_profile_frame db1 player_no (first_name p) (surname p)
                (cell_phone p) (email p) (float_of_text 2 (fin_updated_credit data)))
    as Hframe2.
  destruct (update_squash_member_profile _ _ _ _ _ _ _) as [[|] db2]; simpl in *;
    destruct Hframe as (? & ? & ?), Hframe2 as (? & ? & ?); repeat split; congruence.
Qed.

(** The answer of [add_booking] is that of its [try] block unless the
    audit of the [finally] block raises; the database and the session are
    those the [try] block leaves in both cases. *)
Lemma add_booking_finally
    db session date_container_formatted selected_time selected_court player_no
    response db' session' :
  add_booking db session date_container_formatted selected_time selected_court player_no
  = (response, db', session') ->
  exists tried,
    add_booking_try db session date_container_formatted selected_time selected_court
      player_no = (tried, db', session')
    /\ (response = tried \/ exists e, response = AuditError500 e).
Proof.
  unfold add_booking.
  destruct (add_booking_try _ _ _ _ _ _) as [[tried db1] session1].
  destruct (log_audit_online_booking _) as [[]|e]; intros [= <- <- <-]; eauto.
Qed.

Lemma add_booking_try_refused
    db session date_container_formatted selected_time selected_court player_no
    response db' session' :
  add_booking_try db session date_container_formatted selected_time selected_court
    player_no = (response, db', session') ->
  (forall financial_data, response <> Booked200 financial_data) ->
  (forall error, response <> BookingError500 error) ->
  db' = db /\ session' = session.
Proof.
  unfold add_booking_try. intros Hrun Hnot200 Hnot500.
  case_bool_decide; [by injection Hrun as _ <- <-|].
  destruct (get_squash_members_profile db player_no) as [|p|[|? ?]];
    try (by injection Hrun as _ <- <-).
  destruct (SpecFloat.SFleb _ _); [by injection Hrun as _ <- <-|].
  destruct (reads_booked _); [by injection Hrun as _ <- <-|].
  destruct (update_internet_bookings _ _ _ _ _) as [[[| |msg]|e] db1] eqn:Hupdate.
  - destruct (add_booking_financials db1 player_no) as [[data|msg] db2].
    + injection Hrun as <- _ _. by destruct (Hnot200 data).
    + injection Hrun as <- _ _. by destruct (Hnot500 msg).
  - injection Hrun as _ <- <-. split; [|reflexivity].
    by apply (update_internet_bookings_unchanged _ _ _ _ _ _ _ Hupdate).
  - injection Hrun as _ <- <-. split; [|reflexivity].
    by apply (update_internet_bookings_unchanged _ _ _ _ _ _ _ Hupdate).
  - injection Hrun as _ <- <-. split; [|reflexivity].
    by apply (update_internet_bookings_unchanged _ _ _ _ _ _ _ Hupdate).
Qed.

(** X4. Whatever [add_booking] answers other than 200 and 500, it has
    changed nothing: no cell is written, no credit is taken and the
    session is as it was when the request is refused (no member, no
    profile, no credit, cell taken, statement refused) or when the
    booking raises. *)
Theorem add_booking_refused_changes_nothing
    db session date_container_formatted selected_time selected_court player_no
    response db' session' :
  add_booking db session date_container_formatted selected_time selected_court player_no
  = (response, db', session') ->
  (forall financial_data, response <> Booked200 financial_data) ->
  (forall error, response <> BookingError500 error) ->
  (forall e, response <> AuditError500 e) ->
  db' = db /\ session' = session.
Proof.
  intros Hrun Hnot200 Hnot500 Hnot_audit.
  apply add_booking_finally in Hrun as (tried & Htry & [->|[e ->]]).
  - by apply (add_booking_try_refused _ _ _ _ _ _ _ _ _ Htry).
  - by destruct (Hnot_audit e).
Qed.

(** Anna asks for court 2 of 17:15, which Ben holds. *)
Lemma add_booking_refused_changes_nothing_witness :
  add_booking club anna_booking_session "18/12/2030" "17:15" 1 101
  = (AlreadyBooked409, club, anna_booking_session).
Proof.
  destruct (add_booking_refused_changes_nothing club anna_booking_session
              "18/12/2030" "17:15" 1 101 AlreadyBooked409
              (add_booking club anna_booking_session "18/12/2030" "17:15" 1 101).1.2
              (add_booking club anna_booking_session "18/12/2030" "17:15" 1 101).2)
    as [Hdb Hsession].
  - vm_compute. reflexivity.
  - discriminate.
  - discriminate.
  - discriminate.
  - vm_compute. reflexivity.
Defined.

(** X5. When [add_booking] answers 200, or the 500 of a failed charge
    ("Booking saved, but financial update failed"), the booking is in the
    ledger: a row of the start time holds the member in the chosen
    column. A failed charge is not rolled back. (The 500 of a failed
    audit says nothing of the booking: it stands in for any answer.) *)
Theorem add_booking_saved_booking_stays
    db session date_container_formatted selected_time selected_court player_no
    response db' session' :
  add_booking db session date_container_formatted selected_time selected_court player_no
  = (response, db', session') ->
  (exists financial_data, response = Booked200 financial_data)
  \/ (exists error, response = BookingError500 error) ->
  exists row,
    row ∈ Bookfile db'
    /\ StartTime1 row = date_container_formatted +:+ " " +:+ selected_time +:+ ":00"
    /\ cell row selected_court = Some player_no.
Proof.
  intros Hrun Hsaved.
  apply add_booking_finally in Hrun as (tried & Hrun & Hsame).
  assert (tried = response) as ->.
  { destruct Hsame as [->|[e ->]]; [reflexivity|].
    destruct Hsaved as [[? ?]|[? ?]]; discriminate. }
  clear Hsame. unfold add_booking_try in Hrun.
  assert (Hno : forall d s, (response, db', session') = (BookingError400, d, s) \/
                  (exists m, (response, db', session') = (BookingError403 m, d, s)) \/
                  (exists m, (response, db', session') = (BookingError404 m, d, s)) \/
                  (response, db', session') = (AlreadyBooked409, d, s) \/
                  (exists e, (response, db', session') = (BookingRaised e, d, s)) -> False).
  { intros d s' [H|[[m H]|[[m H]|[H|[e H]]]]]; injection H as -> _ _;
      destruct Hsaved as [[? ?]|[? ?]]; discriminate. }
  case_bool_decide; [exfalso; eapply Hno; eauto|].
  destruct (get_squash_members_profile db player_no) as [|p|[|? ?]];
    try (exfalso; eapply Hno; rewrite <- Hrun; eauto 8; fail).
  destruct (SpecFloat.SFleb _ _); [exfalso; eapply Hno; rewrite <- Hrun; eauto 8|].
  destruct (reads_booked _); [exfalso; eapply Hno; rewrite <- Hrun; eauto 8|].
  destruct (update_internet_bookings _ _ _ _ _) as [[[| |msg]|e] db1] eqn:Hupdate;
    try (exfalso; eapply Hno; rewrite <- Hrun; eauto 8; fail).
  apply update_internet_bookings_success in Hupdate
    as (_ & _ & _ & p' & name & _ & _ & -> & row & Hin & Ht & Hfree).
  pose proof (booking_financials_frame (set_Bookfile db
      (map (fun r => if bool_decide (StartTime1 r = date_container_formatted +:+ " "
                                       +:+ selected_time +:+ ":00")
                        && where_cell_free (cell r selected_court)
                     then set_cell r selected_court (Some player_no) (Some name)
                     else r) (Bookfile db))) player_no "IBOOKING") as (_ & Hbook & _).
  unfold add_booking_financials in Hrun.
  assert (Hdb' : db' = (booking_financials (set_Bookfile db
      (map (fun r => if bool_decide (StartTime1 r = date_container_formatted +:+ " "
                                       +:+ selected_time +:+ ":00")
                        && where_cell_free (cell r selected_court)
                     then set_cell r selected_court (Some player_no) (Some name)
                     else r) (Bookfile db))) player_no "IBOOKING").2).
  { destruct (booking_financials _ _ _) as [[?|?] ?]; by injection Hrun as _ <- _. }
  rewrite Hdb', Hbook. simpl.
  exists (set_cell row selected_court (Some player_no) (Some name)).
  destruct (set_cell_read row selected_court (Some player_no) (Some name))
    as (Hcell & _ & Hstart & _).
  split; [|split; [by rewrite Hstart|exact Hcell]].
  apply list_elem_of_fmap. exists row. split; [|exact Hin].
  by rewrite (bool_decide_eq_true_2 _ Ht), Hfree.
Qed.

(** Without tariffs the charge of Anna's booking of court 1 of 17:15
    fails, and her number is in the cell. *)
Lemma add_booking_saved_booking_stays_witness :
  exists row,
    row ∈ Bookfile (add_booking club_without_tariffs anna_booking_session
                      "18/12/2030" "17:15" 0 101).1.2
    /\ StartTime1 row = "18/12/2030 17:15:00"
    /\ cell row 0 = Some 101.
Proof.
  apply (add_booking_saved_booking_stays club_without_tariffs anna_booking_session
           "18/12/2030" "17:15" 0 101 (BookingError500 "Financial API failed.") _
           (add_booking club_without_tariffs anna_booking_session
              "18/12/2030" "17:15" 0 101).2).
  - vm_compute. reflexivity.
  - right. eexists. reflexivity.
Defined.

Example add_booking_examples :
  (* booked and charged: 100 - 10, and the session shows the new credit *)
  (exists db', add_booking club anna_booking_session "18/12/2030" "17:15" 0 101
     = (Booked200 {| fin_cost_type := "IBOOKING"; fin_cost := Digits false 1000;
                     fin_current_credit := Digits false 10000;
                     fin_updated_credit := Digits false 9000 |}, db',
        {| booking_first_name := Text "Anna";
           booking_credit := Some (Digits false 9000) |})
     /\ S_Credit <$> fetchone_member db' 101 = Some (Some (float_of_Z 90)))
  (* without tariffs the booking is saved and the credit is as before *)
  /\ S_Credit <$> fetchone_member
                    (add_booking club_without_tariffs anna_booking_session
                       "18/12/2030" "17:15" 0 101).1.2 101
     = Some (Some (float_of_Z 100))
  (* a start time that has no row is answered as taken *)
  /\ add_booking club anna_booking_session "19/12/2030" "17:15" 0 101
     = (AlreadyBooked409, club, anna_booking_session)
  (* with a first name that is None in the session every answer is the
     500 of the audit: the refusal, and the booking that was saved *)
  /\ add_booking club {| booking_first_name := Null; booking_credit := None |}
       "19/12/2030" "17:15" 0 101
     = (AuditError500 TypeError, club,
        {| booking_first_name := Null; booking_credit := None |})
  /\ (exists db' session',
        add_booking club {| booking_first_name := Null; booking_credit := None |}
          "18/12/2030" "17:15" 0 101
        = (AuditError500 TypeError, db', session')
        /\ (fun row => cell row 0) <$> Bookfile db' !! 0%nat = Some (Some 101)
        /\ booking_credit session' = Some (Digits false 9000)).
Proof.
  split; [eexists; split; vm_compute; reflexivity|].
  split; [vm_compute; reflexivity|]. split; [vm_compute; reflexivity|].
  split; [vm_compute; reflexivity|].
  eexists _, _. split; [vm_compute; reflexivity|]. split; vm_compute; reflexivity.
Qed.

(** A credit of 0.005 is printed as 0.01 and so is above zero: the
    booking goes through. *)
Example add_booking_small_credit :
  let db := set_Clublist club
              [ {| Mem_No := 101; Surname := Some "Botha"; First := Some "Anna";
                   CellPhone := None; E_Mail_Adr := None;
                   S_Credit := Some (float_of_ratio 5 1000);
                   Book := []; Week := [] |} ] in
  exists financial_data db' session',
    add_booking db anna_booking_session "18/12/2030" "17:15" 0 101
    = (Booked200 financial_data, db', session')
    /\ fin_current_credit financial_data = Digits false 1
    /\ fin_updated_credit financial_data = Digits true 999.
Proof. eexists _, _, _. split; [vm_compute; reflexivity|]. split; reflexivity. Qed.

(** X6. A booking for a start time that has no row in [Bookfile] passes
    the pre-check (the cell reads as free) and is then answered 409
    "already booked" by the conditional update, or 500 when the audit of
    the [finally] block raises; nothing is changed. *)
Theorem add_booking_without_row_is_answered_taken
    db session date_container_formatted selected_time selected_court player_no
    user_profile player_name :
  get_squash_members_profile db player_no = OneProfile user_profile ->
  player_name_of user_profile = Return player_name ->
  SpecFloat.SFleb (float_of_text 2 (credit user_profile)) (float_of_Z 0) = false ->
  (selected_court < player_columns)%nat ->
  (forall row, row ∈ Bookfile db ->
     StartTime1 row <> date_container_formatted +:+ " " +:+ selected_time +:+ ":00") ->
  get_booking_cell db (date_container_formatted +:+ " " +:+ selected_time +:+ ":00")
    selected_court = None
  /\ add_booking db session date_container_formatted selected_time selected_court
       player_no
     = (match log_audit_online_booking (booking_first_name session) with
        | Return _ => AlreadyBooked409
        | Raise e => AuditError500 e
        end, db, session).
Proof.
  intros Hprofile Hname Hcredit Hcol Hnone.
  apply get_squash_members_profile_one in Hprofile as Hfacts.
  destruct Hfacts as (Honline & Hmem & _).
  set (t := date_container_formatted +:+ " " +:+ selected_time +:+ ":00") in *.
  assert (Hcell : get_booking_cell db t selected_court = None).
  { unfold get_booking_cell. rewrite Honline, (bool_decide_eq_true_2 _ Hcol). simpl.
    destruct (head _) as [row|] eqn:Hhead; [|reflexivity].
    apply head_Some_elem_of, list_elem_of_filter in Hhead as [Ht Hin].
    by destruct (Hnone row Hin). }
  split; [exact Hcell|]. unfold add_booking, add_booking_try.
  rewrite (bool_decide_eq_false_2 _ Hmem), Hprofile, Hcredit. fold t. rewrite Hcell.
  cbn [reads_booked].
  rewrite (update_internet_bookings_run db date_container_formatted player_no
             selected_court selected_time user_profile player_name
             Honline Hprofile Hname Hcol).
  fold t. rewrite bool_decide_eq_false_2.
  - assert (Hsame : map (fun row => if bool_decide (StartTime1 row = t)
                                       && where_cell_free (cell row selected_court)
                                    then set_cell row selected_court (Some player_no)
                                           (Some player_name)
                                    else row) (Bookfile db) = Bookfile db).
    { rewrite <- (map_id (Bookfile db)) at 2. apply map_ext_in. intros row Hin.
      apply list_elem_of_In in Hin.
      by rewrite (bool_decide_eq_false_2 _ (Hnone row Hin)). }
    rewrite Hsame, set_Bookfile_same.
    destruct (log_audit_online_booking _) as [[]|e]; reflexivity.
  - rewrite Exists_exists. intros (row & Hin & Hacc).
    apply andb_true_iff in Hacc as [Ht _]. apply bool_decide_eq_true in Ht.
    by destruct (Hnone row Hin).
Qed.

Lemma add_booking_without_row_is_answered_taken_witness :
  get_booking_cell club ("19/12/2030" +:+ " " +:+ "17:15" +:+ ":00") 0 = None
  /\ add_booking club anna_booking_session "19/12/2030" "17:15" 0 101
     = (AlreadyBooked409, club, anna_booking_session).
Proof.
  apply (add_booking_without_row_is_answered_taken club anna_booking_session
           "19/12/2030" "17:15" 0 101 (profile_of_row anna) "A Botha").
  - reflexivity.
  - reflexivity.
  - vm_compute. reflexivity.
  - unfold player_columns. lia.
  - intros row Hin Ht. vm_compute in Hin.
    apply elem_of_cons in Hin as [->|Hin]; [discriminate|].
    apply elem_of_cons in Hin as [->|Hin]; [discriminate|]. inversion Hin.
Defined.

(** * Further properties of the credit adjustment *)

Lemma fetchone_member_after_update db member_no_ fn ln cp em credit_ who :
  online db = true ->
  fetchone_member (update_squash_member_profile db member_no_ fn ln cp em credit_).2 who
  = (fun row => if bool_decide (Mem_No row = member_no_)
                then {| Mem_No := Mem_No row; Surname := ln; First := fn;
                        CellPhone := cp; E_Mail_Adr := em; S_Credit := Some credit_;
                        Book := Book row; Week := Week row |}
                else row) <$> fetchone_member db who.
Proof.
  intros Honline. unfold update_squash_member_profile, fetchone_member.
  rewrite Honline. simpl.
  induction (Clublist db) as [|r rows IH]; [reflexivity|].
  cbn [map]. rewrite !filter_cons.
  destruct (decide (Mem_No r = who)) as [Hr|Hr].
  - rewrite decide_True; [reflexivity|]. by case_bool_decide.
  - rewrite decide_False; [exact IH|]. by case_bool_decide.
Qed.

(** X7. The GET form of the adjustment never changes the database, and
    for every member number other than 0 it is a true simulation: the
    POST form gives the same answer (the same error, or the same cost and
    the same old and new credit). Whenever the answer of a POST is an
    error the POST has changed nothing either. For the number 0 the two
    forms differ: the POST is refused with 400, the GET is not. *)
Theorem financial_get_predicts_post db mem_no cost_type :
  (calculated_internet_bookings db GET mem_no cost_type).2 = db
  /\ (mem_no <> 0 ->
      (calculated_internet_bookings db POST mem_no cost_type).1
      = (calculated_internet_bookings db GET mem_no cost_type).1)
  /\ (forall code error,
        (calculated_internet_bookings db POST mem_no cost_type).1
        = FinancialError code error ->
        (calculated_internet_bookings db POST mem_no cost_type).2 = db)
  /\ (mem_no = 0 ->
      (calculated_internet_bookings db POST mem_no cost_type).1
      = FinancialError 400 "Invalid input data."
      /\ ((cost_type = "IBOOKING" \/ cost_type = "ICANCEL") ->
          (calculated_internet_bookings db GET mem_no cost_type).1
          <> FinancialError 400 "Invalid input data.")).
Proof.
  assert (Hpost : forall p cost,
            requested_profile db POST mem_no = OneProfile p ->
            exists db1, update_squash_member_profile db mem_no (first_name p) (surname p)
                          (cell_phone p) (email p)
                          (fsub (float_of_text 2 (credit p)) cost) = (true, db1)).
  { intros p cost Hprofile.
    apply requested_profile_one in Hprofile as (Honline & row & Hrow & ->).
    destruct (fetchone_member_updated db mem_no row (First row) (Surname row)
                (CellPhone row) (E_Mail_Adr row)
                (fsub (float_of_text 2 (credit (profile_of_row row))) cost) Honline Hrow)
      as (db1 & Hupdate & _).
    by exists db1. }
  split; [|split; [|split]].
  - unfold calculated_internet_bookings.
    destruct (_ || _); [reflexivity|].
    destruct (requested_profile db GET mem_no) as [|p|[|? ?]]; try reflexivity.
    destruct (first_cost _ _ _) as [[cost|]|]; reflexivity.
  - intros Hmem. unfold calculated_internet_bookings, no_member_number.
    rewrite (bool_decide_eq_false_2 _ Hmem).
    rewrite !(requested_profile_number db _ mem_no Hmem).
    destruct (false || _); [reflexivity|].
    destruct (profile_of_username db mem_no) as [|p|[|? ?]] eqn:Hprofile;
      try reflexivity.
    destruct (first_cost _ _ _) as [[cost|]|]; try reflexivity.
    rewrite <- (requested_profile_number db POST mem_no Hmem) in Hprofile.
    destruct (Hpost p cost Hprofile) as [db1 ->]. reflexivity.
  - intros code error. unfold calculated_internet_bookings.
    destruct (_ || _); [reflexivity|].
    destruct (requested_profile db POST mem_no) as [|p|[|? ?]] eqn:Hprofile;
      try reflexivity.
    destruct (first_cost _ _ _) as [[cost|]|]; try reflexivity.
    destruct (Hpost p cost eq_refl) as [db1 ->]. discriminate.
  - intros ->. unfold calculated_internet_bookings. split; [reflexivity|].
    intros Htype. cbn [no_member_number orb].
    assert (Hvalid : negb (bool_decide (cost_type = "IBOOKING")
                           || bool_decide (cost_type = "ICANCEL")) = false).
    { destruct Htype as [-> | ->]; reflexivity. }
    rewrite Hvalid.
    destruct (requested_profile db GET 0) as [|p|[|? ?]]; try discriminate.
    destruct (first_cost _ _ _) as [[cost|]|]; discriminate.
Qed.

Lemma calculated_internet_bookings_post_inv db mem_no cost_type data db1 :
  calculated_internet_bookings db POST mem_no cost_type = (Financial200 data, db1) ->
  exists row,
    online db1 = true /\ mem_no <> 0
    /\ fetchone_member db1 mem_no = Some row
    /\ Mem_No row = mem_no.
Proof.
  unfold calculated_internet_bookings.
  destruct (_ || _); [discriminate|]. cbn [requested_profile].
  destruct (get_squash_members_profile db mem_no) as [|p|[|? ?]] eqn:Hprofile;
    try discriminate.
  destruct (first_cost _ _ _) as [[cost|]|]; try discriminate.
  apply get_squash_members_profile_one in Hprofile as (Honline & Hmem & row & Hrow & ->).
  destruct (fetchone_member_updated db mem_no row (First row) (Surname row)
              (CellPhone row) (E_Mail_Adr row)
              (fsub (float_of_text 2 (credit (profile_of_row row))) cost) Honline Hrow)
    as (db' & Hupdate & Honline' & _ & _ & Hrow').
  change (first_name (profile_of_row row)) with (First row).
  change (surname (profile_of_row row)) with (Surname row).
  change (cell_phone (profile_of_row row)) with (CellPhone row).
  change (email (profile_of_row row)) with (E_Mail_Adr row).
  rewrite Hupdate. intros [= _ <-]. eexists. split; [exact Honline'|].
  split; [exact Hmem|]. split; [exact Hrow'|]. simpl.
  unfold fetchone_member in Hrow. apply head_Some_elem_of in Hrow.
  by apply list_elem_of_filter in Hrow as [? _].
Qed.

(** X8. When [add_booking_financials] or [delete_booking_financials]
    succeeds, the balance stored for the member is the float that the
    text [updated_credit] of the answer spells, that is the amount
    printed with two decimals: the second write replaces the unrounded
    difference the endpoint stored. *)
Theorem booking_financials_stores_printed_credit db player_no cost_type financial_data db' :
  booking_financials db player_no cost_type = (FinancialSuccess financial_data, db') ->
  exists row,
    fetchone_member db' player_no = Some row
    /\ S_Credit row = Some (float_of_text 2 (fin_updated_credit financial_data)).
Proof.
  unfold booking_financials.
  destruct (calculated_internet_bookings db POST player_no cost_type)
    as [[data|? ?] db1] eqn:Hpost; [|discriminate].
  apply calculated_internet_bookings_post_inv in Hpost
    as (row & Honline & Hmem & Hrow & Hno).
  unfold get_squash_members_profile.
  rewrite Honline, (bool_decide_eq_false_2 _ Hmem), Hrow. simpl.
  pose proof (fetchone_member_after_update db1 player_no (First row) (Surname row)
                (CellPhone row) (E_Mail_Adr row)
                (float_of_text 2 (fin_updated_credit data)) player_no
                Honline) as Hafter.
  destruct (update_squash_member_profile _ _ _ _ _ _ _) as [[|] db2]; [|discriminate].
  intros [= <- <-]. simpl in Hafter. rewrite Hafter, Hrow. simpl.
  rewrite (bool_decide_eq_true_2 _ Hno). eexists. split; reflexivity.
Qed.

(** Anna cancels at a fee of 5.00: 95 is stored. *)
Lemma booking_financials_stores_printed_credit_witness :
  exists row,
    fetchone_member (booking_financials club 101 "ICANCEL").2 101 = Some row
    /\ S_Credit row = Some (float_of_text 2 (Digits false 9500)).
Proof.
  apply (booking_financials_stores_printed_credit club 101 "ICANCEL"
           {| fin_cost_type := "ICANCEL"; fin_cost := Digits false 500;
              fin_current_credit := Digits false 10000;
              fin_updated_credit := Digits false 9500 |}).
  vm_compute. reflexivity.
Defined.

(** With a balance of 1.00 and a booking cost of 0.005 the endpoint
    stores the float 1.0 - 0.005, which lies below 0.995 and is printed
    as 0.99; the second write stores 0.99. *)
Example booking_financials_rounds_the_credit :
  let db := {| online := true;
               Clublist := [ {| Mem_No := 101; Surname := Some "Botha";
                                First := Some "Anna"; CellPhone := None;
                                E_Mail_Adr := None; S_Credit := Some (float_of_Z 1);
                                Book := []; Week := [] |} ];
               Bookfile := [];
               Courts := [ {| CourtDesc := "VISIONS"; RATEPMIN := [];
                              IBOOKING := [Some (float_of_ratio 5 1000)];
                              ICANCEL := [] |} ] |} in
  S_Credit <$> fetchone_member (calculated_internet_bookings db POST 101 "IBOOKING").2 101
  = Some (Some (fsub (float_of_Z 1) (float_of_ratio 5 1000)))
  /\ (booking_financials db 101 "IBOOKING").1
     = FinancialSuccess {| fin_cost_type := "IBOOKING"; fin_cost := Digits false 1;
                           fin_current_credit := Digits false 100;
                           fin_updated_credit := Digits false 99 |}
  /\ S_Credit <$> fetchone_member (booking_financials db 101 "IBOOKING").2 101
     = Some (Some (float_of_ratio 99 100))
  /\ fsub (float_of_Z 1) (float_of_ratio 5 1000) <> float_of_ratio 99 100.
Proof.
  repeat split; try (vm_compute; reflexivity). vm_compute. discriminate.
Qed.

Lemma update_squash_member_profile_keeps db member_no_ fn ln cp em credit_ :
  let db' := (update_squash_member_profile db member_no_ fn ln cp em credit_).2 in
  (forall who, get_booking_limitations db' who = get_booking_limitations db who)
  /\ (forall who, who <> member_no_ -> fetchone_member db' who = fetchone_member db who).
Proof.
  destruct (online db) eqn:Honline.
  - pose proof (fetchone_member_after_update db member_no_ fn ln cp em credit_) as Hafter.
    pose proof (update_squash_member_profile_frame db member_no_ fn ln cp em credit_)
      as (Ho & _ & _).
    cbv zeta in *. split.
    + intros who. unfold get_booking_limitations. rewrite Ho, Honline. simpl.
      rewrite (Hafter who Honline). destruct (fetchone_member db who) as [row|]; simpl;
        [|reflexivity].
      case_bool_decide; reflexivity.
    + intros who Hother. rewrite (Hafter who Honline).
      destruct (fetchone_member db who) as [row|] eqn:Hrow; simpl; [|reflexivity].
      rewrite bool_decide_eq_false_2; [reflexivity|].
      unfold fetchone_member in Hrow. apply head_Some_elem_of in Hrow.
      apply list_elem_of_filter in Hrow as [-> _]. exact Hother.
  - unfold update_squash_member_profile. rewrite Honline. simpl. auto.
Qed.

(** X9. An adjustment of the credit of one member, whatever its answer,
    leaves the daily and weekly limits of every member, the rows of all
    other members, the ledger and the tariffs as they were. *)
Theorem adjustment_touches_one_credit_only db method mem_no cost_type :
  let db' := (calculated_internet_bookings db method mem_no cost_type).2 in
  (forall who, get_booking_limitations db' who = get_booking_limitations db who)
  /\ (forall who, who <> mem_no -> fetchone_member db' who = fetchone_member db who)
  /\ Bookfile db' = Bookfile db
  /\ Courts db' = Courts db.
Proof.
  pose proof (calculated_internet_bookings_frame db method mem_no cost_type)
    as (_ & Hbook & Hcourts).
  cbv zeta in *. split; [|split; [|split; assumption]];
    clear Hbook Hcourts; unfold calculated_internet_bookings;
    destruct (_ || _); try (intros; reflexivity);
    destruct (requested_profile db method mem_no) as [|p|[|? ?]];
    try (intros; reflexivity);
    destruct (first_cost _ _ _) as [[cost|]|]; try (intros; reflexivity);
    destruct method; try (intros; reflexivity);
    pose proof (update_squash_member_profile_keeps db mem_no (first_name p) (surname p)
                  (cell_phone p) (email p) (fsub (float_of_text 2 (credit p)) cost))
      as [Hlimits Hothers];
    destruct (update_squash_member_profile _ _ _ _ _ _ _) as [[|] db1];
    simpl in *; assumption.
Qed.

(** * Further properties of the tariffs *)

Lemma not_zero_or_null_values (columns : list (option float)) :
  Forall (fun v => is_zero v = false) (omap not_zero_or_null columns).
Proof.
  induction columns as [|[v|] columns IH]; simpl; [constructor| |exact IH].
  destruct v as [s|s| |s m e]; simpl; try exact IH; constructor; try exact IH;
    try reflexivity; by destruct s.
Qed.

Lemma tariff_keys_grow (rows : list CourtsRow) (acc : list (string * CourtData)) k :
  k ∈ map fst acc ->
  k ∈ map fst (fold_left
                 (fun court_data row =>
                    let cd := court_data_of_row row in
                    if has_tariff cd then dict_set (CourtDesc row) cd court_data
                    else court_data) rows acc).
Proof.
  revert acc. induction rows as [|r rows IH]; intros acc Hk; [exact Hk|].
  simpl. apply IH. destruct (has_tariff _); [|exact Hk].
  rewrite dict_set_keys. case_bool_decide; [exact Hk|]. apply elem_of_app. by left.
Qed.

Lemma tariff_keys_complete (rows : list CourtsRow) (acc : list (string * CourtData)) row :
  row ∈ rows ->
  has_tariff (court_data_of_row row) = true ->
  CourtDesc row ∈ map fst (fold_left
                             (fun court_data row =>
                                let cd := court_data_of_row row in
                                if has_tariff cd
                                then dict_set (CourtDesc row) cd court_data
                                else court_data) rows acc).
Proof.
  revert acc. induction rows as [|r rows IH]; intros acc Hin Htariff; [inversion Hin|].
  apply elem_of_cons in Hin as [<-|Hin]; [|by apply IH].
  simpl. apply tariff_keys_grow. rewrite Htariff, dict_set_keys.
  case_bool_decide; [assumption|]. apply elem_of_app. right. left.
Qed.

(** X10. The tariff dictionary has each court description once, and
    none of them holds ["court"]; every court in it has at least one
    rate, booking cost or cancellation fee and comes from a row of
    [Courts] with that description; none of its booking costs or
    cancellation fees is zero; and, with a connection, every row of
    [Courts] that has a tariff and whose description does not hold
    ["court"] has its description in the dictionary. *)
Theorem get_court_rates_per_minute_well_formed db :
  NoDup (map fst (get_court_rates_per_minute db))
  /\ (forall court court_data,
        (court, court_data) ∈ get_court_rates_per_minute db ->
        like_Court court = false
        /\ has_tariff court_data = true
        /\ (exists row, row ∈ Courts db /\ CourtDesc row = court
                        /\ court_data = court_data_of_row row)
        /\ Forall (fun v => is_zero v = false) (bookings court_data)
        /\ Forall (fun v => is_zero v = false) (cancellations court_data))
  /\ (forall row,
        online db = true ->
        row ∈ Courts db ->
        like_Court (CourtDesc row) = false ->
        has_tariff (court_data_of_row row) = true ->
        CourtDesc row ∈ map fst (get_court_rates_per_minute db)).
Proof.
  destruct (get_court_rates_per_minute_items db) as [Hnodup Hitems].
  split; [exact Hnodup|]. split.
  - intros court court_data Hin.
    destruct (Hitems _ Hin) as (Htariff & row & Hrow & Hdesc & Hlike & Hdata).
    simpl in *. subst court court_data.
    split; [exact Hlike|]. split; [exact Htariff|]. split; [by exists row|].
    split; apply not_zero_or_null_values.
  - intros row Honline Hrow Hlike Htariff. unfold get_court_rates_per_minute.
    rewrite Honline. simpl. apply tariff_keys_complete; [|exact Htariff].
    unfold tariff_rows. by apply list_elem_of_filter.
Qed.

Lemma rate_at_in_range rates_ (rate_index : Z) :
  0 <= rate_index -> rate_at rates_ rate_index = Return (rates_ !! Z.to_nat rate_index).
Proof.
  intros Hpos. unfold rate_at.
  destruct (Z.leb_spec (Z.of_nat (length rates_)) rate_index) as [Hout|Hin].
  - f_equal. symmetry. apply lookup_ge_None. lia.
  - destruct (Z.leb_spec 0 rate_index); [reflexivity|lia].
Qed.

Lemma slot_price_finite rate :
  finite (fmul rate (float_of_Z 45)) = true ->
  slot_price rate = Return (nearest_integer (fmul rate (float_of_Z 45))).
Proof.
  unfold slot_price, py_round, nearest_integer.
  destruct (fmul rate (float_of_Z 45)); try discriminate; reflexivity.
Qed.

(** X11. For periods whose ids are all at least 1 and rates whose
    product with 45 is a finite float, the price list never raises and
    has one item per period, in order: the float product of the rate at
    position [id - 1] and 45, rounded to a whole unit, and "N/A" exactly
    for the periods whose id is beyond the number of rates. *)
Theorem booking_costs_one_item_per_period rates_ (periods_ : list Period) :
  Forall (fun period => 1 <= id period) periods_ ->
  Forall (fun rate => finite (fmul rate (float_of_Z 45)) = true) rates_ ->
  booking_costs rates_ periods_
  = Return (map (fun period =>
                   (description period,
                    (fun rate => nearest_integer (fmul rate (float_of_Z 45)))
                    <$> rates_ !! Z.to_nat (id period - 1))) periods_).
Proof.
  intros Hids Hrates. induction Hids as [|period rest Hid _ IH]; [reflexivity|].
  cbn [booking_costs map]. rewrite rate_at_in_range by lia. rewrite IH.
  destruct (rates_ !! _) as [rate|] eqn:Hrate; [|reflexivity].
  rewrite slot_price_finite; [reflexivity|].
  rewrite Forall_forall in Hrates. apply Hrates. by eapply list_elem_of_lookup_2.
Qed.

(** With the rates 0.5 and 0.7: 22.5 is rounded to the even 22, and the
    float product of 0.7 and 45 lies below 31.5 and is rounded to 31. *)
Lemma booking_costs_one_item_per_period_witness :
  booking_costs [float_of_ratio 1 2; float_of_ratio 7 10]
    [normal_period; peak_period; {| id := 3; description := "LATE" |}]
  = Return [("NORMAL", Some 22); ("PEAK", Some 31); ("LATE", None)].
Proof.
  rewrite booking_costs_one_item_per_period.
  - vm_compute. reflexivity.
  - repeat constructor; vm_compute; discriminate.
  - repeat constructor; vm_compute; reflexivity.
Defined.

(** * Further properties of the limit checks *)

Lemma positive_limits_no_cap columns :
  Forall no_cap columns -> positive_limits columns = [].
Proof.
  induction 1 as [|[n|] columns Hcap _ IH]; [reflexivity| |exact IH].
  unfold positive_limits in *. simpl in *.
  rewrite (bool_decide_eq_false_2 (0 < n)) by lia. rewrite andb_false_r. exact IH.
Qed.

Lemma positive_limits_app columns columns' :
  positive_limits (columns ++ columns') = positive_limits columns ++ positive_limits columns'.
Proof. unfold positive_limits. apply omap_app. Qed.

(** X12. The caps are aligned by their rank among the configured caps,
    not by their column: when a member has one positive daily cap, in
    whatever [Book_i] column it stands, the list of daily limits is that
    one cap, and the checks align it with the first period. *)
Theorem single_cap_moves_to_first_period db mem_no row before cap after period others :
  online db = true ->
  fetchone_member db mem_no = Some row ->
  Book row = before ++ Some cap :: after ->
  Forall no_cap before -> Forall no_cap after ->
  0 < cap ->
  exists limitations,
    get_booking_limitations db mem_no = Some limitations
    /\ daily_limits limitations = [cap]
    /\ align_limits (daily_limits limitations) (period :: others)
       = [ {| limit := cap; period_id := id period;
              period_description := description period; bookings_count := 0 |} ].
Proof.
  intros Honline Hrow Hbook Hbefore Hafter Hcap.
  unfold get_booking_limitations. rewrite Honline, Hrow. simpl.
  eexists. split; [reflexivity|]. simpl.
  assert (Hlimits : positive_limits (Book row) = [cap]).
  { rewrite Hbook, positive_limits_app, (positive_limits_no_cap before) by assumption.
    change (Some cap :: after) with ([Some cap] ++ after).
    rewrite (positive_limits_app [Some cap] after), (positive_limits_no_cap after)
      by assumption.
    unfold positive_limits. simpl.
    rewrite (bool_decide_eq_true_2 (cap <> 0)) by lia.
    rewrite (bool_decide_eq_true_2 (0 < cap)) by lia. reflexivity. }
  rewrite Hlimits. split; reflexivity.
Qed.

Lemma single_cap_moves_to_first_period_witness :
  exists limitations,
    get_booking_limitations
      {| online := true;
         Clublist := [ {| Mem_No := 404; Surname := Some "Meyer"; First := Some "Dan";
                          CellPhone := None; E_Mail_Adr := None; S_Credit := None;
                          Book := [Some 0; Some 3; None; None; None];
                          Week := [] |} ];
         Bookfile := []; Courts := [] |} 404 = Some limitations
    /\ daily_limits limitations = [3]
    /\ align_limits (daily_limits limitations) (normal_period :: [peak_period])
       = [ {| limit := 3; period_id := id normal_period;
              period_description := description normal_period;
              bookings_count := 0 |} ].
Proof.
  eapply (single_cap_moves_to_first_period _ 404 _ [Some 0] 3 [None; None; None]).
  - reflexivity.
  - reflexivity.
  - reflexivity.
  - repeat constructor. simpl. lia.
  - repeat constructor.
  - lia.
Defined.

Section LimitEdges.
Context `{DatetimeLib}.

(** X13. A member who has no positive daily cap is not treated as
    unlimited: as soon as the checked date has any booked row the daily
    check answers 404, and without any row it answers "no bookings"
    before it looks at the limits at all. *)
Theorem check_daily_booking_limits_without_caps db q now mem_no date parsed row :
  mem_no <> 0 ->
  truthy date = true ->
  strptime_dmY date = Some parsed ->
  online db = true ->
  fetchone_member db mem_no = Some row ->
  Forall no_cap (Book row) ->
  check_daily_booking_limits db q now (Some mem_no) (Some date)
  = match bookings_data q with
    | [] => NoBookings200
    | _ :: _ => LimitError404
    end.
Proof.
  intros Hmem Hdate Hparsed Honline Hrow Hcaps. unfold check_daily_booking_limits.
  rewrite (bool_decide_eq_false_2 _ Hmem). simpl. rewrite Hdate. simpl. rewrite Hparsed.
  destruct (bookings_data q); [reflexivity|].
  unfold get_booking_limitations. rewrite Honline, Hrow. simpl.
  by rewrite (positive_limits_no_cap _ Hcaps).
Qed.

End LimitEdges.

Lemma check_daily_booking_limits_without_caps_witness :
  check_daily_booking_limits
    {| online := true;
       Clublist := [ {| Mem_No := 505; Surname := Some "Otto"; First := Some "Eva";
                        CellPhone := None; E_Mail_Adr := None; S_Credit := None;
                        Book := [Some 0; None; None; None; None]; Week := [] |} ];
       Bookfile := []; Courts := [] |}
    two_normal_bookings (at_clock 17 9 0) (Some 505) (Some "18/12/2030")
  = LimitError404.
Proof.
  rewrite (check_daily_booking_limits_without_caps (H := strict_datetime)
             _ _ _ 505 "18/12/2030" {| year := 2030; month := 12; day := 18 |}
             {| Mem_No := 505; Surname := Some "Otto"; First := Some "Eva";
                CellPhone := None; E_Mail_Adr := None; S_Credit := None;
                Book := [Some 0; None; None; None; None]; Week := [] |}).
  - reflexivity.
  - lia.
  - reflexivity.
  - reflexivity.
  - reflexivity.
  - reflexivity.
  - repeat constructor. simpl. lia.
Defined.

Lemma counts_le_refl a : counts_le a a.
Proof. unfold counts_le. induction a; constructor; [repeat split; lia|assumption]. Qed.

Lemma counts_le_trans a b c : counts_le a b -> counts_le b c -> counts_le a c.
Proof.
  unfold counts_le. intros Hab. revert c.
  induction Hab as [|x y a b (Hl & Hp & Hd & Hc) _ IH]; intros c Hbc;
    inversion Hbc as [|y' z b' c' (Hl' & Hp' & Hd' & Hc') Hrest]; subst; constructor.
  - repeat split; [congruence|congruence|congruence|lia].
  - by apply IH.
Qed.

Lemma increment_count_mono pid a b :
  counts_le a b -> counts_le (increment_count pid a) (increment_count pid b).
Proof.
  unfold counts_le. induction 1 as [|x y a b (Hl & Hp & Hd & Hc) Hrest IH];
    [constructor|].
  simpl. rewrite <- Hp. case_bool_decide.
  - constructor; [|exact Hrest]. simpl. repeat split; try assumption. lia.
  - constructor; [|exact IH]. by repeat split.
Qed.

Lemma increment_count_le pid a : counts_le a (increment_count pid a).
Proof.
  unfold counts_le. induction a as [|x a IH]; [constructor|].
  simpl. case_bool_decide.
  - constructor; [|apply counts_le_refl]. simpl. repeat split. lia.
  - constructor; [|exact IH]. repeat split. lia.
Qed.

Lemma count_periods_mono mem_no player_nos idx periods_ a b :
  counts_le a b ->
  counts_le (count_periods mem_no player_nos idx periods_ a)
    (count_periods mem_no player_nos idx periods_ b).
Proof.
  revert idx a b. induction periods_ as [|p rest IH]; intros idx a b Hab; [exact Hab|].
  simpl. apply IH. case_bool_decide; [by apply increment_count_mono|exact Hab].
Qed.

Lemma count_periods_le mem_no player_nos idx periods_ a :
  counts_le a (count_periods mem_no player_nos idx periods_ a).
Proof.
  revert idx a. induction periods_ as [|p rest IH]; intros idx a; [apply counts_le_refl|].
  simpl. eapply counts_le_trans; [|apply IH].
  case_bool_decide; [apply increment_count_le|apply counts_le_refl].
Qed.

Lemma count_period_data_mono mem_no booking formatted_time period_data_ a b :
  counts_le a b ->
  counts_le (count_period_data mem_no booking formatted_time period_data_ a)
    (count_period_data mem_no booking formatted_time period_data_ b).
Proof.
  revert a b. induction period_data_ as [|pe rest IH]; intros a b Hab; [exact Hab|].
  simpl. apply IH. destruct (_ && _); [by apply count_periods_mono|exact Hab].
Qed.

Lemma count_period_data_le mem_no booking formatted_time period_data_ a :
  counts_le a (count_period_data mem_no booking formatted_time period_data_ a).
Proof.
  revert a. induction period_data_ as [|pe rest IH]; intros a; [apply counts_le_refl|].
  simpl. eapply counts_le_trans; [|apply IH].
  destruct (_ && _); [apply count_periods_le|apply counts_le_refl].
Qed.

Section LimitOrder.
Context `{DatetimeLib}.

Lemma count_daily_le_count_weekly mem_no date now period_data_ bookings_ a b :
  counts_le a b ->
  counts_le (count_daily mem_no date now period_data_ bookings_ a)
    (count_weekly mem_no period_data_ bookings_ b).
Proof.
  revert a b. induction bookings_ as [|booking rest IH]; intros a b Hab; [exact Hab|].
  simpl. destruct (strptime_dmY_HMS (StartTime booking)) as [start|]; [|by apply IH].
  destruct (_ && _).
  - apply IH. eapply counts_le_trans; [exact Hab|apply count_period_data_le].
  - apply IH. by apply count_period_data_mono.
Qed.

Lemma count_daily_le mem_no date now period_data_ bookings_ a :
  counts_le a (count_daily mem_no date now period_data_ bookings_ a).
Proof.
  revert a. induction bookings_ as [|booking rest IH]; intros a; [apply counts_le_refl|].
  simpl. destruct (strptime_dmY_HMS (StartTime booking)) as [start|]; [|apply IH].
  destruct (_ && _); [apply IH|].
  eapply counts_le_trans; [apply count_period_data_le|apply IH].
Qed.

(** X14. The counting loops only ever raise counts: caps, period ids and
    descriptions of the aligned limits stay as they are and no count goes
    down; and over the same rows the daily loop never counts more for a
    period than the weekly loop does, at any clock reading. *)
Theorem counts_only_grow_and_daily_below_weekly
    mem_no date now period_data_ bookings_ aligned :
  counts_le aligned (count_daily mem_no date now period_data_ bookings_ aligned)
  /\ counts_le (count_daily mem_no date now period_data_ bookings_ aligned)
       (count_weekly mem_no period_data_ bookings_ aligned).
Proof.
  split; [apply count_daily_le|].
  apply count_daily_le_count_weekly, counts_le_refl.
Qed.

End LimitOrder.

(** * Further properties of the waiting list store *)

Lemma waiting_insert (file : WaitingList) date time_slot slots entries date' time_slot' :
  waiting (<[date := <[time_slot := entries]> slots]> file) date' time_slot'
  = if bool_decide (date' = date)
    then (if bool_decide (time_slot' = time_slot) then entries
          else default [] (slots !! time_slot'))
    else waiting file date' time_slot'.
Proof.
  unfold waiting. case_bool_decide as Hd.
  - subst. rewrite lookup_insert_eq. simpl. case_bool_decide as Ht.
    + subst. by rewrite lookup_insert_eq.
    + by rewrite lookup_insert_ne.
  - by rewrite lookup_insert_ne.
Qed.

Section WaitingListMore.
Context `{DatetimeLib}.

Lemma cleanup_waiting_list_lookup (file : WaitingList) now date :
  cleanup_waiting_list file now !! date
  = if keeps_date (on now) date then file !! date else None.
Proof.
  unfold cleanup_waiting_list.
  destruct (keeps_date (on now) date) eqn:Hkeep.
  - destruct (file !! date) as [slots|] eqn:Hlookup.
    + by apply map_lookup_filter_Some.
    + apply map_lookup_filter_None. left. exact Hlookup.
  - apply map_lookup_filter_None. right. intros slots _. simpl. by rewrite Hkeep.
Qed.

Lemma cleanup_waiting_list_twice (file : WaitingList) now :
  cleanup_waiting_list (cleanup_waiting_list file now) now = cleanup_waiting_list file now.
Proof.
  apply map_eq. intros date. rewrite !cleanup_waiting_list_lookup.
  by destruct (keeps_date (on now) date).
Qed.

Lemma cleanup_waiting_list_insert (file : WaitingList) now date slots :
  cleanup_waiting_list (<[date := slots]> file) now
  = if keeps_date (on now) date then <[date := slots]> (cleanup_waiting_list file now)
    else delete date (cleanup_waiting_list file now).
Proof.
  apply map_eq. intros date'. rewrite cleanup_waiting_list_lookup.
  destruct (decide (date = date')) as [<-|Hne].
  - destruct (keeps_date (on now) date) eqn:Hkeep.
    + by rewrite !lookup_insert_eq.
    + by rewrite lookup_delete_eq.
  - rewrite lookup_insert_ne by assumption.
    destruct (keeps_date (on now) date) eqn:Hkeep.
    + rewrite lookup_insert_ne by assumption. by rewrite cleanup_waiting_list_lookup.
    + rewrite lookup_delete_ne by assumption. by rewrite cleanup_waiting_list_lookup.
Qed.

(** The accepted add request, read backwards. *)
Lemma add_to_waiting_list_added (file : WaitingList) db now session data address file' :
  add_to_waiting_list file db now session data = (Added201 address, file') ->
  exists player date time_slot,
    session_Mem_No session = Some player
    /\ date = normalise_date (default "" (request_date data))
    /\ time_slot = default "" (request_time_slot data)
    /\ existsb (fun entry => bool_decide (player_id entry = player))
         (waiting (cleanup_waiting_list file now) date time_slot) = false
    /\ file' = <[date := <[time_slot :=
                   waiting (cleanup_waiting_list file now) date time_slot
                   ++ [ {| player_id := player;
                           entry_first_name := default "Unknown" (session_first_name session);
                           entry_last_name := default "Unknown" (session_last_name session);
                           email_address := address;
                           status := "active" |} ]]>
                 (default ∅ (cleanup_waiting_list file now !! date))]>
               (cleanup_waiting_list file now).
Proof.
  unfold add_to_waiting_list.
  destruct (session_Mem_No session) as [player|]; [|discriminate].
  destruct (_ || _); [discriminate|].
  destruct (get_member_email_and_memnumber db player) as [|m e|[|? ?]]; try discriminate.
  destruct (_ || _); [discriminate|]. destruct (negb _); [discriminate|].
  set (date := normalise_date _). set (time_slot := default "" (request_time_slot data)).
  assert (Hwaiting : default [] (default ∅ (cleanup_waiting_list file now !! date)
                                 !! time_slot)
                     = waiting (cleanup_waiting_list file now) date time_slot).
  { unfold waiting. destruct (cleanup_waiting_list file now !! date); [reflexivity|].
    simpl. by rewrite lookup_empty. }
  rewrite Hwaiting. destruct (existsb _ _) eqn:Hexists; [discriminate|].
  intros [= <- <-]. exists player, date, time_slot. by repeat split.
Qed.

End WaitingListMore.

Lemma waiting_default (file : WaitingList) date time_slot :
  default [] (default ∅ (file !! date) !! time_slot) = waiting file date time_slot.
Proof.
  unfold waiting. destruct (file !! date); [reflexivity|]. simpl. by rewrite lookup_empty.
Qed.

Section WaitingListAdd.
Context `{DatetimeLib}.

(** X15. An add request that is accepted appends exactly one entry, at
    the end of the list of its date and time slot: the entry carries the
    member of the session, the stored address and the status "active";
    the member was not in that list before; and every other list is the
    one the cleanup left. *)
Theorem add_to_waiting_list_appends_last
    (file : WaitingList) db now session data address file' :
  add_to_waiting_list file db now session data = (Added201 address, file') ->
  exists player entry,
    let date := normalise_date (default "" (request_date data)) in
    let time_slot := default "" (request_time_slot data) in
    session_Mem_No session = Some player
    /\ player_id entry = player
    /\ email_address entry = address
    /\ status entry = "active"
    /\ waiting file' date time_slot
       = waiting (cleanup_waiting_list file now) date time_slot ++ [entry]
    /\ Forall (fun other => player_id other <> player)
         (waiting (cleanup_waiting_list file now) date time_slot)
    /\ forall date' time_slot',
         date' <> date \/ time_slot' <> time_slot ->
         waiting file' date' time_slot'
         = waiting (cleanup_waiting_list file now) date' time_slot'.
Proof.
  intros Hadd.
  apply add_to_waiting_list_added in Hadd
    as (player & date & time_slot & Hsession & -> & -> & Hnew & ->).
  exists player,
    {| player_id := player;
       entry_first_name := default "Unknown" (session_first_name session);
       entry_last_name := default "Unknown" (session_last_name session);
       email_address := address;
       status := "active" |}.
  cbv zeta. split; [exact Hsession|]. split; [reflexivity|]. split; [reflexivity|].
  split; [reflexivity|]. split; [|split].
  - rewrite waiting_insert, !bool_decide_eq_true_2 by reflexivity. reflexivity.
  - apply Forall_forall. intros other Hin Hsame.
    apply not_true_iff_false in Hnew. apply Hnew.
    apply existsb_exists. exists other. split; [by apply list_elem_of_In|].
    by apply bool_decide_eq_true.
  - intros date' time_slot' Hother. rewrite waiting_insert.
    case_bool_decide as Hd; [|reflexivity]. subst date'.
    destruct Hother as [Hd|Ht]; [done|].
    rewrite (bool_decide_eq_false_2 _ Ht). apply waiting_default.
Qed.

(** X16. The same add request sent again at the same time is answered
    "already in list" and changes nothing, provided the date of the
    request reads as a [dd/mm/yyyy] date that is not in the past. For a
    date in the past, or one that reads in no format, the entry that was
    just stored is swept by the cleanup of the second request, which is
    then accepted again. *)
Theorem add_to_waiting_list_twice
    (file : WaitingList) db now session data address file' :
  add_to_waiting_list file db now session data = (Added201 address, file') ->
  if keeps_date (on now) (normalise_date (default "" (request_date data)))
  then add_to_waiting_list file' db now session data = (AlreadyInList200, file')
  else (add_to_waiting_list file' db now session data).1 = Added201 address.
Proof.
  intros Hadd. pose proof Hadd as Hfacts.
  apply add_to_waiting_list_added in Hfacts
    as (player & date & time_slot & Hsession & -> & -> & Hnew & ->).
  set (date := normalise_date (default "" (request_date data))) in *.
  revert Hadd. unfold add_to_waiting_list. rewrite Hsession.
  destruct (_ || _); [discriminate|].
  destruct (get_member_email_and_memnumber db player) as [|m e|[|? ?]]; try discriminate.
  destruct (_ || _); [discriminate|]. destruct (negb _); [discriminate|].
  fold date. rewrite !waiting_default. rewrite Hnew. intros [= Haddress].
  rewrite cleanup_waiting_list_insert, cleanup_waiting_list_twice.
  destruct (keeps_date (on now) date) eqn:Hkeep.
  - rewrite waiting_insert, !bool_decide_eq_true_2 by reflexivity.
    rewrite existsb_app. simpl. rewrite (bool_decide_eq_true_2 (player = player)) by done.
    rewrite orb_true_r. reflexivity.
  - assert (Hgone : waiting (delete date (cleanup_waiting_list file now)) date
                      (default "" (request_time_slot data)) = []).
    { unfold waiting. by rewrite lookup_delete_eq. }
    rewrite Hgone. simpl. by rewrite Haddress.
Qed.

End WaitingListAdd.

Lemma add_to_waiting_list_appends_last_witness :
  exists player entry,
    session_Mem_No anna_session = Some player
    /\ player_id entry = player
    /\ waiting (waiting_for_six [ben_waiting; anna_waiting]) "18/12/2030" "18:00"
       = waiting (cleanup_waiting_list (waiting_for_six [ben_waiting]) (at_clock 17 9 0))
           "18/12/2030" "18:00" ++ [entry].
Proof.
  destruct (add_to_waiting_list_appends_last (H := strict_datetime)
              (waiting_for_six [ben_waiting]) club (at_clock 17 9 0) anna_session
              six_request "anna@example.org"
              (waiting_for_six [ben_waiting; anna_waiting]))
    as (player & entry & Hsession & Hid & _ & _ & Hlist & _).
  - vm_compute. reflexivity.
  - exists player, entry. split; [exact Hsession|]. split; [exact Hid|].
    assert (Hdate : normalise_date (default "" (request_date six_request)) = "18/12/2030")
      by (vm_compute; reflexivity).
    rewrite Hdate in Hlist. exact Hlist.
Defined.

Lemma add_to_waiting_list_twice_witness :
  add_to_waiting_list (waiting_for_six [anna_waiting]) club (at_clock 17 9 0)
    anna_session six_request
  = (AlreadyInList200, waiting_for_six [anna_waiting]).
Proof.
  pose proof (add_to_waiting_list_twice (H := strict_datetime) ∅ club (at_clock 17 9 0)
                anna_session six_request "anna@example.org"
                (waiting_for_six [anna_waiting])) as Htwice.
  assert (Hkeep : keeps_date (on (at_clock 17 9 0))
                    (normalise_date (default "" (request_date six_request))) = true)
    by (vm_compute; reflexivity).
  rewrite Hkeep in Htwice. apply Htwice. vm_compute. reflexivity.
Defined.

(** A request for a day of 2020 is stored, and stored again each time. *)
Example add_to_waiting_list_past_date :
  (add_to_waiting_list ∅ club (at_clock 17 9 0) anna_session old_request).1
  = Added201 "anna@example.org"
  /\ (add_to_waiting_list
        (add_to_waiting_list ∅ club (at_clock 17 9 0) anna_session old_request).2
        club (at_clock 17 9 0) anna_session old_request).1
     = Added201 "anna@example.org".
Proof. split; vm_compute; reflexivity. Qed.

Lemma waiting_delete (file : WaitingList) date date' time_slot' :
  waiting (delete date file) date' time_slot'
  = if bool_decide (date' = date) then [] else waiting file date' time_slot'.
Proof.
  unfold waiting. case_bool_decide as Hd.
  - subst. by rewrite lookup_delete_eq.
  - by rewrite lookup_delete_ne.
Qed.

(** The lists after a removal that finds the date and the time slot. *)
Lemma remove_from_waiting_list_lists
    (file : WaitingList) session data player date time_slot slots entries :
  session_Mem_No session = Some player ->
  request_date data = Some date -> truthy date = true ->
  request_time_slot data = Some time_slot -> truthy time_slot = true ->
  file !! date = Some slots ->
  slots !! time_slot = Some entries ->
  exists file',
    remove_from_waiting_list file session data = (Removed200, file')
    /\ forall date' time_slot',
         waiting file' date' time_slot'
         = if bool_decide (date' = date /\ time_slot' = time_slot)
           then filter (fun entry => player_id entry <> player) entries
           else waiting file date' time_slot'.
Proof.
  intros Hsession Hdate Htd Hslot Hts Hfile Hslots. unfold remove_from_waiting_list.
  rewrite Hsession, Hdate, Hslot. simpl. rewrite Htd, Hts. simpl.
  rewrite Hfile, Hslots. eexists. split; [reflexivity|].
  intros date' time_slot'.
  set (updated := filter (fun entry => player_id entry <> player) entries).
  assert (Hold : forall t, waiting file date t = default [] (slots !! t)).
  { intros t. unfold waiting. by rewrite Hfile. }
  case_bool_decide as Hempty.
  - rewrite waiting_delete. case_bool_decide as Hd.
    + subst date'. case_bool_decide as Hboth.
      * destruct Hboth as [_ ->]. destruct updated; [reflexivity|].
        by apply insert_non_empty in Hempty.
      * rewrite Hold. destruct (decide (time_slot' = time_slot)) as [->|Ht]; [tauto|].
        assert (Hnone : (match updated with
                         | [] => delete time_slot slots
                         | _ :: _ => <[time_slot:=updated]> slots
                         end) !! time_slot' = None) by (by rewrite Hempty).
        destruct updated.
        -- rewrite lookup_delete_ne in Hnone by done. by rewrite Hnone.
        -- rewrite lookup_insert_ne in Hnone by done. by rewrite Hnone.
    + rewrite bool_decide_eq_false_2; [reflexivity|tauto].
  - unfold waiting at 1. destruct (decide (date' = date)) as [->|Hd].
    + rewrite lookup_insert_eq. simpl. case_bool_decide as Hboth.
      * destruct Hboth as [_ ->]. destruct updated.
        -- by rewrite lookup_delete_eq.
        -- by rewrite lookup_insert_eq.
      * destruct (decide (time_slot' = time_slot)) as [->|Ht]; [tauto|].
        rewrite Hold. destruct updated.
        -- by rewrite lookup_delete_ne.
        -- by rewrite lookup_insert_ne.
    + rewrite lookup_insert_ne by done. rewrite bool_decide_eq_false_2 by tauto.
      reflexivity.
Qed.

(** X17. A removal that finds the date and the time slot answers 200,
    whether or not the member was in the list (404 is only for a missing
    date or slot). Afterwards the list of that slot is the old one
    without every entry of the member, the others in their order, and no
    other list has changed. *)
Theorem remove_from_waiting_list_effect
    (file : WaitingList) session data player date time_slot slots entries :
  session_Mem_No session = Some player ->
  request_date data = Some date -> truthy date = true ->
  request_time_slot data = Some time_slot -> truthy time_slot = true ->
  file !! date = Some slots ->
  slots !! time_slot = Some entries ->
  exists file',
    remove_from_waiting_list file session data = (Removed200, file')
    /\ Forall (fun entry => player_id entry <> player) (waiting file' date time_slot)
    /\ waiting file' date time_slot `sublist_of` entries
    /\ (forall entry, entry ∈ entries -> player_id entry <> player ->
          entry ∈ waiting file' date time_slot)
    /\ forall date' time_slot',
         date' <> date \/ time_slot' <> time_slot ->
         waiting file' date' time_slot' = waiting file date' time_slot'.
Proof.
  intros Hsession Hdate Htd Hslot Hts Hfile Hslots.
  destruct (remove_from_waiting_list_lists file session data player date time_slot
              slots entries Hsession Hdate Htd Hslot Hts Hfile Hslots)
    as (file' & Hrun & Hlists).
  exists file'. split; [exact Hrun|].
  assert (Hhere : waiting file' date time_slot
                  = filter (fun entry => player_id entry <> player) entries).
  { rewrite Hlists. by rewrite bool_decide_eq_true_2. }
  rewrite Hhere. split; [|split; [|split]].
  - apply Forall_forall. intros entry Hin. by apply list_elem_of_filter in Hin as [? _].
  - apply sublist_filter.
  - intros entry Hin Hother. by apply list_elem_of_filter.
  - intros date' time_slot' Hother. rewrite Hlists.
    rewrite bool_decide_eq_false_2; [reflexivity|]. intros [-> ->].
    by destruct Hother.
Qed.

Lemma remove_from_waiting_list_effect_witness :
  exists file',
    remove_from_waiting_list (waiting_for_six [anna_waiting; ben_waiting]) anna_session
      {| request_date := Some "18/12/2030"; request_time_slot := Some "18:00" |}
    = (Removed200, file')
    /\ Forall (fun entry => player_id entry <> 101) (waiting file' "18/12/2030" "18:00")
    /\ waiting file' "18/12/2030" "18:00" `sublist_of` [anna_waiting; ben_waiting].
Proof.
  destruct (remove_from_waiting_list_effect
              (waiting_for_six [anna_waiting; ben_waiting]) anna_session
              {| request_date := Some "18/12/2030"; request_time_slot := Some "18:00" |}
              101 "18/12/2030" "18:00"
              {[ "18:00" := [anna_waiting; ben_waiting] ]} [anna_waiting; ben_waiting])
    as (file' & Hrun & Hnone & Hsub & _).
  - reflexivity.
  - reflexivity.
  - reflexivity.
  - reflexivity.
  - reflexivity.
  - unfold waiting_for_six. apply lookup_singleton_eq.
  - apply lookup_singleton_eq.
  - exists file'. split; [exact Hrun|]. split; [exact Hnone|exact Hsub].
Defined.

Lemma remove_from_waiting_list_sublists (file : WaitingList) session data date' time_slot' :
  waiting (remove_from_waiting_list file session data).2 date' time_slot'
  `sublist_of` waiting file date' time_slot'.
Proof.
  destruct (session_Mem_No session) as [player|] eqn:Hsession;
    [|unfold remove_from_waiting_list; by rewrite Hsession].
  destruct (request_date data) as [date|] eqn:Hdate;
    [|unfold remove_from_waiting_list; by rewrite Hsession, Hdate].
  destruct (truthy date) eqn:Htd;
    [|unfold remove_from_waiting_list; rewrite Hsession, Hdate; simpl; by rewrite Htd].
  destruct (request_time_slot data) as [time_slot|] eqn:Hslot;
    [|unfold remove_from_waiting_list; rewrite Hsession, Hdate, Hslot; simpl;
      by rewrite Htd].
  destruct (truthy time_slot) eqn:Hts;
    [|unfold remove_from_waiting_list; rewrite Hsession, Hdate, Hslot; simpl;
      by rewrite Htd, Hts].
  destruct (file !! date) as [slots|] eqn:Hfile;
    [|unfold remove_from_waiting_list; rewrite Hsession, Hdate, Hslot; simpl;
      by rewrite Htd, Hts, Hfile].
  destruct (slots !! time_slot) as [entries|] eqn:Hslots;
    [|unfold remove_from_waiting_list; rewrite Hsession, Hdate, Hslot; simpl;
      by rewrite Htd, Hts, Hfile, Hslots].
  destruct (remove_from_waiting_list_lists file session data player date time_slot
              slots entries Hsession Hdate Htd Hslot Hts Hfile Hslots)
    as (file' & Hrun & Hlists).
  rewrite Hrun. simpl. rewrite Hlists. case_bool_decide as Hboth; [|reflexivity].
  destruct Hboth as [-> ->]. unfold waiting. rewrite Hfile. simpl. rewrite Hslots. simpl.
  apply sublist_filter.
Qed.

Section WaitingListInvariants.
Context `{DatetimeLib}.

Lemma waiting_cleanup (file : WaitingList) now date time_slot :
  waiting (cleanup_waiting_list file now) date time_slot
  = if keeps_date (on now) date then waiting file date time_slot else [].
Proof.
  unfold waiting. rewrite cleanup_waiting_list_lookup.
  by destruct (keeps_date (on now) date).
Qed.

Lemma process_waiting_list_notifications_lists
    (file : WaitingList) mt date time_slot canceller date' time_slot' :
  let file' := (process_waiting_list_notifications file mt date time_slot canceller).1.2 in
  waiting file' date' time_slot' = waiting file date' time_slot'
  \/ (date' = date /\ time_slot' = substring 0 5 time_slot
      /\ waiting file' date' time_slot' = []).
Proof.
  pose proof (process_waiting_list_notifications_file file mt date time_slot canceller)
    as Hfile.
  destruct (process_waiting_list_notifications file mt date time_slot canceller)
    as [[result file'] mt']. simpl.
  destruct Hfile as [->|(slots & Hdate & _ & ->)]; [by left|].
  unfold waiting. destruct (decide (date' = date)) as [->|Hd].
  - rewrite lookup_insert_eq, Hdate. simpl.
    destruct (decide (time_slot' = substring 0 5 time_slot)) as [->|Ht].
    + right. by rewrite lookup_delete_eq.
    + left. by rewrite lookup_delete_ne.
  - left. by rewrite lookup_insert_ne.
Qed.

(** X18. Every operation on the waiting list file keeps each member at
    most once in the list of a date and time slot: the add request, the
    removal, the cleanup and the notification run all preserve it. *)
Theorem waiting_list_keeps_one_entry_per_member
    (file : WaitingList) db now session data mt date time_slot canceller :
  one_entry_per_member file ->
  one_entry_per_member (add_to_waiting_list file db now session data).2
  /\ one_entry_per_member (remove_from_waiting_list file session data).2
  /\ one_entry_per_member (cleanup_waiting_list file now)
  /\ one_entry_per_member
       (process_waiting_list_notifications file mt date time_slot canceller).1.2.
Proof.
  intros Hfile.
  assert (Hclean : one_entry_per_member (cleanup_waiting_list file now)).
  { intros d t. rewrite waiting_cleanup. destruct (keeps_date _ _); [apply Hfile|].
    constructor. }
  split; [|split; [|split]].
  - destruct (add_to_waiting_list file db now session data) as [response file'] eqn:Hadd.
    destruct response as [address| | |].
    + apply add_to_waiting_list_added in Hadd
        as (player & d & t & _ & -> & -> & Hnew & ->).
      simpl. intros d' t'. rewrite waiting_insert.
      case_bool_decide; [|apply Hclean]. case_bool_decide.
      * rewrite map_app. apply NoDup_app. split; [apply Hclean|].
        split; [|apply NoDup_singleton]. simpl.
        intros x Hin Hx. apply list_elem_of_singleton in Hx as ->.
        apply list_elem_of_fmap in Hin as (other & Hsame & Hin).
        apply not_true_iff_false in Hnew. apply Hnew, existsb_exists.
        exists other. split; [by apply list_elem_of_In|]. by apply bool_decide_eq_true.
      * rewrite waiting_default. apply Hclean.
    + revert Hadd. unfold add_to_waiting_list.
      repeat (match goal with
              | |- context [match ?x with _ => _ end] => destruct x
              end; try discriminate); by intros [= <-].
    + revert Hadd. unfold add_to_waiting_list.
      repeat (match goal with
              | |- context [match ?x with _ => _ end] => destruct x
              end; try discriminate); by intros [= _ <-].
    + revert Hadd. unfold add_to_waiting_list.
      repeat (match goal with
              | |- context [match ?x with _ => _ end] => destruct x
              end; try discriminate); by intros [= <-].
  - intros d t. eapply sublist_NoDup; [apply (Hfile d t)|].
    apply fmap_sublist, remove_from_waiting_list_sublists.
  - exact Hclean.
  - intros d t.
    destruct (process_waiting_list_notifications_lists file mt date time_slot canceller d t)
      as [->|(_ & _ & ->)]; [apply Hfile|constructor].
Qed.

End WaitingListInvariants.

Lemma one_entry_per_member_six entries :
  NoDup (map player_id entries) -> one_entry_per_member (waiting_for_six entries).
Proof.
  intros Hentries date time_slot. unfold waiting, waiting_for_six.
  destruct (decide (date = "18/12/2030")) as [->|Hd].
  - rewrite lookup_singleton_eq. simpl.
    destruct (decide (time_slot = "18:00")) as [->|Ht].
    + by rewrite lookup_singleton_eq.
    + rewrite lookup_singleton_ne by done. constructor.
  - rewrite lookup_singleton_ne by done. constructor.
Qed.

Lemma waiting_list_keeps_one_entry_per_member_witness :
  one_entry_per_member
    (add_to_waiting_list (waiting_for_six [ben_waiting]) club (at_clock 17 9 0)
       anna_session six_request).2
  /\ one_entry_per_member
       (remove_from_waiting_list (waiting_for_six [ben_waiting]) anna_session
          six_request).2
  /\ one_entry_per_member
       (cleanup_waiting_list (waiting_for_six [ben_waiting]) (at_clock 17 9 0))
  /\ one_entry_per_member
       (process_waiting_list_notifications (waiting_for_six [ben_waiting])
          (transport []) "18/12/2030" "18:00" None).1.2.
Proof.
  apply (waiting_list_keeps_one_entry_per_member (H := strict_datetime)).
  apply one_entry_per_member_six. repeat constructor. intros Hin. inversion Hin.
Defined.

(** X19. The add request, the removal and the cleanup keep the shape of
    the file: afterwards no date maps to an empty slot map and no time
    slot to an empty list, if that held before. *)
Theorem waiting_list_keeps_shape `{DatetimeLib} (file : WaitingList) db now session data :
  no_empty_keys file ->
  no_empty_keys (add_to_waiting_list file db now session data).2
  /\ no_empty_keys (remove_from_waiting_list file session data).2
  /\ no_empty_keys (cleanup_waiting_list file now).
Proof.
  intros Hfile. split; [|split].
  - by apply add_to_waiting_list_shape.
  - by apply remove_from_waiting_list_shape.
  - by apply cleanup_waiting_list_shape.
Qed.

Lemma waiting_list_keeps_shape_witness :
  no_empty_keys
    (add_to_waiting_list (waiting_for_six [ben_waiting]) club (at_clock 17 9 0)
       anna_session six_request).2
  /\ no_empty_keys
       (remove_from_waiting_list (waiting_for_six [ben_waiting]) anna_session
          six_request).2
  /\ no_empty_keys (cleanup_waiting_list (waiting_for_six [ben_waiting]) (at_clock 17 9 0)).
Proof.
  apply (waiting_list_keeps_shape (H := strict_datetime)).
  by apply waiting_for_six_shape.
Defined.

(** * Further properties of the notification run *)

Section NotificationFacts.
Context `{DatetimeLib}.

(** X20. A notification run touches at most the list it was called for:
    every list of another date or time slot is as before, the list of
    the slot itself is either as before or gone, and a run that raises
    has saved nothing. *)
Theorem process_waiting_list_notifications_only_its_slot
    (file : WaitingList) mt date time_slot canceller :
  let run := process_waiting_list_notifications file mt date time_slot canceller in
  (forall date' time_slot',
     date' <> date \/ time_slot' <> substring 0 5 time_slot ->
     waiting run.1.2 date' time_slot' = waiting file date' time_slot')
  /\ (waiting run.1.2 date (substring 0 5 time_slot)
      = waiting file date (substring 0 5 time_slot)
      \/ waiting run.1.2 date (substring 0 5 time_slot) = [])
  /\ (forall e, run.1.1 = Raise e -> run.1.2 = file).
Proof.
  cbv zeta. split; [|split].
  - intros date' time_slot' Hother.
    destruct (process_waiting_list_notifications_lists file mt date time_slot canceller
                date' time_slot') as [Hsame|(-> & -> & _)]; [exact Hsame|].
    by destruct Hother.
  - destruct (process_waiting_list_notifications_lists file mt date time_slot canceller
                date (substring 0 5 time_slot)) as [Hsame|(_ & _ & Hgone)]; auto.
  - intros e Hraise.
    pose proof (process_waiting_list_notifications_file file mt date time_slot canceller)
      as Hfile.
    destruct (process_waiting_list_notifications file mt date time_slot canceller)
      as [[result file'] mt']. simpl in *.
    destruct Hfile as [->|(slots & _ & -> & _)]; [reflexivity|discriminate].
Qed.

(** X21. With a transport that delivers every message, and a date and a
    time the mail function reads, the loop over the entries keeps exactly
    the entries of the cancelling player it was told about, in their
    order, and writes once, in order, to every other entry that has an
    address and both names. An entry that lacks one of them is neither
    written to nor kept. *)
Theorem notify_entries_delivering
    date time_slot canceller entries updated_entries log parsed_date parsed_time :
  strptime_dmY date = Some parsed_date ->
  strptime_HM time_slot = Some parsed_time ->
  notify_entries date time_slot canceller entries updated_entries
    {| script := []; attempts := log |}
  = (updated_entries ++ filter (is_canceller canceller) entries,
     {| script := [];
        attempts :=
          log ++ map (fun entry =>
                        ({| recipient := email_address entry;
                            F_Lastname := entry_first_name entry;
                            formatted_date := strftime_dmY parsed_date;
                            formatted_time := strftime_HM parsed_time |}, true))
                   (filter (fun entry => ~ is_canceller canceller entry
                                         /\ mailable entry = true) entries) |}).
Proof.
  intros Hdate Htime. revert updated_entries log.
  induction entries as [|entry rest IH]; intros updated_entries log.
  - simpl. by rewrite !app_nil_r.
  - cbn [notify_entries]. rewrite !filter_cons. unfold is_canceller at 1 3.
    case_bool_decide as Hcanceller.
    + rewrite decide_True by assumption. rewrite decide_False by tauto.
      rewrite IH, <- app_assoc. reflexivity.
    + rewrite decide_False by assumption. fold (mailable entry).
      destruct (mailable entry) eqn:Hmail.
      * rewrite decide_True by tauto.
        unfold send_booking_cancellation_email. rewrite Hdate, Htime.
        unfold send_email. simpl. rewrite IH, <- app_assoc. reflexivity.
      * rewrite decide_False by (intros [_ ?]; discriminate). apply IH.
Qed.

(** X22. When the mail function does not read the date or the time, no
    message reaches the transport, and every entry it would have written
    to is kept, as are the entries of the cancelling player. *)
Theorem notify_entries_unreadable_date
    date time_slot canceller entries updated_entries mt :
  strptime_dmY date = None \/ strptime_HM time_slot = None ->
  notify_entries date time_slot canceller entries updated_entries mt
  = (updated_entries
     ++ filter (fun entry => is_canceller canceller entry \/ mailable entry = true) entries,
     mt).
Proof.
  intros Hunread. revert updated_entries.
  induction entries as [|entry rest IH]; intros updated_entries.
  - simpl. by rewrite app_nil_r.
  - cbn [notify_entries]. rewrite filter_cons. unfold is_canceller at 1.
    case_bool_decide as Hcanceller.
    + rewrite decide_True by tauto. rewrite IH, <- app_assoc. reflexivity.
    + fold (mailable entry). destruct (mailable entry) eqn:Hmail.
      * rewrite decide_True by tauto.
        assert (Hsend : send_booking_cancellation_email mt (email_address entry)
                          (entry_first_name entry) date time_slot
                        = (Raise ValueError, mt)).
        { unfold send_booking_cancellation_email.
          destruct Hunread as [-> | Htime]; [reflexivity|].
          rewrite Htime. by destruct (strptime_dmY date). }
        rewrite Hsend, IH, <- app_assoc. reflexivity.
      * rewrite decide_False by (intros [?|?]; [contradiction|discriminate]). apply IH.
Qed.

End NotificationFacts.

Lemma notify_entries_delivering_witness :
  notify_entries "18/12/2030" "18:00" (Some 101) [anna_waiting; ben_waiting] []
    {| script := []; attempts := [] |}
  = ([anna_waiting],
     {| script := [];
        attempts := [(notice ben_waiting "18/12/2030" "18:00", true)] |}).
Proof.
  rewrite (notify_entries_delivering (H := strict_datetime) "18/12/2030" "18:00"
             (Some 101) [anna_waiting; ben_waiting] [] []
             {| year := 2030; month := 12; day := 18 |}
             {| on := {| year := 1900; month := 1; day := 1 |};
                hour := 18; minute := 0; second := 0; microsecond := 0 |}).
  - vm_compute. reflexivity.
  - reflexivity.
  - reflexivity.
Defined.

Lemma notify_entries_unreadable_date_witness :
  notify_entries "2030-12-18" "18:00" None [anna_waiting; ben_waiting] []
    (transport [true; true])
  = ([anna_waiting; ben_waiting], transport [true; true]).
Proof.
  rewrite (notify_entries_unreadable_date (H := strict_datetime)).
  - vm_compute. reflexivity.
  - left. reflexivity.
Defined.

(** * Further properties of the cancellation *)

Section CancellationFacts.
Context `{DatetimeLib}.

(** X23. A cancellation that is answered 404 has changed nothing: the
    ledger and the credit are as before, the waiting list file is not
    touched and no message is sent. *)
Theorem delete_booking_not_found_changes_nothing
    w date_formatted selected_time player_no_column player_no period_id w' :
  delete_booking w date_formatted selected_time player_no_column player_no period_id
  = (DeleteError404, w') ->
  w' = w.
Proof.
  unfold delete_booking.
  destruct (delete_internet_booking _ _ _ _) as [[|] db1] eqn:Hrelease; simpl.
  - destruct (process_waiting_list_notifications _ _ _ _ _) as [[? file1] mail1].
    destruct (delete_booking_financials db1 player_no period_id) as [[?|?] db2];
      discriminate.
  - intros [= <-]. apply delete_internet_booking_unchanged in Hrelease as ->.
    by destruct w.
Qed.

(** X24. The answer of a cancellation and the database it leaves do not
    depend on the waiting list file or on the mail transport: whatever
    the notification step does or raises, the cancellation is answered
    and charged the same. *)
Theorem delete_booking_ignores_notification_outcome
    w file mt date_formatted selected_time player_no_column player_no period_id :
  let w2 := {| database := database w; waiting_list_file := file; mail := mt |} in
  (delete_booking w date_formatted selected_time player_no_column player_no period_id).1
  = (delete_booking w2 date_formatted selected_time player_no_column player_no
       period_id).1
  /\ database (delete_booking w date_formatted selected_time player_no_column player_no
                period_id).2
     = database (delete_booking w2 date_formatted selected_time player_no_column
                   player_no period_id).2.
Proof.
  cbv zeta. unfold delete_booking. simpl.
  destruct (delete_internet_booking _ _ _ _) as [[|] db1]; simpl; [|by split].
  destruct (process_waiting_list_notifications (waiting_list_file w) _ _ _ _)
    as [[? file1] mail1].
  destruct (process_waiting_list_notifications file _ _ _ _) as [[? file2] mail2].
  destruct (delete_booking_financials db1 player_no period_id) as [[?|?] db2];
    by split.
Qed.

End CancellationFacts.

Lemma delete_booking_not_found_changes_nothing_witness :
  (delete_booking cancellation_day "18/12/2030" "18:00" 0 202 1).2 = cancellation_day.
Proof.
  apply (delete_booking_not_found_changes_nothing (H := strict_datetime)
           cancellation_day "18/12/2030" "18:00" 0 202 1).
  vm_compute. reflexivity.
Defined.

(** * Further properties of the slot catalogue *)

Lemma string_leb_trans s1 s2 s3 :
  String.leb s1 s2 = true -> String.leb s2 s3 = true -> String.leb s1 s3 = true.
Proof.
  unfold String.leb. revert s2 s3.
  induction s1 as [|x s1 IH]; intros [|y s2] [|z s3]; simpl;
    try discriminate; try reflexivity.
  unfold Ascii.compare.
  set (nx := N_of_ascii x). set (ny := N_of_ascii y). set (nz := N_of_ascii z).
  destruct (N.compare_spec nx ny), (N.compare_spec ny nz), (N.compare_spec nx nz);
    try lia; try discriminate; try reflexivity; try apply IH.
Qed.

#[global] Instance string_le_total : Total string_le.
Proof. intros s1 s2. apply String.leb_total. Qed.

Section TimeSlotFacts.
Context `{DatetimeLib}.

Lemma get_time_slots_elem db booktime day_of_week start_time :
  start_time ∈ get_time_slots db booktime day_of_week
  <-> online db = true
      /\ within_hours day_of_week start_time = true
      /\ exists row, row ∈ booktime /\ strftime_HM row = start_time.
Proof.
  unfold get_time_slots. destruct (online db); simpl.
  - rewrite merge_sort_Permutation, elem_of_remove_dups, list_elem_of_filter,
      list_elem_of_fmap.
    split.
    + intros (Hin & row & -> & Hrow). eauto.
    + intros (_ & Hin & row & Hrow & <-). eauto.
  - split; [intros Hin; inversion Hin|intros (? & _); discriminate].
Qed.

(** X25. The slot catalogue of a day is in ascending order and has no
    time twice; it holds exactly the start times of [Booktime] that lie
    between 05:30 and 21:15 (19:00 for day 1, the Sunday); so every slot
    of the Sunday is a slot of each other day. Without a connection the
    catalogue is empty. *)
Theorem get_time_slots_catalogue db booktime day_of_week :
  Sorted string_le (get_time_slots db booktime day_of_week)
  /\ NoDup (get_time_slots db booktime day_of_week)
  /\ (forall start_time,
        start_time ∈ get_time_slots db booktime day_of_week
        <-> online db = true
            /\ within_hours day_of_week start_time = true
            /\ exists row, row ∈ booktime /\ strftime_HM row = start_time)
  /\ (forall start_time,
        start_time ∈ get_time_slots db booktime (Some 1) ->
        start_time ∈ get_time_slots db booktime day_of_week).
Proof.
  split; [|split; [|split]].
  - unfold get_time_slots. destruct (negb (online db)); [constructor|].
    apply Sorted_merge_sort, _.
  - unfold get_time_slots. destruct (negb (online db)); [constructor|].
    rewrite merge_sort_Permutation. apply NoDup_remove_dups.
  - apply get_time_slots_elem.
  - intros start_time Hin. apply get_time_slots_elem in Hin as (Honline & Hhours & Hrow).
    apply get_time_slots_elem. split; [exact Honline|]. split; [|exact Hrow].
    unfold within_hours in *. rewrite bool_decide_eq_true_2 in Hhours by reflexivity.
    case_bool_decide; [exact Hhours|].
    apply andb_true_iff in Hhours as [Hfrom Hto]. rewrite Hfrom. simpl.
    by apply (string_leb_trans _ "19:00").
Qed.

End TimeSlotFacts.

Example get_time_slots_example :
  let booktime := [at_clock 1 21 15; at_clock 1 5 30; at_clock 1 19 45;
                   at_clock 1 5 30; at_clock 1 4 0; at_clock 1 22 0] in
  get_time_slots club booktime (Some 2) = ["05:30"; "19:45"; "21:15"]
  /\ get_time_slots club booktime (Some 1) = ["05:30"]
  /\ get_time_slots club booktime None = ["05:30"; "19:45"; "21:15"].
Proof. repeat split; vm_compute; reflexivity. Qed.

(** X26. The slot id of a booking or cancellation request, a JSON
    integer, gets past the two tests of the handlers exactly when it is
    not 0 and lies between [1 - n] and [n], [n] being the number of
    slots: the ids 1 .. n select the slot at position [slot_id - 1], and
    the ids -1, .. , 1 - n are accepted too and select from the end of
    the catalogue (-1 is the slot before the last); the id 0 and every
    other id are answered 400. *)
Theorem selected_slot_bounds time_slots slot_id :
  let n := Z.of_nat (length time_slots) in
  (is_Some (selected_slot time_slots slot_id)
   <-> slot_id <> 0 /\ 1 - n <= slot_id <= n)
  /\ (1 <= slot_id <= n ->
      selected_slot time_slots slot_id = time_slots !! Z.to_nat (slot_id - 1))
  /\ (1 - n <= slot_id <= -1 ->
      selected_slot time_slots slot_id = time_slots !! Z.to_nat (n + slot_id - 1))
  /\ selected_slot time_slots 0 = None.
Proof.
  cbv zeta. unfold selected_slot.
  split; [|split; [|split]].
  - case_bool_decide as Hzero.
    + split; [intros [? ?]; discriminate|intros [? _]; contradiction].
    + destruct (Z.leb_spec 0 (slot_id - 1)).
      * rewrite lookup_lt_is_Some. lia.
      * destruct (Z.leb_spec (- Z.of_nat (length time_slots)) (slot_id - 1)).
        -- rewrite lookup_lt_is_Some. lia.
        -- split; [intros [? ?]; discriminate|lia].
  - intros Hin. rewrite bool_decide_eq_false_2 by lia.
    destruct (Z.leb_spec 0 (slot_id - 1)); [reflexivity|lia].
  - intros Hlow. rewrite bool_decide_eq_false_2 by lia.
    destruct (Z.leb_spec 0 (slot_id - 1)); [lia|].
    destruct (Z.leb_spec (- Z.of_nat (length time_slots)) (slot_id - 1)); [|lia].
    f_equal. lia.
  - reflexivity.
Qed.

Lemma selected_slot_bounds_witness :
  selected_slot ["05:30"; "06:15"; "07:00"] 2 = Some "06:15"
  /\ selected_slot ["05:30"; "06:15"; "07:00"] (-1) = Some "06:15"
  /\ selected_slot ["05:30"; "06:15"; "07:00"] 0 = None
  /\ selected_slot ["05:30"; "06:15"; "07:00"] 4 = None.
Proof.
  destruct (selected_slot_bounds ["05:30"; "06:15"; "07:00"] 2) as (_ & Hup & _ & Hzero).
  destruct (selected_slot_bounds ["05:30"; "06:15"; "07:00"] (-1)) as (_ & _ & Hdown & _).
  destruct (selected_slot_bounds ["05:30"; "06:15"; "07:00"] 4) as (Hout & _).
  split; [rewrite Hup; [reflexivity|simpl; lia]|].
  split; [rewrite Hdown; [reflexivity|simpl; lia]|].
  split; [exact Hzero|].
  destruct (selected_slot ["05:30"; "06:15"; "07:00"] 4) as [slot|] eqn:Hslot;
    [|reflexivity].
  assert (Hsome : is_Some (Some slot)) by eauto.
  apply Hout in Hsome. simpl in Hsome. lia.
Defined.

(** * Further properties of the rows the limit checks read *)

Lemma player_list_columns row (columns : list nat) :
  omap (fun col => match cell row col with
                   | Some n => if bool_decide (n = -9) then None else Some (Some n)
                   | None => Some None
                   end) columns
  = map (cell row) (filter (fun col => cell row col <> Some (-9)) columns).
Proof.
  induction columns as [|col columns IH]; [reflexivity|].
  rewrite filter_cons. cbn [omap list_omap]. fold (@omap list _).
  destruct (cell row col) as [n|] eqn:Hcell.
  - case_bool_decide as Hmarker.
    + subst n. rewrite decide_False by (intros Hne; by apply Hne). exact IH.
    + rewrite decide_True by congruence. cbn [map]. by rewrite Hcell, <- IH.
  - rewrite decide_True by discriminate. cbn [map]. by rewrite Hcell, <- IH.
Qed.

Lemma filter_keeps_all {A} (P : A -> Prop) `{forall x, Decision (P x)} (l : list A) :
  (forall x, x ∈ l -> P x) -> filter P l = l.
Proof.
  induction l as [|x l IH]; intros Hall; [reflexivity|].
  rewrite filter_cons_True by (apply Hall; left). f_equal. apply IH.
  intros y Hin. apply Hall. by right.
Qed.

(** X27. The player list of a booked row is the cells of its columns in
    order with the restricted columns left out, not blanked: it never
    holds [-9], it is shorter than the ten courts by the number of
    restricted columns, and position and court agree for all courts only
    when no column is restricted. After a restricted column every player
    stands one position to the left of the court. *)
Theorem player_list_skips_restricted row :
  player_list row
  = map (cell row) (filter (fun col => cell row col <> Some (-9)) (seq 0 player_columns))
  /\ Forall (fun item => item <> Some (-9)) (player_list row)
  /\ (length (player_list row) <= player_columns)%nat
  /\ ((forall col, (col < player_columns)%nat -> cell row col <> Some (-9)) ->
      forall col, (col < player_columns)%nat ->
        player_list row !! col = Some (cell row col))
  /\ (cell row 0 = Some (-9) ->
      (forall col, (0 < col < player_columns)%nat -> cell row col <> Some (-9)) ->
      forall col, (0 < col < player_columns)%nat ->
        player_list row !! (col - 1)%nat = Some (cell row col)).
Proof.
  assert (Hlist : player_list row
                  = map (cell row) (filter (fun col => cell row col <> Some (-9))
                                      (seq 0 player_columns)))
    by apply player_list_columns.
  split; [exact Hlist|]. rewrite Hlist. split; [|split; [|split]].
  - apply Forall_forall. intros item Hin.
    apply list_elem_of_fmap in Hin as (col & -> & Hin).
    by apply list_elem_of_filter in Hin as [? _].
  - rewrite length_map. etransitivity; [apply length_filter|]. by rewrite length_seq.
  - intros Hnone col Hcol.
    assert (Hall : filter (fun col => cell row col <> Some (-9)) (seq 0 player_columns)
                   = seq 0 player_columns).
    { apply filter_keeps_all. intros c Hin. apply elem_of_seq in Hin. apply Hnone. lia. }
    rewrite Hall, list_lookup_fmap, lookup_seq_lt by assumption. reflexivity.
  - intros Hfirst Hrest col Hcol. unfold player_columns in *.
    change (seq 0 10) with (0%nat :: seq 1 9). rewrite filter_cons.
    rewrite decide_False by (intros Hne; by apply Hne).
    assert (Hall : filter (fun col => cell row col <> Some (-9)) (seq 1 9) = seq 1 9).
    { apply filter_keeps_all. intros c Hin. apply elem_of_seq in Hin. apply Hrest. lia. }
    rewrite Hall, list_lookup_fmap, lookup_seq_lt by lia. simpl. do 2 f_equal. lia.
Qed.

(** At 18:00 court 2 is restricted: the list has nine items and the
    empty court 3 stands at position 1. *)
Example player_list_example :
  player_list {| StartTime1 := "18/12/2030 18:00:00";
                 PlayerNo := {[ 0%nat := 101; 1%nat := -9; 3%nat := 202 ]};
                 PlayName := ∅ |}
  = [Some 101; None; Some 202; None; None; None; None; None; None].
Proof. vm_compute. reflexivity. Qed.

(** X28. The limits shown to a member and the limits the checks use are
    aligned with the periods in the same way as far as there are periods;
    but the display has an item for every limit, marked "Unknown" past
    the last period, while the checks drop the limits that have no
    period. *)
Theorem align_descriptions_and_align_limits (periods_ : list Period) limits :
  length (align_descriptions periods_ limits) = length limits
  /\ length (align_limits limits periods_) = min (length limits) (length periods_)
  /\ (forall (i : nat) aligned,
        align_limits limits periods_ !! i = Some aligned ->
        align_descriptions periods_ limits !! i
        = Some (limit aligned, Some (period_id aligned), period_description aligned)
        /\ bookings_count aligned = 0)
  /\ (forall (i : nat) limit_,
        limits !! i = Some limit_ -> (length periods_ <= i)%nat ->
        align_descriptions periods_ limits !! i = Some (limit_, None, "Unknown")).
Proof.
  unfold align_descriptions. split; [apply length_imap|]. split; [|split].
  - revert periods_. induction limits as [|l limits IH]; intros [|p periods_]; simpl;
      try reflexivity. by rewrite IH.
  - intros i. revert periods_ limits.
    induction i as [|i IH]; intros [|p periods_] [|l limits] aligned; simpl;
      try discriminate.
    + intros [= <-]. simpl. auto.
    + intros Haligned. destruct (IH periods_ limits aligned Haligned) as [Hshown Hzero].
      split; [|exact Hzero]. rewrite list_lookup_imap in Hshown |- *. simpl.
      destruct (limits !! i); simpl in *; [|discriminate]. exact Hshown.
  - intros i limit_ Hlimit Hpast. rewrite list_lookup_imap, Hlimit. simpl.
    by rewrite (lookup_ge_None_2 periods_ i).
Qed.
